(** * Ghost: the intent recogniser ([Backend/IntentRecognizer.py])

    A shallow embedding of the [IntentRecognizer] class and the proofs of the
    properties stated about it.

    Conventions of the embedding.
    - A Python [str] is a Rocq [string]; a character is read as the Unicode
      code point of the same number, so the texts covered are those whose
      code points are below 256.  The character tables below ([is_space],
      [is_word], [lower_char]) are CPython's [str.isspace], the [\w] class of
      [re] on [str] patterns and [str.lower] on that range.
    - A Python [float] confidence is the rational number it denotes ([Q]);
      the literals [0.8] and [0.6] are the exact values of the doubles.
      Only comparisons and [max] are applied to confidences; NaN and the
      infinities are outside the model.
    - The SQLite connection is a pair of in-memory tables, the tables as the
      connection sees them, plus a flag telling whether the connection is
      still open.  A statement on a closed connection raises
      [sqlite3.Error].  On an open one it succeeds when the caller is the
      thread that opened the connection and the database is not locked;
      [Conn] is the connection that can refuse a statement while open, and
      the query log of [predict_intent] is stated on it.  CURRENT_TIMESTAMP
      is read from a clock that belongs to the environment.
    - The scikit-learn pipeline is an interface ([Classifier]): the embedding
      is parametric in what [fit], [predict] and [predict_proba] compute and
      in whether they raise.
    - The model file [intent_model.pkl] is absent, empty, unreadable or the
      pickle of a model, which unpickles to that model; a write replaces it
      or is refused as a whole.  What a start finds in the database is part
      of its environment.
    - Of the callers, [LearningAssistant.get_action_for_intent] and the
      decisions of [GhostCore._process_command] are embedded; what is
      spoken, shown or run on the system is not. *)

From Stdlib Require Import Bool Arith NArith ZArith QArith List Ascii String Lia.
From Stdlib Require Import Sorting.Permutation Sorting.Sorted.
Import ListNotations.

Local Close Scope Q_scope.
Local Open Scope string_scope.
Local Open Scope bool_scope.

(* ================================================================== *)
(** ** Python strings *)

Module PyStr.

Definition code (c : ascii) : N := N_of_ascii c.

Definition in_range (lo hi : N) (c : ascii) : bool :=
  ((lo <=? code c) && (code c <=? hi))%N.

(** [str.isspace], the set used by [str.strip], [str.split] and [\s]. *)
Definition is_space (c : ascii) : bool :=
  in_range 9 13 c || in_range 28 32 c
  || (code c =? 133)%N || (code c =? 160)%N.

(** Characters changed by [str.lower]. *)
Definition is_upper (c : ascii) : bool :=
  in_range 65 90 c || in_range 192 214 c || in_range 216 222 c.

Definition lower_char (c : ascii) : ascii :=
  if is_upper c then ascii_of_N (code c + 32) else c.

(** The class [\w]: alphanumeric characters and the underscore. *)
Definition is_word (c : ascii) : bool :=
  in_range 48 57 c || in_range 65 90 c || (code c =? 95)%N
  || in_range 97 122 c
  || (code c =? 170)%N || in_range 178 179 c || (code c =? 181)%N
  || in_range 185 186 c || in_range 188 190 c
  || in_range 192 214 c || in_range 216 246 c || in_range 248 255 c.

(** [s.lower()] *)
Fixpoint lower (s : string) : string :=
  match s with
  | EmptyString => EmptyString
  | String c s' => String (lower_char c) (lower s')
  end.

Fixpoint lstrip (s : string) : string :=
  match s with
  | EmptyString => EmptyString
  | String c s' => if is_space c then lstrip s' else s
  end.

Fixpoint rstrip (s : string) : string :=
  match s with
  | EmptyString => EmptyString
  | String c s' =>
      match rstrip s' with
      | EmptyString => if is_space c then EmptyString else String c EmptyString
      | r => String c r
      end
  end.

(** [s.strip()] *)
Definition strip (s : string) : string := rstrip (lstrip s).

(** True when [s] is empty or begins with a whitespace character: the
    position in front of [s] ends a token. *)
Definition starts_space (s : string) : bool :=
  match s with
  | EmptyString => true
  | String c _ => is_space c
  end.

(** [s.split()]: the maximal runs of non-whitespace characters. *)
Fixpoint split (s : string) : list string :=
  match s with
  | EmptyString => []
  | String c s' =>
      if is_space c then split s'
      else if starts_space s' then String c EmptyString :: split s'
      else match split s' with
           | w :: ws => String c w :: ws
           | [] => [String c EmptyString]
           end
  end.

(** [sep.join(ws)] *)
Fixpoint join (sep : string) (ws : list string) : string :=
  match ws with
  | [] => EmptyString
  | w :: ws' =>
      match ws' with
      | [] => w
      | _ :: _ => w ++ sep ++ join sep ws'
      end
  end.

(** [s.startswith(p)] *)
Fixpoint startswith (s p : string) : bool :=
  match p, s with
  | EmptyString, _ => true
  | String _ _, EmptyString => false
  | String a p', String b s' => Ascii.eqb a b && startswith s' p'
  end.

(** [t in s] for strings: [t] occurs in [s] as a contiguous substring. *)
Fixpoint contains (s t : string) : bool :=
  startswith s t ||
  match s with
  | EmptyString => false
  | String _ s' => contains s' t
  end.

(** [x in xs] for a list of strings. *)
Definition mem (x : string) (xs : list string) : bool :=
  existsb (String.eqb x) xs.

(** Python truthiness of a string. *)
Definition truthy (s : string) : bool :=
  match s with EmptyString => false | String _ _ => true end.

Fixpoint all_chars (P : ascii -> bool) (s : string) : bool :=
  match s with
  | EmptyString => true
  | String c s' => P c && all_chars P s'
  end.

End PyStr.
Import PyStr.

(* ================================================================== *)
(** ** The text normaliser *)

(** [re.sub(r'[^\w\s]', ' ', text)] *)
Fixpoint sub_punct (s : string) : string :=
  match s with
  | EmptyString => EmptyString
  | String c s' =>
      String (if is_word c || is_space c then c else " "%char) (sub_punct s')
  end.

(** [re.sub(r'\s+', ' ', text)]: every maximal run of whitespace becomes one
    space; the space is emitted at the last character of the run. *)
Fixpoint sub_spaces (s : string) : string :=
  match s with
  | EmptyString => EmptyString
  | String c s' =>
      if is_space c then
        match s' with
        | String d _ =>
            if is_space d then sub_spaces s' else String " " (sub_spaces s')
        | EmptyString => String " " EmptyString
        end
      else String c (sub_spaces s')
  end.

Definition _preprocess_text (text : string) : string :=
  let text := strip (lower text) in
  let text := sub_punct text in
  let text := sub_spaces text in
  let words := filter (fun w => (2 <? String.length w)%nat) (split text) in
  join " " words.

(* ================================================================== *)
(** ** Regular expressions

    The patterns of [_extract_location] and [_resolve_intent] use lazy and
    greedy repetition, an optional suffix, a capture group, [\b] and [$];
    their result depends on the order in which [re] explores alternatives.
    [run] is a backtracking matcher with that order: the continuation [k]
    stands for the rest of the pattern, and the first success wins. *)

Module Re.

Inductive regex : Type :=
| Eps
| Chr (p : ascii -> bool)            (* one character of a class *)
| Seq (r1 r2 : regex)
| Alt (r1 r2 : regex)                (* r1|r2, r1 tried first *)
| Star (greedy : bool) (r : regex)   (* r* and r*? *)
| Group (r : regex)                  (* the capture group (r) *)
| WordB                              (* \b *)
| Eos.                               (* $ *)

(** A position in the subject: the text already passed (last character
    first), the text ahead, and the capture group's content so far. *)
Record mstate : Type := MState {
  pre : list ascii;
  rest : string;
  cap : option string
}.

Definition newline : ascii := ascii_of_N 10.

Definition head_is_word (o : option ascii) : bool :=
  match o with Some c => is_word c | None => false end.

Definition next_char (s : string) : option ascii :=
  match s with String c _ => Some c | EmptyString => None end.

Definition word_boundary (st : mstate) : bool :=
  xorb (head_is_word (hd_error (pre st))) (head_is_word (next_char (rest st))).

(** [$] without MULTILINE: the end of the string, or just before a newline
    that is the last character. *)
Definition at_end (st : mstate) : bool :=
  match rest st with
  | EmptyString => true
  | String c EmptyString => Ascii.eqb c newline
  | _ => false
  end.

(** The last [n] characters passed, in reading order. *)
Definition passed (n : nat) (st : mstate) : string :=
  string_of_list_ascii (rev (firstn n (pre st))).

(** The rounds of [r*] and [r*?] from [st]: [body] matches [r] once and
    hands over to the next round, which is entered only when [r] consumed
    something.  A round is started with more fuel than there are characters
    ahead, so the fuel never runs out ([run_star_fuel]). *)
Fixpoint star_loop {A : Type}
    (body : mstate -> (mstate -> option A) -> option A)
    (greedy : bool) (k : mstate -> option A) (n : nat) (st : mstate)
    {struct n} : option A :=
  match n with
  | O => k st
  | S n' =>
      let again (st' : mstate) :=
        if (String.length (rest st') <? String.length (rest st))%nat
        then star_loop body greedy k n' st' else None in
      if greedy then
        match body st again with
        | Some a => Some a
        | None => k st
        end
      else
        match k st with
        | Some a => Some a
        | None => body st again
        end
  end.

Fixpoint run {A : Type} (r : regex) (st : mstate)
    (k : mstate -> option A) {struct r} : option A :=
  match r with
  | Eps => k st
  | Chr p =>
      match rest st with
      | String c s' =>
          if p c then k (MState (c :: pre st) s' (cap st)) else None
      | EmptyString => None
      end
  | Seq r1 r2 => run r1 st (fun st' => run r2 st' k)
  | Alt r1 r2 =>
      match run r1 st k with
      | Some a => Some a
      | None => run r2 st k
      end
  | Star greedy r1 =>
      star_loop (run r1) greedy k (S (String.length (rest st))) st
  | Group r1 =>
      let n0 := List.length (pre st) in
      run r1 st (fun st' =>
        k (MState (pre st') (rest st')
             (Some (passed (List.length (pre st') - n0) st'))))
  | WordB => if word_boundary st then k st else None
  | Eos => if at_end st then k st else None
  end.

Record rmatch : Type := RMatch {
  m_text : string;            (* group(0) *)
  m_group1 : option string    (* group(1) *)
}.

Definition match_here (r : regex) (p : list ascii) (s : string)
  : option mstate :=
  run r (MState p s None) (fun st' => Some st').

Definition matched_text (p : list ascii) (st' : mstate) : string :=
  passed (List.length (pre st') - List.length p) st'.

(** [re.search]: the match at the leftmost position that has one. *)
Fixpoint search_from (r : regex) (p : list ascii) (s : string)
  : option rmatch :=
  match match_here r p s with
  | Some st' => Some (RMatch (matched_text p st') (cap st'))
  | None =>
      match s with
      | EmptyString => None
      | String c s' => search_from r (c :: p) s'
      end
  end.

Definition search (r : regex) (s : string) : option rmatch :=
  search_from r [] s.

(** [re.findall] for a pattern without groups: the texts of the successive
    non-overlapping matches.  [skip] counts the characters of the previous
    match still to be passed. *)
Fixpoint findall_from (r : regex) (p : list ascii) (s : string) (skip : nat)
    {struct s} : list string :=
  let continue (k : nat) :=
    match s with
    | EmptyString => []
    | String c s' => findall_from r (c :: p) s' k
    end in
  match skip with
  | S k => continue k
  | O =>
      match match_here r p s with
      | Some st' =>
          matched_text p st'
            :: continue (List.length (pre st') - List.length p - 1)%nat
      | None => continue O
      end
  end.

Definition findall (r : regex) (s : string) : list string :=
  findall_from r [] s 0.

(** Pattern building blocks. *)
Definition plus (greedy : bool) (r : regex) : regex := Seq r (Star greedy r).
Definition opt (r : regex) : regex := Alt r Eps.

Fixpoint lit (s : string) : regex :=
  match s with
  | EmptyString => Eps
  | String c s' => Seq (Chr (Ascii.eqb c)) (lit s')
  end.

(** A literal under [re.IGNORECASE]. *)
Fixpoint lit_i (s : string) : regex :=
  match s with
  | EmptyString => Eps
  | String c s' =>
      Seq (Chr (fun x => Ascii.eqb (lower_char x) (lower_char c))) (lit_i s')
  end.

Fixpoint alts (rs : list regex) : regex :=
  match rs with
  | [] => Chr (fun _ => false)
  | [r] => r
  | r :: rs' => Alt r (alts rs')
  end.

Definition seqs (rs : list regex) : regex := fold_right Seq Eps rs.

Definition ws : regex := Chr is_space.                       (* \s *)
Definition upper_az : regex := Chr (in_range 65 90).         (* [A-Z] *)
Definition alpha_az : regex :=                               (* [a-zA-Z] *)
  Chr (fun c => in_range 97 122 c || in_range 65 90 c).
Definition dot : regex := Chr (fun c => negb (Ascii.eqb c newline)).  (* . *)

End Re.

(** [r'\b(?:in|at|for|near|around)\s+([\w\s]+?)(?:\s+(?:please|thanks|thank you|now))?$'] *)
Definition location_re : Re.regex :=
  Re.seqs
    [ Re.WordB;
      Re.alts [Re.lit "in"; Re.lit "at"; Re.lit "for"; Re.lit "near";
               Re.lit "around"];
      Re.plus true Re.ws;
      Re.Group (Re.plus false (Re.Chr (fun c => is_word c || is_space c)));
      Re.opt (Re.Seq (Re.plus true Re.ws)
                (Re.alts [Re.lit "please"; Re.lit "thanks";
                          Re.lit "thank you"; Re.lit "now"]));
      Re.Eos ].

(** The pattern of [re.findall] in [_extract_location]: a word boundary,
    [[A-Z]] and any number of [[a-zA-Z]], then any number of groups made of
    one [\s], one [[A-Z]] and any number of [[a-zA-Z]], then a word
    boundary. *)
Definition capitalized_re : Re.regex :=
  Re.seqs
    [ Re.WordB; Re.upper_az; Re.Star true Re.alpha_az;
      Re.Star true (Re.seqs [Re.ws; Re.upper_az; Re.Star true Re.alpha_az]);
      Re.WordB ].

(** [r'(?:who is|what is|where is|how does|find|show me|tell me about)\s+(.+)']
    with [re.IGNORECASE] *)
Definition info_re : Re.regex :=
  Re.seqs
    [ Re.alts [Re.lit_i "who is"; Re.lit_i "what is"; Re.lit_i "where is";
               Re.lit_i "how does"; Re.lit_i "find"; Re.lit_i "show me";
               Re.lit_i "tell me about"];
      Re.plus true Re.ws;
      Re.Group (Re.plus true Re.dot) ].

(* ================================================================== *)
(** ** The entity resolver and the fallback matcher *)

(** [m.group(1)]; the group takes part in every match of the two patterns
    it is used with. *)
Definition group1 (m : Re.rmatch) : string :=
  match Re.m_group1 m with Some g => g | None => EmptyString end.

Definition location_stop_words : list string :=
  ["the"; "a"; "an"; "this"; "that"; "it"; "today"; "tomorrow"].

Definition capitalized_stop_words : list string :=
  ["today"; "tomorrow"; "weather"; "forecast"; "temperature"; "india"].

Definition _extract_location (text : string) : option string :=
  let text_lower := lower text in
  (* Priority 1: the preposition pattern *)
  match Re.search location_re text_lower with
  | Some location_match =>
      let location := strip (group1 location_match) in
      if (List.length (split location) =? 1)%nat
         && mem (lower location) location_stop_words
      then None
      else Some location
  | None =>
      (* Priority 2: capitalized words *)
      let capitalized_words_matches := Re.findall capitalized_re text in
      match capitalized_words_matches with
      | _ :: _ =>
          let filtered_locations :=
            filter (fun w => negb (mem (lower w) capitalized_stop_words))
                   capitalized_words_matches in
          match filtered_locations with
          | _ :: _ => Some (join " " filtered_locations)
          | [] => None
          end
      | [] => None
      end
  end.

(** [re.sub(r'\?$', '', entity)]: a question mark is removed when it is the
    last character, or the last one before a final newline. *)
Fixpoint sub_final_qmark (s : string) : string :=
  match s with
  | EmptyString => EmptyString
  | String c s' =>
      if Ascii.eqb c "?"%char && Re.at_end (Re.MState [] s' None) then s'
      else String c (sub_final_qmark s')
  end.

(** The entity of a [get_info] query. *)
Definition info_entity (text : string) : option string :=
  match Re.search info_re text with
  | Some info_match =>
      let entity := strip (group1 info_match) in
      let entity := sub_final_qmark entity in
      let entity :=
        if existsb (startswith (lower entity)) ["the "; "a "; "an "]
        then join " " (tl (split entity))
        else entity in
      if (lower entity =? "your name") || (lower entity =? "who created you")
         || (lower entity =? "who made you")
      then None
      else Some entity
  | None => None
  end.

Definition _resolve_intent (intent text : string)
  : string * option string * string :=
  let text_lower := lower text in
  if intent =? "get_time" then (intent, None, "time_query")
  else if intent =? "get_weather" then
    (intent, _extract_location text, "weather_query")
  else if intent =? "system_info" then
    let entity :=
      if contains text_lower "what is your name" then Some "your name"
      else if contains text_lower "who created you"
              || contains text_lower "who made you" then Some "creator"
      else if contains text_lower "what can you do"
              || contains text_lower "your purpose" then Some "capabilities"
      else None in
    (intent, entity, "system_query")
  else if intent =? "greeting" then (intent, None, "greeting")
  else if intent =? "exit" then (intent, Some "terminate", "exit_command")
  else if intent =? "get_info" then
    (intent, info_entity text, "information_query")
  else (intent, None, "unknown").

(** [self.common_patterns]; a [dict] is enumerated in insertion order. *)
Definition common_patterns : list (string * list string) :=
  [ ("greeting", ["hello"; "hi"; "hey"]);
    ("get_time", ["time"; "clock"; "what time"]);
    ("get_weather", ["weather"; "forecast"; "temperature"]);
    ("system_info", ["who made"; "created"; "what are you"; "your name"]);
    ("exit", ["exit"; "quit"; "stop"; "goodbye"; "go to sleep"; "shut down";
              "I am done"; "you can stop now"]);
    ("get_info", ["who is"; "where is"; "what is"; "how"; "find"; "show me"]) ].

(** The doubles written [0.8] and [0.6] in the source. *)
Definition float_0_8 : Q := 3602879701896397 # 4503599627370496.
Definition float_0_6 : Q := 5404319552844595 # 9007199254740992.

Definition Qltb (a b : Q) : bool := negb (Qle_bool b a).

(** [max(a, b)]: the first argument unless the second is greater. *)
Definition pymax (a b : Q) : Q := if Qltb a b then b else a.

(** [any(trigger in clean_text for trigger in triggers)] *)
Definition any_trigger (clean_text : string) (triggers : list string) : bool :=
  existsb (fun trigger => contains clean_text trigger) triggers.

(** The loop over [common_patterns.items()]: the first intent one of whose
    triggers occurs in the text. *)
Fixpoint first_pattern (patterns : list (string * list string))
    (clean_text : string) : option string :=
  match patterns with
  | [] => None
  | (intent, triggers) :: patterns' =>
      if any_trigger clean_text triggers then Some intent
      else first_pattern patterns' clean_text
  end.

Definition recognition : Type := (string * option string * string * Q)%type.

Definition _fallback_intent (text : string) (confidence : Q) : recognition :=
  let clean_text := lower text in
  match first_pattern common_patterns clean_text with
  | Some intent =>
      let '(i, entity, intent_type) := _resolve_intent intent text in
      (i, entity, intent_type, pymax confidence float_0_8)
  | None => ("unknown", None, "unknown", confidence)
  end.

(* ================================================================== *)
(** ** The recogniser: state, effects and operations *)

(** The scikit-learn pipeline held in [self.model].  [fit] mutates the
    pipeline and may raise: it gives the pipeline after the call and whether
    the call completed.  [predict] is [model.predict([t])[0]] and [max_proba]
    is [max(model.predict_proba([t])[0])]; [None] means the call raises. *)
Class Classifier : Type := {
  Model : Type;
  fit : Model -> list string -> list string -> Model * bool;
  predict : Model -> string -> option string;
  max_proba : Model -> string -> option Q
}.

(** Rows of the two tables.  A row's [id] is its position in the table:
    ids are handed out in increasing order and no row is ever deleted. *)
Record TrainingRow : Type := {
  t_text : string;
  t_intent : string;
  t_timestamp : Z;
  t_source : string
}.

Record QueryRow : Type := {
  q_text : string;
  q_predicted_intent : option string;
  q_correct_intent : option string;
  q_confidence : option Q;
  q_timestamp : Z
}.

Inductive exn : Type :=
| SqliteError      (* sqlite3.Error and its subclasses *)
| OtherError.      (* any other Exception *)

Inductive outcome (A : Type) : Type :=
| Ok (a : A)
| Raised (e : exn).
Arguments Ok {A} a.
Arguments Raised {A} e.

(** [Counter(labels)]: the labels in order of first occurrence, each with
    its number of occurrences. *)
Fixpoint counter_incr (k : string) (c : list (string * nat))
  : list (string * nat) :=
  match c with
  | [] => [(k, 1%nat)]
  | (k', n) :: c' =>
      if k =? k' then (k', S n) :: c' else (k', n) :: counter_incr k c'
  end.

Definition Counter (labels : list string) : list (string * nat) :=
  fold_left (fun c k => counter_incr k c) labels [].

(** [len(set(labels))] and [COUNT(DISTINCT intent)] *)
Definition count_distinct (labels : list string) : nat :=
  List.length (nodup string_dec labels).

(** The row meant by [SELECT id FROM queries WHERE text = ? ORDER BY
    timestamp DESC LIMIT 1]: among the rows with that text, one with the
    greatest timestamp.  SQL leaves the choice among equal timestamps open;
    the earliest such row is taken here.  [i] is the id of the first row of
    [qs], [best] the candidate found so far. *)
Fixpoint latest_query (text : string) (qs : list QueryRow) (i : nat)
    (best : option (nat * Z)) : option (nat * Z) :=
  match qs with
  | [] => best
  | q :: qs' =>
      let best' :=
        if q_text q =? text then
          match best with
          | Some (_, t) => if (t <? q_timestamp q)%Z
                           then Some (i, q_timestamp q) else best
          | None => Some (i, q_timestamp q)
          end
        else best in
      latest_query text qs' (S i) best'
  end.

Definition set_correct_intent (intent : string) (q : QueryRow) : QueryRow :=
  {| q_text := q_text q;
     q_predicted_intent := q_predicted_intent q;
     q_correct_intent := Some intent;
     q_confidence := q_confidence q;
     q_timestamp := q_timestamp q |}.

Fixpoint update_nth {A : Type} (n : nat) (f : A -> A) (l : list A) : list A :=
  match l, n with
  | [], _ => []
  | x :: l', O => f x :: l'
  | x :: l', S n' => x :: update_nth n' f l'
  end.

Section Service.

Context {C : Classifier}.

Record IntentRecognizer : Type := {
  model : option Model;                  (* self.model; None is Python's None *)
  is_trained : bool;
  confidence_threshold : Q;
  min_samples_per_class : nat;
  training_data : list TrainingRow;      (* table training_data *)
  queries : list QueryRow;               (* table queries *)
  conn_open : bool;                      (* false once close() has run *)
  clock : Z;                             (* CURRENT_TIMESTAMP *)
  classifier_calls : nat                 (* ghost: predictions asked so far *)
}.

Definition with_model (m : option Model) (st : IntentRecognizer)
  : IntentRecognizer :=
  {| model := m; is_trained := is_trained st;
     confidence_threshold := confidence_threshold st;
     min_samples_per_class := min_samples_per_class st;
     training_data := training_data st; queries := queries st;
     conn_open := conn_open st; clock := clock st;
     classifier_calls := classifier_calls st |}.

Definition with_is_trained (b : bool) (st : IntentRecognizer)
  : IntentRecognizer :=
  {| model := model st; is_trained := b;
     confidence_threshold := confidence_threshold st;
     min_samples_per_class := min_samples_per_class st;
     training_data := training_data st; queries := queries st;
     conn_open := conn_open st; clock := clock st;
     classifier_calls := classifier_calls st |}.

Definition with_training_data (t : list TrainingRow) (st : IntentRecognizer)
  : IntentRecognizer :=
  {| model := model st; is_trained := is_trained st;
     confidence_threshold := confidence_threshold st;
     min_samples_per_class := min_samples_per_class st;
     training_data := t; queries := queries st;
     conn_open := conn_open st; clock := clock st;
     classifier_calls := classifier_calls st |}.

Definition with_queries (q : list QueryRow) (st : IntentRecognizer)
  : IntentRecognizer :=
  {| model := model st; is_trained := is_trained st;
     confidence_threshold := confidence_threshold st;
     min_samples_per_class := min_samples_per_class st;
     training_data := training_data st; queries := q;
     conn_open := conn_open st; clock := clock st;
     classifier_calls := classifier_calls st |}.

Definition with_conn_open (b : bool) (st : IntentRecognizer)
  : IntentRecognizer :=
  {| model := model st; is_trained := is_trained st;
     confidence_threshold := confidence_threshold st;
     min_samples_per_class := min_samples_per_class st;
     training_data := training_data st; queries := queries st;
     conn_open := b; clock := clock st;
     classifier_calls := classifier_calls st |}.

(** The environment moves the clock between two calls. *)
Definition with_clock (t : Z) (st : IntentRecognizer) : IntentRecognizer :=
  {| model := model st; is_trained := is_trained st;
     confidence_threshold := confidence_threshold st;
     min_samples_per_class := min_samples_per_class st;
     training_data := training_data st; queries := queries st;
     conn_open := conn_open st; clock := t;
     classifier_calls := classifier_calls st |}.

Definition count_call (st : IntentRecognizer) : IntentRecognizer :=
  {| model := model st; is_trained := is_trained st;
     confidence_threshold := confidence_threshold st;
     min_samples_per_class := min_samples_per_class st;
     training_data := training_data st; queries := queries st;
     conn_open := conn_open st; clock := clock st;
     classifier_calls := S (classifier_calls st) |}.

(** *** A state and exception monad for the methods *)

Definition M (A : Type) : Type :=
  IntentRecognizer -> outcome A * IntentRecognizer.

Definition ret {A : Type} (a : A) : M A := fun st => (Ok a, st).

Definition bind {A B : Type} (m : M A) (f : A -> M B) : M B :=
  fun st =>
    match m st with
    | (Ok a, st') => f a st'
    | (Raised e, st') => (Raised e, st')
    end.

Definition raise {A : Type} (e : exn) : M A := fun st => (Raised e, st).

Definition get : M IntentRecognizer := fun st => (Ok st, st).

Definition modify (f : IntentRecognizer -> IntentRecognizer) : M unit :=
  fun st => (Ok tt, f st).

(** [try: body except E: handler], [catches] telling which exceptions are
    instances of [E]. *)
Definition try_except {A : Type} (body : M A) (catches : exn -> bool)
    (handler : M A) : M A :=
  fun st =>
    match body st with
    | (Ok a, st') => (Ok a, st')
    | (Raised e, st') => if catches e then handler st' else (Raised e, st')
    end.

Definition sqlite3_Error (e : exn) : bool :=
  match e with SqliteError => true | OtherError => false end.

Definition Exception (e : exn) : bool := true.

End Service.

Declare Scope py_scope.
Delimit Scope py_scope with py.
Notation "x <- c1 ;; c2" := (bind c1 (fun x => c2))
  (at level 61, c1 at next level, right associativity) : py_scope.
Notation "c1 ;; c2" := (bind c1 (fun _ => c2))
  (at level 61, right associativity) : py_scope.

Section Methods.

Context {C : Classifier}.
Local Open Scope py_scope.

(** *** The SQLite connection

    A statement on a closed connection raises [sqlite3.ProgrammingError], a
    subclass of [sqlite3.Error]; so do [commit] and [rollback].  The
    methods below are those of a recogniser used by the thread that opened
    the connection, on a database nobody else has locked: the open
    connection accepts every statement, hence nothing is pending when a
    handler rolls back.  [Conn], further down, is the connection that
    refuses statements while it is open. *)

Definition execute (f : IntentRecognizer -> IntentRecognizer) : M unit :=
  fun st => if conn_open st then (Ok tt, f st) else (Raised SqliteError, st).

Definition fetch {A : Type} (f : IntentRecognizer -> A) : M A :=
  fun st => if conn_open st then (Ok (f st), st) else (Raised SqliteError, st).

Definition commit : M unit := execute (fun st => st).
Definition rollback : M unit := execute (fun st => st).

(** [INSERT INTO queries (text, predicted_intent, confidence) VALUES (?,?,?)] *)
Definition insert_query (text : string) (predicted_intent : option string)
    (confidence : option Q) : M unit :=
  execute (fun st =>
    with_queries
      (queries st ++
         [ {| q_text := text; q_predicted_intent := predicted_intent;
              q_correct_intent := None; q_confidence := confidence;
              q_timestamp := clock st |} ]) st).

(** [INSERT INTO training_data (text, intent, source) VALUES (?,?,?)] *)
Definition insert_training (text intent source : string) : M unit :=
  execute (fun st =>
    with_training_data
      (training_data st ++
         [ {| t_text := text; t_intent := intent;
              t_timestamp := clock st; t_source := source |} ]) st).

(** [UPDATE queries SET correct_intent = ? WHERE id = (SELECT id ... LIMIT 1)] *)
Definition update_latest_query (correct_intent text : string) : M unit :=
  execute (fun st =>
    match latest_query text (queries st) 0 None with
    | Some (i, _) =>
        with_queries
          (update_nth i (set_correct_intent correct_intent) (queries st)) st
    | None => st
    end).

(** [SELECT COUNT( * ) FROM training_data WHERE text = ? AND intent = ?] *)
Definition count_training (text intent : string) : M nat :=
  fetch (fun st =>
    List.length
      (filter (fun r => (t_text r =? text) && (t_intent r =? intent))
              (training_data st))).

(** *** The classifier object *)

(** [self.model.fit(texts, labels)]; on [None] the attribute access raises. *)
Definition model_fit (texts labels : list string) : M unit :=
  fun st =>
    match model st with
    | None => (Raised OtherError, st)
    | Some m =>
        let (m', completed) := fit m texts labels in
        (if completed then Ok tt else Raised OtherError,
         with_model (Some m') st)
    end.

(** [self.model.predict([clean_text])[0]] *)
Definition model_predict (clean_text : string) : M string :=
  fun st =>
    match model st with
    | None => (Raised OtherError, st)
    | Some m =>
        match predict m clean_text with
        | Some label => (Ok label, count_call st)
        | None => (Raised OtherError, count_call st)
        end
    end.

(** [max(self.model.predict_proba([clean_text])[0])] *)
Definition model_confidence (clean_text : string) : M Q :=
  fun st =>
    match model st with
    | None => (Raised OtherError, st)
    | Some m =>
        match max_proba m clean_text with
        | Some p => (Ok p, count_call st)
        | None => (Raised OtherError, count_call st)
        end
    end.

(** *** Training *)

Definition _get_training_data : M (list string * list string) :=
  try_except
    (results <- fetch training_data ;;
     match results with
     | [] => ret ([], [])
     | _ :: _ => ret (map t_text results, map t_intent results)   (* zip *)
     end)
    sqlite3_Error
    (ret ([], [])).

Definition _train_model : M bool :=
  try_except
    (data <- _get_training_data ;;
     let (texts, labels) := data in
     if match texts with [] => true | _ :: _ => false end
        || (count_distinct labels <? 2)%nat
     then modify (with_is_trained false) ;; ret false
     else
       st <- get ;;
       let label_counts := Counter labels in
       match find (fun ic => (snd ic <? min_samples_per_class st)%nat)
                  label_counts with
       | Some _ => modify (with_is_trained false) ;; ret false
       | None =>
           model_fit texts labels ;;
           modify (with_is_trained true) ;;
           ret true
       end)
    Exception
    (modify (with_is_trained false) ;; ret false).

(** [_save_model] writes the pickle file and catches every exception.  No
    operation modelled here reads that file, so it is not part of the
    state. *)
Definition _save_model : M unit := ret tt.

Definition _train_and_save_model : M unit :=
  trained <- _train_model ;;
  if trained then _save_model else ret tt.

Definition _add_single_training_example_to_db (text intent source : string)
  : M bool :=
  let clean_text := _preprocess_text text in
  if negb (truthy clean_text) || negb (truthy (strip intent)) then ret false
  else
    try_except
      (insert_training clean_text (lower intent) source ;;
       commit ;;
       ret true)
      sqlite3_Error
      (rollback ;; ret false).

Definition add_training_example (text intent source : string) : M bool :=
  success <- _add_single_training_example_to_db text intent source ;;
  if success then
    distinct_intents <-
      fetch (fun st => count_distinct (map t_intent (training_data st))) ;;
    intent_counts <-
      fetch (fun st => Counter (map t_intent (training_data st))) ;;
    st <- get ;;
    let all_intents_have_min :=
      forallb (fun ic => (min_samples_per_class st <=? snd ic)%nat)
              intent_counts in
    (if (2 <=? distinct_intents)%nat && all_intents_have_min
     then _train_and_save_model else ret tt) ;;
    ret true
  else ret false.

(** *** Recognition *)

Definition _log_query (text : string) (predicted_intent : option string)
    (confidence : option Q) : M unit :=
  try_except
    (insert_query text predicted_intent confidence ;; commit)
    sqlite3_Error
    (ret tt).

Definition predict_intent (text : string) : M recognition :=
  if negb (truthy (strip text)) then
    _log_query text (Some "unknown") (Some 0%Q) ;;
    ret ("unknown", None, "unknown", 0%Q)
  else
    let clean_text := _preprocess_text text in
    if negb (truthy clean_text) then
      _log_query text (Some "unknown") (Some 0%Q) ;;
      ret ("unknown", None, "unknown", 0%Q)
    else
      try_except
        (st <- get ;;
         result <-
           (if negb (is_trained st)
               || match model st with None => true | Some _ => false end
            then ret (_fallback_intent text 0%Q)
            else
              predicted_intent <- model_predict clean_text ;;
              confidence <- model_confidence clean_text ;;
              if Qltb confidence (confidence_threshold st)
              then ret (_fallback_intent text confidence)
              else
                let resolved_tuple := _resolve_intent predicted_intent text in
                ret (fst (fst resolved_tuple), snd (fst resolved_tuple),
                     snd resolved_tuple, confidence)) ;;
         let '(predicted_intent, _, _, confidence) := result in
         _log_query text (Some predicted_intent) (Some confidence) ;;
         ret result)
        Exception
        (_log_query text (Some "error") (Some 0%Q) ;;
         ret (_fallback_intent text 0%Q)).

(** *** Feedback *)

Definition provide_feedback (text correct_intent : string) : M bool :=
  if negb (truthy (strip text)) || negb (truthy (strip correct_intent))
  then ret false
  else
    try_except
      (update_latest_query (lower correct_intent) text ;;
       n <- count_training (_preprocess_text text) (lower correct_intent) ;;
       let already_trained := (0 <? n)%nat in
       if negb already_trained then
         add_training_example text correct_intent "user_feedback"
       else
         commit ;; ret true)
      sqlite3_Error
      (rollback ;; ret false).

Definition close : M unit :=
  try_except (modify (with_conn_open false)) sqlite3_Error (ret tt).

End Methods.

(* ================================================================== *)
(** ** Vocabulary of the statements *)

Definition intent_of (r : recognition) : string := fst (fst (fst r)).
Definition entity_of (r : recognition) : option string := snd (fst (fst r)).
Definition intent_type_of (r : recognition) : string := snd (fst r).
Definition confidence_of (r : recognition) : Q := snd r.

(** The result every blank input gets. *)
Definition unknown_result : recognition := ("unknown", None, "unknown", 0%Q).

(** Texts that [predict_intent] answers without classifying: empty or
    whitespace only, or normalised to the empty string. *)
Definition blank (text : string) : bool :=
  negb (truthy (strip text)) || negb (truthy (_preprocess_text text)).

(** A character left alone by [str.lower]. *)
Definition lower_fixed (c : ascii) : bool := Ascii.eqb (lower_char c) c.

(** What a token of normalised text is made of. *)
Definition token_char (c : ascii) : bool :=
  negb (is_space c) && (is_word c && lower_fixed c).

Definition long_word (w : string) : bool := (2 <? String.length w)%nat.

(** A token of normalised text. *)
Definition token (w : string) : Prop :=
  w <> EmptyString /\ all_chars token_char w = true.

(** What [sub_punct] makes of one character. *)
Definition sub_punct_char (c : ascii) : ascii :=
  if is_word c || is_space c then c else " "%char.

(** The count [Counter] holds for a label; 0 when the label is absent. *)
Fixpoint counter_get (k : string) (c : list (string * nat)) : nat :=
  match c with
  | [] => 0
  | (k', n) :: c' => if k =? k' then n else counter_get k c'
  end.

Definition has_upper (s : string) : bool :=
  negb (all_chars (fun c => negb (is_upper c)) s).

(** Some trigger of some intent occurs in the lower-cased text. *)
Definition trigger_occurs (text : string) : Prop :=
  exists intent triggers trigger,
    In (intent, triggers) common_patterns /\ In trigger triggers
    /\ contains (lower text) trigger = true.

(** [common_patterns] without the trigger "I am done". *)
Definition patterns_without_i_am_done : list (string * list string) :=
  map (fun it => (fst it, filter (fun t => negb (t =? "I am done")) (snd it)))
      common_patterns.

(** The location extractor as the specification words it: the preposition
    phrase when there is one, unless it is a single stop word; otherwise the
    capitalized runs outside the stop list [stop]; otherwise nothing. *)
Definition preposition_phrase (text : string) : option string :=
  option_map (fun m => strip (group1 m)) (Re.search location_re (lower text)).

Definition capitalized_runs (text : string) : list string :=
  Re.findall capitalized_re text.

Definition single_stop_word (location : string) : bool :=
  match split location with
  | [_] => mem (lower location) location_stop_words
  | _ => false
  end.

Definition extract_location_with (stop : list string) (text : string)
  : option string :=
  match preposition_phrase text with
  | Some location =>
      if single_stop_word location then None else Some location
  | None =>
      match filter (fun w => negb (mem (lower w) stop))
                   (capitalized_runs text) with
      | [] => None
      | runs => Some (join " " runs)
      end
  end.

(** The stop list of the capitalized-word heuristic as the specification
    gives it. *)
Definition specified_capitalized_stop_words : list string :=
  ["today"; "tomorrow"; "weather"; "forecast"; "temperature"].

Section Vocabulary.

Context {C : Classifier}.

(** The row [_log_query] writes. *)
Definition query_row (st : IntentRecognizer) (text : string)
    (predicted_intent : string) (confidence : Q) : QueryRow :=
  {| q_text := text; q_predicted_intent := Some predicted_intent;
     q_correct_intent := None; q_confidence := Some confidence;
     q_timestamp := clock st |}.

(** The state after [_log_query]: one more row when the connection is open. *)
Definition logged (st : IntentRecognizer) (text predicted_intent : string)
    (confidence : Q) : IntentRecognizer :=
  if conn_open st
  then with_queries
         (queries st ++ [query_row st text predicted_intent confidence]) st
  else st.

(** Two states with the same database. *)
Definition same_database (st st' : IntentRecognizer) : Prop :=
  training_data st' = training_data st /\ queries st' = queries st
  /\ conn_open st' = conn_open st /\ clock st' = clock st.

(** The row [_add_single_training_example_to_db] writes. *)
Definition training_row (st : IntentRecognizer) (text intent source : string)
  : TrainingRow :=
  {| t_text := _preprocess_text text; t_intent := lower intent;
     t_timestamp := clock st; t_source := source |}.

(** The row [provide_feedback] adds to the Example Store. *)
Definition feedback_row (st : IntentRecognizer) (text intent : string)
  : TrainingRow :=
  {| t_text := _preprocess_text text; t_intent := lower intent;
     t_timestamp := clock st; t_source := "user_feedback" |}.

(** No usable classifier: [not self.is_trained or self.model is None]. *)
Definition untrained (st : IntentRecognizer) : bool :=
  negb (is_trained st)
  || match model st with None => true | Some _ => false end.

(** The classifier is consulted on [clean_text] and one of its two calls
    raises. *)
Definition classifier_raises (st : IntentRecognizer) (clean_text : string)
  : bool :=
  negb (untrained st) &&
  match model st with
  | Some m =>
      match predict m clean_text, max_proba m clean_text with
      | Some _, Some _ => false
      | _, _ => true
      end
  | None => false
  end.

(** The classifier is consulted on the text and raises. *)
Definition classification_fails (st : IntentRecognizer) (text : string)
  : bool :=
  negb (blank text) && classifier_raises st (_preprocess_text text).

(** The result when both classifier calls return. *)
Definition classified (st : IntentRecognizer) (text label : string) (p : Q)
  : recognition :=
  if Qltb p (confidence_threshold st) then _fallback_intent text p
  else (fst (fst (_resolve_intent label text)),
        snd (fst (_resolve_intent label text)),
        snd (_resolve_intent label text), p).

(** The three ways [predict_intent] reaches the fallback matcher, with the
    confidence it hands over. *)
Inductive fallback_invoked (st : IntentRecognizer) (clean_text : string)
  : Q -> Prop :=
| fallback_untrained :
    untrained st = true -> fallback_invoked st clean_text 0%Q
| fallback_low_confidence m label p :
    untrained st = false -> model st = Some m ->
    predict m clean_text = Some label -> max_proba m clean_text = Some p ->
    Qltb p (confidence_threshold st) = true ->
    fallback_invoked st clean_text p
| fallback_exception :
    classifier_raises st clean_text = true ->
    fallback_invoked st clean_text 0%Q.

(** Training is refused for lack of labels, or for a label with too few
    examples. *)
Definition insufficient_data (st : IntentRecognizer) : Prop :=
  (count_distinct (map t_intent (training_data st)) < 2)%nat.

Definition sparse_class (st : IntentRecognizer) : Prop :=
  exists label,
    In label (map t_intent (training_data st)) /\
    (count_occ string_dec (map t_intent (training_data st)) label
     < min_samples_per_class st)%nat.

(** Number of examples stored for a pair (text, intent). *)
Definition examples_of (text intent : string) (st : IntentRecognizer) : nat :=
  List.length
    (filter (fun r => (t_text r =? text) && (t_intent r =? intent))
            (training_data st)).

(** [provide_feedback] adds a row: both arguments are non-blank, the
    connection is open, the pair is not stored yet and the text does not
    normalise to the empty string. *)
Definition feedback_inserts (st : IntentRecognizer) (text intent : string) : bool :=
  truthy (strip text) && truthy (strip intent) && conn_open st
  && (examples_of (_preprocess_text text) (lower intent) st =? 0)%nat
  && truthy (_preprocess_text text).

(** The statement that a refused training leaves [is_trained] as it was. *)
Definition keeps_is_trained (st : IntentRecognizer) : Prop :=
  is_trained (snd (_train_model st)) = is_trained st.


End Vocabulary.

(** *** Example classifiers and recognisers *)

(** A classifier that always answers [label] with confidence [p]. *)
Definition constant_classifier (label : string) (p : Q) : Classifier :=
  {| Model := unit;
     fit := fun m _ _ => (m, true);
     predict := fun _ _ => Some label;
     max_proba := fun _ _ => Some p |}.

(** A classifier whose [predict] raises. *)
Definition raising_classifier : Classifier :=
  {| Model := unit;
     fit := fun m _ _ => (m, true);
     predict := fun _ _ => None;
     max_proba := fun _ _ => None |}.

Definition example_row (text intent : string) : TrainingRow :=
  {| t_text := text; t_intent := intent; t_timestamp := 0%Z;
     t_source := "initial" |}.

(** A recogniser with the attribute values of [__init__], a given model
    state and given examples, an empty query log and an open connection. *)
Definition recognizer_with {C : Classifier} (m : option Model)
    (trained : bool) (examples : list TrainingRow) : IntentRecognizer :=
  {| model := m; is_trained := trained;
     confidence_threshold := float_0_6;
     min_samples_per_class := 3;
     training_data := examples; queries := [];
     conn_open := true; clock := 0%Z; classifier_calls := 0 |}.

(** One label short of [min_samples_per_class]. *)
Definition sparse_examples : list TrainingRow :=
  [ example_row "hello there" "greeting"; example_row "good morning" "greeting";
    example_row "good evening" "greeting";
    example_row "exit the program" "exit"; example_row "stop listening" "exit" ].

(** No model yet: the state right after a first start that could not
    train. *)
Definition untrained_recognizer
  : @IntentRecognizer (constant_classifier "greeting" (9 # 10)) :=
  @recognizer_with (constant_classifier "greeting" (9 # 10)) None false [].

(** A loaded model, and a store in which "exit" has two examples. *)
Definition trained_sparse_recognizer
  : @IntentRecognizer (constant_classifier "greeting" (9 # 10)) :=
  @recognizer_with (constant_classifier "greeting" (9 # 10))
    (Some tt) true sparse_examples.

(** A trained model that answers "get_time" at confidence 0.5. *)
Definition unsure_recognizer
  : @IntentRecognizer (constant_classifier "get_time" (1 # 2)) :=
  @recognizer_with (constant_classifier "get_time" (1 # 2)) (Some tt) true [].

(** A trained model whose [predict] raises. *)
Definition raising_recognizer : @IntentRecognizer raising_classifier :=
  @recognizer_with raising_classifier (Some tt) true [].

(* ================================================================== *)
(** ** The rest of the class: review list, first start, persistence *)

(** The double written [0.7], default threshold of [get_uncertain_queries]. *)
Definition float_0_7 : Q := 3152519739159347 # 4503599627370496.

(** [WHERE confidence < ? AND correct_intent IS NULL]; a comparison with
    NULL selects nothing. *)
Definition uncertain (threshold : Q) (q : QueryRow) : bool :=
  match q_confidence q, q_correct_intent q with
  | Some c, None => Qltb c threshold
  | _, _ => false
  end.

(** [ORDER BY timestamp DESC].  SQL leaves the order of rows with equal
    timestamps open; they are kept in table order here. *)
Fixpoint insert_desc (q : QueryRow) (l : list QueryRow) : list QueryRow :=
  match l with
  | [] => [q]
  | x :: l' =>
      if (q_timestamp q <? q_timestamp x)%Z then x :: insert_desc q l'
      else q :: l
  end.

Definition order_by_timestamp_desc (l : list QueryRow) : list QueryRow :=
  fold_right insert_desc [] l.

(** The rows [get_uncertain_queries] selects, in the order it lists them. *)
Definition uncertain_rows (threshold : Q) (qs : list QueryRow)
  : list QueryRow :=
  order_by_timestamp_desc (filter (uncertain threshold) qs).

(** The phrases of [_add_initial_examples]. *)
Definition test_phrases : list (string * string) :=
  [ ("what time is it now", "get_time");
    ("current time", "get_time");
    ("what's the current time", "get_time");
    ("tell me the time", "get_time");
    ("what's the time", "get_time");

    ("hello there", "greeting");
    ("hi", "greeting");
    ("hey", "greeting");
    ("howdy", "greeting");
    ("good morning", "greeting");
    ("good afternoon", "greeting");
    ("good evening", "greeting");

    ("what's the weather in London", "get_weather");
    ("tell me the temperature", "get_weather");
    ("how's the weather looking today", "get_weather");
    ("will it rain tomorrow in Paris", "get_weather");
    ("weather in Delhi", "get_weather");
    ("temperature in Mumbai", "get_weather");
    ("is it sunny in New York", "get_weather");
    ("weather for paudi garhwal", "get_weather");
    ("how is the weather today", "get_weather");
    ("weather", "get_weather");

    ("who made you", "system_info");
    ("what can you do", "system_info");
    ("tell me about yourself", "system_info");
    ("what is your purpose", "system_info");
    ("what is your name", "system_info");
    ("who created you", "system_info");
    ("about yourself", "system_info");

    ("exit the program", "exit");
    ("stop listening", "exit");
    ("terminate program", "exit");
    ("goodbye", "exit");
    ("go to sleep", "exit");
    ("shut down", "exit");
    ("I am done", "exit");
    ("you can stop now", "exit");
    ("quit", "exit");

    ("who is Albert Einstein", "get_info");
    ("what is the capital of France", "get_info");
    ("where is the Eiffel Tower", "get_info");
    ("how does a volcano erupt", "get_info");
    ("find information about gravity", "get_info");
    ("show me facts about space", "get_info");
    ("tell me about artificial intelligence", "get_info");
    ("who is Honey Singh", "get_info");
    ("who is narendra modi", "get_info") ].

Section MoreMethods.

Context {C : Classifier}.
Local Open Scope py_scope.

Definition get_uncertain_queries (threshold : Q)
  : M (list (string * option Q)) :=
  try_except
    (fetch (fun st =>
       map (fun q => (q_text q, q_confidence q))
           (uncertain_rows threshold (queries st))))
    sqlite3_Error
    (ret []).

(** [Pipeline([...])]: the constructor's result is the unfitted pipeline
    [fresh]. *)
Definition _create_new_model (fresh : Model) : M unit :=
  modify (with_model (Some fresh)) ;;
  modify (with_is_trained false).

(** [for text, intent in phrases: self._add_single_training_example_to_db(...)] *)
Fixpoint add_examples (phrases : list (string * string)) : M unit :=
  match phrases with
  | [] => ret tt
  | (text, intent) :: phrases' =>
      _add_single_training_example_to_db text intent "initial" ;;
      add_examples phrases'
  end.

Definition _add_initial_examples : M unit :=
  n <- fetch (fun st => List.length (training_data st)) ;;   (* COUNT( * ) *)
  if (n =? 0)%nat then add_examples test_phrases else ret tt.

End MoreMethods.

(** *** The model file and the constructor

    The methods that read or write [intent_model.pkl] act on the recogniser
    together with the file.  A file that cannot be written makes [open]
    raise and is left as it was. *)

Module Persist.

Section Files.

Context {C : Classifier}.

Inductive model_file : Type :=
| Absent                         (* no file *)
| Empty                          (* a file of size 0 *)
| Unreadable                     (* bytes that [pickle.load] rejects *)
| Pickle (m : option Model).     (* the pickle of [m]; [pickle.load]
                                    gives [m] back *)

Record World : Type := {
  self : IntentRecognizer;
  model_path : model_file;
  disk_writable : bool
}.

Definition with_self (st : IntentRecognizer) (w : World) : World :=
  {| self := st; model_path := model_path w;
     disk_writable := disk_writable w |}.

Definition with_model_path (f : model_file) (w : World) : World :=
  {| self := self w; model_path := f; disk_writable := disk_writable w |}.

Definition W (A : Type) : Type := World -> outcome A * World.

Definition wret {A : Type} (a : A) : W A := fun w => (Ok a, w).

Definition wbind {A B : Type} (m : W A) (f : A -> W B) : W B :=
  fun w =>
    match m w with
    | (Ok a, w') => f a w'
    | (Raised e, w') => (Raised e, w')
    end.

Definition wtry {A : Type} (body : W A) (catches : exn -> bool)
    (handler : W A) : W A :=
  fun w =>
    match body w with
    | (Ok a, w') => (Ok a, w')
    | (Raised e, w') => if catches e then handler w' else (Raised e, w')
    end.

(** A method that does not touch the file. *)
Definition lift {A : Type} (m : M A) : W A :=
  fun w => let (o, st') := m (self w) in (o, with_self st' w).

Definition _model_exists : W bool :=
  fun w =>
    (Ok match model_path w with
        | Absent | Empty => false
        | Unreadable | Pickle _ => true
        end, w).

Definition _load_model : W unit :=
  wtry
    (fun w =>
       match model_path w with
       | Pickle m =>
           (Ok tt, with_self (with_is_trained true (with_model m (self w))) w)
       | Absent | Empty | Unreadable => (Raised OtherError, w)
       end)
    Exception
    (lift (modify (with_is_trained false))).

Definition _save_model : W unit :=
  wtry
    (fun w =>
       if disk_writable w
       then (Ok tt, with_model_path (Pickle (model (self w))) w)
       else (Raised OtherError, w))
    Exception
    (wret tt).

Definition _train_and_save_model : W unit :=
  wbind (lift _train_model)
        (fun trained => if trained then _save_model else wret tt).

Definition _initialize_model (fresh : Model) : W unit :=
  wtry
    (wbind _model_exists (fun found =>
       if found then
         wbind _load_model (fun _ => lift (modify (with_is_trained true)))
       else
         wbind (lift (_create_new_model fresh)) (fun _ =>
         wbind (lift _add_initial_examples) (fun _ =>
         _train_and_save_model))))
    Exception
    (lift (modify (with_is_trained false))).

(** What a start finds: the database file, the model file, the clock. *)
Record Environment : Type := {
  db_reachable : bool;                     (* [sqlite3.connect] succeeds *)
  stored_training : list TrainingRow;
  stored_queries : list QueryRow;
  stored_model : model_file;
  writable : bool;
  now : Z
}.

(** [_setup_database]: connect, create the tables unless they exist; an
    error is raised again. *)
Definition _setup_database (env : Environment) : W unit :=
  fun w =>
    if db_reachable env
    then (Ok tt, with_self (with_conn_open true (self w)) w)
    else (Raised SqliteError, w).

Definition __init__ (fresh : Model) (env : Environment)
  : outcome unit * World :=
  let st0 :=
    {| model := None; is_trained := false;
       confidence_threshold := float_0_6; min_samples_per_class := 3;
       training_data := stored_training env;
       queries := stored_queries env;
       conn_open := false; clock := now env; classifier_calls := 0 |} in
  wbind (_setup_database env) (fun _ => _initialize_model fresh)
    {| self := st0; model_path := stored_model env;
       disk_writable := writable env |}.

End Files.

End Persist.

(** *** Vocabulary of the further statements *)

(** An example as [_add_single_training_example_to_db] stores it: a text
    that is its own normal form and not empty, a lower-case label that is
    not blank. *)
Definition wellformed_row (r : TrainingRow) : Prop :=
  truthy (t_text r) = true /\ _preprocess_text (t_text r) = t_text r
  /\ lower (t_intent r) = t_intent r /\ truthy (strip (t_intent r)) = true.

(** [t] occurs in [s]. *)
Definition substring (t s : string) : Prop :=
  exists a b, s = a ++ t ++ b.

(** The display label each branch of [_resolve_intent] gives. *)
Definition intent_type_for (intent : string) : string :=
  if intent =? "get_time" then "time_query"
  else if intent =? "get_weather" then "weather_query"
  else if intent =? "system_info" then "system_query"
  else if intent =? "greeting" then "greeting"
  else if intent =? "exit" then "exit_command"
  else if intent =? "get_info" then "information_query"
  else "unknown".

(** Newest first. *)
Definition newer_first (a b : QueryRow) : Prop :=
  (q_timestamp b <= q_timestamp a)%Z.

(** A phrase [_add_single_training_example_to_db] accepts. *)
Definition storable (p : string * string) : bool :=
  truthy (_preprocess_text (fst p)) && truthy (strip (snd p)).

(** The examples a first start stores: every phrase but "hi", whose normal
    form is empty. *)
Definition initial_rows (now : Z) : list TrainingRow :=
  map (fun p => {| t_text := _preprocess_text (fst p); t_intent := snd p;
                   t_timestamp := now; t_source := "initial" |})
      (filter (fun p => negb (fst p =? "hi")) test_phrases).

(** The text a position of the matcher belongs to. *)
Definition subject (st : Re.mstate) : string :=
  string_of_list_ascii (rev (Re.pre st)) ++ Re.rest st.

(** [st'] is reached from [st] by reading [consumed]. *)
Definition reads (st st' : Re.mstate) (consumed : list ascii) : Prop :=
  Re.rest st = string_of_list_ascii consumed ++ Re.rest st'
  /\ Re.pre st' = (rev consumed ++ Re.pre st)%list.

(** The group captured so far is a piece of the text. *)
Definition cap_in_subject (st : Re.mstate) : Prop :=
  forall g, Re.cap st = Some g -> substring g (subject st).

(** A matcher step only moves forward in its text and only captures pieces
    of it. *)
Definition sound_step {A : Type}
    (body : Re.mstate -> (Re.mstate -> option A) -> option A) : Prop :=
  forall st k a,
    cap_in_subject st -> body st k = Some a ->
    exists st' consumed,
      reads st st' consumed /\ cap_in_subject st' /\ k st' = Some a.

Section MoreVocabulary.

Context {C : Classifier}.

Definition wellformed_store (st : IntentRecognizer) : Prop :=
  Forall wellformed_row (training_data st).

(** The 4-tuple [predict_intent] returns, read off the recogniser's
    attributes alone. *)
Definition answer (st : IntentRecognizer) (text : string) : recognition :=
  if blank text then unknown_result
  else if untrained st then _fallback_intent text 0%Q
  else
    match model st with
    | Some m =>
        match predict m (_preprocess_text text),
              max_proba m (_preprocess_text text) with
        | Some label, Some p => classified st text label p
        | _, _ => _fallback_intent text 0%Q
        end
    | None => _fallback_intent text 0%Q
    end.

(** The log after the UPDATE of [provide_feedback]. *)
Definition marked (text intent : string) (qs : list QueryRow)
  : list QueryRow :=
  match latest_query text qs 0 None with
  | Some (i, _) => update_nth i (set_correct_intent intent) qs
  | None => qs
  end.


(** The test [add_training_example] makes before it retrains. *)
Definition ready_to_train (st : IntentRecognizer) : bool :=
  (2 <=? count_distinct (map t_intent (training_data st)))%nat
  && forallb (fun ic => (min_samples_per_class st <=? snd ic)%nat)
             (Counter (map t_intent (training_data st))).

(** The state after the INSERT of [_add_single_training_example_to_db]. *)
Definition inserted (st : IntentRecognizer) (text intent source : string)
  : IntentRecognizer :=
  with_training_data
    (training_data st ++ [training_row st text intent source]) st.

(** The state after [self.model.fit] on the stored examples. *)
Definition fitted (m : Model) (st : IntentRecognizer) : IntentRecognizer :=
  let texts := map t_text (training_data st) in
  let labels := map t_intent (training_data st) in
  with_is_trained (snd (fit m texts labels))
    (with_model (Some (fst (fit m texts labels))) st).

(** The recogniser after [_create_new_model] and [_add_initial_examples]. *)
Definition seeded (fresh : Model) (st : IntentRecognizer) : IntentRecognizer :=
  snd (_add_initial_examples
         (with_is_trained false (with_model (Some fresh) st))).

End MoreVocabulary.

(** *** Further example recognisers and starts *)

(** Three examples for each of two labels. *)
Definition ample_examples : list TrainingRow :=
  (sparse_examples ++ [example_row "goodbye" "exit"])%list.

(** A fresh pipeline and a store that can be trained on. *)
Definition ample_recognizer
  : @IntentRecognizer (constant_classifier "greeting" (9 # 10)) :=
  @recognizer_with (constant_classifier "greeting" (9 # 10))
    (Some tt) false ample_examples.

(** An untrained recogniser that has answered "helo" once, five ticks ago. *)
Definition asked_once
  : @IntentRecognizer (constant_classifier "greeting" (9 # 10)) :=
  with_clock 5%Z (snd (predict_intent "helo" untrained_recognizer)).

(** The pipeline of the constant classifier. *)
Definition fresh_pipeline : @Model (constant_classifier "greeting" (9 # 10)) :=
  tt.

(** A recogniser next to a model file that does not unpickle. *)
Definition corrupt_file_world
  : @Persist.World (constant_classifier "greeting" (9 # 10)) :=
  {| Persist.self := untrained_recognizer;
     Persist.model_path := Persist.Unreadable;
     Persist.disk_writable := true |}.


(** What the very first start finds: an empty database, no model file. *)
Definition first_environment
  : @Persist.Environment (constant_classifier "greeting" (9 # 10)) :=
  {| Persist.db_reachable := true;
     Persist.stored_training := [];
     Persist.stored_queries := [];
     Persist.stored_model := Persist.Absent;
     Persist.writable := true;
     Persist.now := 0%Z |}.

(* ================================================================== *)
(** ** The callers: [LearningAssistant] and [GhostCore]

    [GhostCore._process_command] asks the recogniser and decides what to
    answer.  Speech, the UI signals and the system actions themselves are
    outside the embedding: an answer that an action produces is recorded as
    the call that produces it. *)

Module LearningAssistant.

(** A keyword-argument [dict]: keys in insertion order, [None] for an
    argument that is still to be filled in. *)
Definition kwargs : Type := list (string * option string).

(** [d[key] = value] *)
Fixpoint setitem (key : string) (value : option string) (d : kwargs)
  : kwargs :=
  match d with
  | [] => [(key, value)]
  | (k, v) :: d' =>
      if k =? key then (k, value) :: d' else (k, v) :: setitem key value d'
  end.

(** [d.get(key)] *)
Fixpoint get {V : Type} (key : string) (d : list (string * V)) : option V :=
  match d with
  | [] => None
  | (k, v) :: d' => if k =? key then Some v else get key d'
  end.

(** [self.action_dispatcher] of [_setup_dispatcher]: for each intent the
    name of the [SystemActions] method and its default arguments. *)
Definition action_dispatcher : list (string * (string * kwargs)) :=
  [
    ("get_time", ("get_current_time", []));
    ("get_today_date", ("get_today_date", []));
    ("get_ip_address", ("get_ip_address", []));
    ("wikipedia_search", ("wikipedia_search", [("query", None)]));
    ("open_notepad", ("open_application", [("app_name", Some "notepad")]));
    ("open_chrome", ("open_application", [("app_name", Some "chrome")]));
    ("open_calculator", ("open_application",
        [("app_name", Some "calculator")]));
    ("open_file_explorer", ("open_application",
        [("app_name", Some "file explorer")]));
    ("open_calendar", ("open_application", [("app_name", Some "calendar")]));
    ("open_control_panel", ("open_application",
        [("app_name", Some "control panel")]));
    ("open_command_prompt", ("open_application",
        [("app_name", Some "command prompt")]));
    ("open_power_settings", ("open_application",
        [("app_name", Some "power settings")]));
    ("open_device_manager", ("open_application",
        [("app_name", Some "device manager")]));
    ("open_system_properties", ("open_application",
        [("app_name", Some "system properties")]));
    ("open_network_connections", ("open_application",
        [("app_name", Some "network connections")]));
    ("open_firefox", ("open_application", [("app_name", Some "firefox")]));
    ("open_edge", ("open_application", [("app_name", Some "msedge")]));
    ("open_opera", ("open_application", [("app_name", Some "opera")]));
    ("open_media_player", ("open_application",
        [("app_name", Some "media player")]));
    ("open_task_manager", ("open_application",
        [("app_name", Some "task manager")]));
    ("close_notepad", ("close_application", [("app_name", Some "notepad")]));
    ("close_chrome", ("close_application", [("app_name", Some "chrome")]));
    ("close_firefox", ("close_application", [("app_name", Some "firefox")]));
    ("close_edge", ("close_application", [("app_name", Some "msedge")]));
    ("close_opera", ("close_application", [("app_name", Some "opera")]));
    ("close_media_player", ("close_application",
        [("app_name", Some "media player")]));
    ("close_task_manager", ("close_application",
        [("app_name", Some "task manager")]));
    ("shutdown_system", ("shutdown_system", []));
    ("restart_system", ("restart_system", []));
    ("sleep_system", ("sleep_system", []));
    ("hibernate_system", ("hibernate_system", []));
    ("lock_system", ("lock_system", []));
    ("take_screenshot", ("take_screenshot", []));
    ("minimize_all_windows", ("minimize_all_windows", []));
    ("maximize_window", ("maximize_window", []));
    ("minimize_window", ("minimize_window", []));
    ("adjust_volume_up", ("adjust_volume", [("direction", Some "up")]));
    ("adjust_volume_down", ("adjust_volume", [("direction", Some "down")]));
    ("browser_new_tab", ("control_browser_tab", [("action", Some "new")]));
    ("browser_next_tab", ("control_browser_tab", [("action", Some "next")]));
    ("browser_previous_tab", ("control_browser_tab",
        [("action", Some "previous")]));
    ("browser_home_page", ("control_browser_tab", [("action", Some "home")]));
    ("browser_close_tab", ("control_browser_tab",
        [("action", Some "close")]));
    ("browser_close_window", ("control_browser_tab",
        [("action", Some "close_window")]));
    ("browser_download_page", ("control_browser_tab",
        [("action", Some "download_page")]));
    ("browser_address_bar", ("control_browser_tab",
        [("action", Some "address_bar")]));
    ("browser_login_user", ("control_browser_tab",
        [("action", Some "login_to_different_user")]));
    ("media_play", ("control_media_playback", [("action", Some "play")]));
    ("media_pause", ("control_media_playback", [("action", Some "pause")]));
    ("media_stop", ("control_media_playback", [("action", Some "stop")]));
    ("media_next", ("control_media_playback", [("action", Some "next")]));
    ("media_previous", ("control_media_playback",
        [("action", Some "previous")]));
    ("media_toggle_play_pause", ("control_media_playback",
        [("action", Some "toggle")]));
    ("play_on_youtube", ("play_on_youtube", [("query", None)]));
    ("search_on_youtube", ("search_on_youtube", [("query", None)]));
    ("search_on_google", ("search_on_google", [("query", None)]));
    ("open_spotlight", ("open_system_feature",
        [("feature_name", Some "spotlight"); ("search_query", None)]));
    ("open_text_extractor", ("open_system_feature",
        [("feature_name", Some "text extractor")]));
    ("open_fancy_zone", ("open_system_feature",
        [("feature_name", Some "fancy zone")]));
    ("toggle_always_on_top", ("open_system_feature",
        [("feature_name", Some "always on top")]));
    ("initialize_user_db", ("initialize_user_database", []));
    ("add_user_db", ("add_user_to_database",
        [("name", None); ("age", None); ("sex", None); ("dob", None)]));
    ("check_user_db", ("check_user_in_database", [("name", None)])) ].

(** [entity == sentence] *)
Definition is_str (entity : option string) (sentence : string) : bool :=
  match entity with
  | Some e => e =? sentence
  | None => false
  end.

(** [if entity:] *)
Definition given (entity : option string) : bool :=
  match entity with
  | Some e => truthy e
  | None => false
  end.

Definition get_action_for_intent (intent_name : string)
    (entity : option string) : option string * kwargs :=
  match get intent_name action_dispatcher with
  | None => (None, [])
  | Some (action_function, default_args) =>
      let action_args := default_args in                    (* .copy() *)
      let action_args :=
        if (intent_name =? "wikipedia_search") && given entity
        then setitem "query" entity action_args
        else if (intent_name =? "play_on_youtube") && given entity
        then setitem "query" entity action_args
        else if (intent_name =? "search_on_youtube") && given entity
        then setitem "query" entity action_args
        else if (intent_name =? "search_on_google") && given entity
        then setitem "query" entity action_args
        else if (intent_name =? "open_spotlight") && given entity
        then setitem "search_query" entity action_args
        else action_args in
      (Some action_function, action_args)
  end.

End LearningAssistant.

Module GhostCore.

Import LearningAssistant.

(** What [_process_command] returns. *)
Inductive response : Type :=
| Say (sentence : string)               (* a sentence of the source *)
| SayOneOf (sentences : list string)    (* [random.choice] *)
| Await (action : string) (args : kwargs)
                                        (* what the awaited action returns *)
| AwaitWikipedia (wiki : string) (wiki_args : kwargs)
                 (google : option string) (google_args : kwargs)
    (* what the Wikipedia action returns; what the Google action returns
       when Wikipedia found nothing or raised *)
| Attempt (action : string) (args : kwargs).
    (* what the action returns, or the apology when it raises *)

(** [predicted_intent.replace('_', ' ')] *)
Fixpoint replace_underscores (s : string) : string :=
  match s with
  | EmptyString => EmptyString
  | String c s' =>
      String (if Ascii.eqb c "_" then " "%char else c) (replace_underscores s')
  end.

Definition clarification : response :=
  SayOneOf
    [ "I'm not sure how to help with that. Can you rephrase?";
      "I didn't quite catch that. Could you say it again?";
      "Sorry, I didn't understand. Could you try a different command?" ].

Section Core.

Context {C : Classifier}.

(** The attributes of [GhostCore] that [_process_command] reads or writes,
    the time of the last interaction apart. *)
Record t : Type := {
  assistant_name : string;
  _is_running : bool;
  voice_is_active : bool;
  intent_recognizer : IntentRecognizer
}.

Definition with_intent_recognizer (st : IntentRecognizer) (self : t) : t :=
  {| assistant_name := assistant_name self;
     _is_running := _is_running self;
     voice_is_active := voice_is_active self;
     intent_recognizer := st |}.

(** [self._is_running = False; self.voice.is_active = False] *)
Definition stop (self : t) : t :=
  {| assistant_name := assistant_name self;
     _is_running := false;
     voice_is_active := false;
     intent_recognizer := intent_recognizer self |}.

(** The [if]/[elif] chain of Case 3, on the 4-tuple of [predict_intent]. *)
Definition answer_to (r : recognition) (self : t) : response * t :=
  let '(predicted_intent, entity, _, confidence) := r in
  if predicted_intent =? "system_info" then
    (if is_str entity "your name"
     then Say ("My name is " ++ assistant_name self ++ ".")
     else if is_str entity "creator"
     then Say "I was created by a human developer. My identity is open-source."
     else if is_str entity "capabilities"
     then Say "I can help you with system commands, web searches, media control, and more."
     else Say "I am a virtual assistant designed to help you with various tasks.",
     self)
  else if predicted_intent =? "greeting" then
    (SayOneOf ["Hello! How can I assist you?"; "Hi there!"; "Greetings!"],
     self)
  else if predicted_intent =? "exit" then
    (SayOneOf ["Goodbye!"; "See you later!"; "Shutting down."], stop self)
  else if predicted_intent =? "get_weather" then
    let '(action_func, action_args) :=
      match entity with
      | Some e =>
          if truthy e
          then get_action_for_intent "search_on_google"
                 (Some (e ++ " weather"))
          else get_action_for_intent "search_on_google"
                 (Some "current weather")
      | None =>
          get_action_for_intent "search_on_google" (Some "current weather")
      end in
    (match action_func with
     | Some f => Await f action_args
     | None => Say "I can't get the weather right now."
     end, self)
  else if predicted_intent =? "get_info" then
    (if given entity then
       let '(wiki_action_func, wiki_action_args) :=
         get_action_for_intent "wikipedia_search" entity in
       match wiki_action_func with
       | Some w =>
           let '(google_action_func, google_action_args) :=
             get_action_for_intent "search_on_google" entity in
           AwaitWikipedia w wiki_action_args
             google_action_func google_action_args
       | None => Say "I can't find information on that."
       end
     else Say "What information are you looking for?",
     self)
  else if (predicted_intent =? "unknown")
          || Qltb confidence (confidence_threshold (intent_recognizer self))
  then (clarification, self)
  else
    let '(action_func, action_args) :=
      get_action_for_intent predicted_intent entity in
    (match action_func with
     | Some f => Attempt f action_args
     | None =>
         Say ("I understood you wanted to '"
              ++ replace_underscores predicted_intent
              ++ "', but I don't have an action for that yet.")
     end, self).

Definition _process_command (text : option string) (is_activation : bool)
    (self : t) : option response * t :=
  if is_activation then (Some (Say "How may I help you?"), self)
  else if match text with
          | Some s => truthy s && (lower s =? "deactivate")
          | None => false
          end
  then (Some (Say "Okay, I'm going to sleep."), stop self)
  else
    match text with
    | Some s =>
        if truthy s then
          match predict_intent s (intent_recognizer self) with
          | (Ok r, st') =>
              let (response_to_speak, self') :=
                answer_to r (with_intent_recognizer st' self) in
              (Some response_to_speak, self')
          | (Raised _, st') =>                   (* [except Exception] *)
              (Some (Say "Error occurred."), with_intent_recognizer st' self)
          end
        else (None, self)
    | None => (None, self)
    end.

End Core.

End GhostCore.

(** *** Vocabulary of the statements about the callers *)

(** The text [_process_command] hands to the recogniser, if any. *)
Definition consults (text : option string) (is_activation : bool)
  : option string :=
  if is_activation then None
  else
    match text with
    | Some s =>
        if truthy s && negb (lower s =? "deactivate") then Some s else None
    | None => None
    end.

(** The voice recogniser's command to go to sleep. *)
Definition deactivates (text : option string) (is_activation : bool) : Prop :=
  is_activation = false
  /\ exists s, text = Some s /\ truthy s = true /\ lower s = "deactivate".

Definition farewell : GhostCore.response :=
  GhostCore.SayOneOf ["Goodbye!"; "See you later!"; "Shutting down."].

(** A running assistant around a recogniser. *)
Definition running_core {C : Classifier} (st : IntentRecognizer)
  : GhostCore.t :=
  {| GhostCore.assistant_name := "Ghost";
     GhostCore._is_running := true;
     GhostCore.voice_is_active := true;
     GhostCore.intent_recognizer := st |}.

(* ================================================================== *)
(** ** A connection that refuses statements

    [sqlite3] raises on an open connection too.  A connection belongs to
    the thread that opened it ([check_same_thread]): a statement issued
    from another thread raises [sqlite3.ProgrammingError], and [GhostUI]
    builds [GhostCore] in the UI thread while [_process_command] runs in a
    [QThread].  A write to a database that another connection has locked
    raises [sqlite3.OperationalError].  Both are subclasses of
    [sqlite3.Error].

    Here the recogniser comes with the answers of the connection to the
    statements still to be issued; the query log of [predict_intent] is
    modelled on that connection. *)

Module Conn.

Section Refusals.

Context {C : Classifier}.

(** [refused]: for each coming statement on the open connection, whether
    it raises [sqlite3.Error]; past the end of the list statements are
    accepted. *)
Record Session : Type := {
  self : IntentRecognizer;
  refused : list bool
}.

Definition with_self (st : IntentRecognizer) (w : Session) : Session :=
  {| self := st; refused := refused w |}.

Definition M (A : Type) : Type := Session -> outcome A * Session.

Definition ret {A : Type} (a : A) : M A := fun w => (Ok a, w).

Definition bind {A B : Type} (m : M A) (f : A -> M B) : M B :=
  fun w =>
    match m w with
    | (Ok a, w') => f a w'
    | (Raised e, w') => (Raised e, w')
    end.

Definition try_except {A : Type} (body : M A) (catches : exn -> bool)
    (handler : M A) : M A :=
  fun w =>
    match body w with
    | (Ok a, w') => (Ok a, w')
    | (Raised e, w') => if catches e then handler w' else (Raised e, w')
    end.

(** A step that issues no statement. *)
Definition lift {A : Type}
    (m : IntentRecognizer -> outcome A * IntentRecognizer) : M A :=
  fun w => let (o, st') := m (self w) in (o, with_self st' w).

(** A statement.  A closed connection refuses it; an open one answers as
    [refused] says.  A refused statement changes nothing. *)
Definition execute (f : IntentRecognizer -> IntentRecognizer) : M unit :=
  fun w =>
    if conn_open (self w) then
      match refused w with
      | true :: rest =>
          (Raised SqliteError, {| self := self w; refused := rest |})
      | false :: rest => (Ok tt, {| self := f (self w); refused := rest |})
      | [] => (Ok tt, {| self := f (self w); refused := [] |})
      end
    else (Raised SqliteError, w).

(** [self.conn.commit()]: the tables as the connection sees them stay as
    they are, whether or not the commit is accepted. *)
Definition commit : M unit := execute (fun st => st).

(** [INSERT INTO queries (text, predicted_intent, confidence) VALUES (?,?,?)] *)
Definition insert_query (text : string) (predicted_intent : option string)
    (confidence : option Q) : M unit :=
  execute (fun st =>
    with_queries
      (queries st ++
         [ {| q_text := text; q_predicted_intent := predicted_intent;
              q_correct_intent := None; q_confidence := confidence;
              q_timestamp := clock st |} ]) st).

Definition _log_query (text : string) (predicted_intent : option string)
    (confidence : option Q) : M unit :=
  try_except
    (bind (insert_query text predicted_intent confidence) (fun _ => commit))
    sqlite3_Error
    (ret tt).

Definition predict_intent (text : string) : M recognition :=
  if negb (truthy (strip text)) then
    bind (_log_query text (Some "unknown") (Some 0%Q)) (fun _ =>
    ret ("unknown", None, "unknown", 0%Q))
  else
    let clean_text := _preprocess_text text in
    if negb (truthy clean_text) then
      bind (_log_query text (Some "unknown") (Some 0%Q)) (fun _ =>
      ret ("unknown", None, "unknown", 0%Q))
    else
      try_except
        (bind (lift get) (fun st =>
         bind
           (if negb (is_trained st)
               || match model st with None => true | Some _ => false end
            then ret (_fallback_intent text 0%Q)
            else
              bind (lift (model_predict clean_text)) (fun predicted_intent =>
              bind (lift (model_confidence clean_text)) (fun confidence =>
              if Qltb confidence (confidence_threshold st)
              then ret (_fallback_intent text confidence)
              else
                let resolved_tuple := _resolve_intent predicted_intent text in
                ret (fst (fst resolved_tuple), snd (fst resolved_tuple),
                     snd resolved_tuple, confidence))))
           (fun result =>
         let '(predicted_intent, _, _, confidence) := result in
         bind (_log_query text (Some predicted_intent) (Some confidence))
              (fun _ => ret result))))
        Exception
        (bind (_log_query text (Some "error") (Some 0%Q)) (fun _ =>
         ret (_fallback_intent text 0%Q))).

(** *** Vocabulary *)

(** The connection accepts the next statement. *)
Definition accepted (w : Session) : bool :=
  conn_open (self w) && negb (hd false (refused w)).

(** The answers left after [_log_query]: it issues the INSERT and, when
    that is accepted, the commit. *)
Definition after_log (w : Session) : list bool :=
  if conn_open (self w) then
    match refused w with
    | true :: rest => rest
    | false :: rest => tl rest
    | [] => []
    end
  else refused w.

(** The session after [_log_query]: one more row when the INSERT is
    accepted. *)
Definition logged (w : Session) (text predicted_intent : string)
    (confidence : Q) : Session :=
  {| self :=
       if accepted w
       then with_queries
              (queries (self w)
               ++ [query_row (self w) text predicted_intent confidence])
              (self w)
       else self w;
     refused := after_log w |}.


End Refusals.

End Conn.

(** What [predict_intent] settles before it logs: the 4-tuple to return,
    the recogniser after the classifier calls, and the intent and
    confidence to log. *)
Definition decision {C : Classifier} (st : IntentRecognizer) (text : string)
  : recognition * IntentRecognizer * string * Q :=
  if blank text then (unknown_result, st, "unknown", 0%Q)
  else if untrained st then
    (_fallback_intent text 0%Q, st,
     intent_of (_fallback_intent text 0%Q),
     confidence_of (_fallback_intent text 0%Q))
  else
    match model st with
    | None =>
        (_fallback_intent text 0%Q, st,
         intent_of (_fallback_intent text 0%Q),
         confidence_of (_fallback_intent text 0%Q))
    | Some m =>
        match predict m (_preprocess_text text) with
        | None => (_fallback_intent text 0%Q, count_call st, "error", 0%Q)
        | Some label =>
            match max_proba m (_preprocess_text text) with
            | None =>
                (_fallback_intent text 0%Q, count_call (count_call st),
                 "error", 0%Q)
            | Some p =>
                (classified st text label p, count_call (count_call st),
                 intent_of (classified st text label p),
                 confidence_of (classified st text label p))
            end
        end
    end.






(* ================================================================== *)
(** * Proofs *)


(* ================================================================== *)
(** ** Character tables *)

Ltac each_char c := destruct c as [[] [] [] [] [] [] [] []].

Lemma lower_char_idempotent (c : ascii) :
  lower_char (lower_char c) = lower_char c.
Proof. each_char c; reflexivity. Qed.

Lemma lower_char_fixed (c : ascii) : lower_fixed (lower_char c) = true.
Proof. each_char c; reflexivity. Qed.

Lemma lower_fixed_eq (c : ascii) : lower_fixed c = true -> lower_char c = c.
Proof. unfold lower_fixed. intro H. now apply Ascii.eqb_eq. Qed.

Lemma lower_fixed_not_upper (c : ascii) : lower_fixed c = negb (is_upper c).
Proof. each_char c; reflexivity. Qed.

Lemma word_not_space (c : ascii) : is_word c = true -> is_space c = false.
Proof. each_char c; intro H; try reflexivity; discriminate H. Qed.


(* ================================================================== *)
(** ** Splitting and joining *)

Lemma split_cons_congr (c : ascii) (s t : string) :
  split s = split t -> starts_space s = starts_space t ->
  split (String c s) = split (String c t).
Proof. intros Hs Hb. simpl. now rewrite Hs, Hb. Qed.

Lemma starts_space_sub_spaces (s : string) :
  starts_space (sub_spaces s) = starts_space s.
Proof.
  induction s as [|c s IH]; [reflexivity|].
  simpl. destruct (is_space c) eqn:Hc.
  - destruct s as [|d s']; [reflexivity|].
    destruct (is_space d) eqn:Hd.
    + rewrite IH. simpl. exact Hd.
    + reflexivity.
  - simpl. exact Hc.
Qed.

Lemma split_sub_spaces (s : string) : split (sub_spaces s) = split s.
Proof.
  induction s as [|c s IH]; [reflexivity|].
  cbn [sub_spaces]. destruct (is_space c) eqn:Hc.
  - destruct s as [|d s'].
    + simpl. now rewrite Hc.
    + destruct (is_space d) eqn:Hd.
      * rewrite IH. cbn [split]. now rewrite Hc, Hd.
      * change (split (String " " (sub_spaces (String d s')))
                = split (String c (String d s'))).
        cbn [split]. rewrite Hc. change (is_space " ") with true. cbv iota.
        exact IH.
  - apply split_cons_congr; [exact IH | apply starts_space_sub_spaces].
Qed.

Lemma sub_punct_cons (c : ascii) (s : string) :
  sub_punct (String c s) = String (sub_punct_char c) (sub_punct s).
Proof. reflexivity. Qed.

Lemma sub_punct_char_space (c : ascii) :
  is_space c = true -> sub_punct_char c = c.
Proof. unfold sub_punct_char. intros ->. now rewrite orb_true_r. Qed.

Lemma split_sub_punct_lstrip (s : string) :
  split (sub_punct (lstrip s)) = split (sub_punct s).
Proof.
  induction s as [|c s IH]; [reflexivity|].
  cbn [lstrip]. destruct (is_space c) eqn:Hc; [|reflexivity].
  rewrite IH, sub_punct_cons, (sub_punct_char_space _ Hc).
  cbn [split]. now rewrite Hc.
Qed.

Lemma split_sub_punct_rstrip (s : string) :
  split (sub_punct (rstrip s)) = split (sub_punct s)
  /\ starts_space (sub_punct (rstrip s)) = starts_space (sub_punct s).
Proof.
  induction s as [|c s [IHs IHb]]; [split; reflexivity|].
  cbn [rstrip]. destruct (rstrip s) as [|d r] eqn:Hr.
  - destruct (is_space c) eqn:Hc.
    + rewrite sub_punct_cons, (sub_punct_char_space _ Hc).
      cbn [split starts_space]. rewrite Hc, <- IHs. split; reflexivity.
    + split; [|reflexivity].
      rewrite !sub_punct_cons. apply split_cons_congr; assumption.
  - split; [|reflexivity].
    rewrite !sub_punct_cons. apply split_cons_congr; assumption.
Qed.

Lemma split_sub_punct_strip (s : string) :
  split (sub_punct (strip s)) = split (sub_punct s).
Proof.
  unfold strip.
  rewrite (proj1 (split_sub_punct_rstrip _)). apply split_sub_punct_lstrip.
Qed.

(** The normaliser keeps the long tokens of the lower-cased text with its
    punctuation blanked; stripping and collapsing do not change them. *)
Lemma preprocess_tokens (x : string) :
  _preprocess_text x
  = join " " (filter long_word (split (sub_punct (lower x)))).
Proof.
  unfold _preprocess_text.
  now rewrite split_sub_spaces, split_sub_punct_strip.
Qed.

Lemma split_tokens (s : string) :
  all_chars (fun c => is_space c || (is_word c && lower_fixed c)) s = true ->
  Forall token (split s).
Proof.
  induction s as [|c s IH]; intro H; [constructor|].
  cbn [all_chars] in H. apply andb_true_iff in H as [Hc Hs].
  specialize (IH Hs). cbn [split].
  destruct (is_space c) eqn:Ec; [exact IH|].
  assert (Hw : token_char c = true)
    by (unfold token_char; rewrite Ec; exact Hc).
  destruct (starts_space s) eqn:Es.
  - constructor; [|exact IH].
    split; [discriminate | cbn [all_chars]; now rewrite Hw].
  - destruct (split s) as [|w ws] eqn:Ew.
    + constructor; [|constructor].
      split; [discriminate | cbn [all_chars]; now rewrite Hw].
    + inversion IH as [|? ? [_ Hall] Hws]; subst.
      constructor; [|exact Hws].
      split; [discriminate | cbn [all_chars]; now rewrite Hw, Hall].
Qed.

Lemma sub_punct_lower_chars (x : string) :
  all_chars (fun c => is_space c || (is_word c && lower_fixed c))
            (sub_punct (lower x)) = true.
Proof.
  induction x as [|c x IH]; [reflexivity|].
  cbn [lower sub_punct all_chars]. rewrite IH, andb_true_r.
  destruct (is_word (lower_char c)) eqn:Hw; cbn [orb].
  - rewrite Hw, lower_char_fixed. apply orb_true_r.
  - destruct (is_space (lower_char c)) eqn:Hs; [now rewrite Hs | reflexivity].
Qed.

Lemma tokens_of_text (x : string) :
  Forall token (filter long_word (split (sub_punct (lower x)))).
Proof.
  apply Forall_forall. intros w Hin. apply filter_In in Hin as [Hin _].
  revert w Hin. apply Forall_forall, split_tokens, sub_punct_lower_chars.
Qed.

Lemma lower_app (s t : string) : lower (s ++ t) = lower s ++ lower t.
Proof. induction s as [|c s IH]; [reflexivity|]. simpl. now rewrite IH. Qed.

Lemma sub_punct_app (s t : string) :
  sub_punct (s ++ t) = sub_punct s ++ sub_punct t.
Proof. induction s as [|c s IH]; [reflexivity|]. simpl. now rewrite IH. Qed.

Lemma token_chars_lower (w : string) :
  all_chars token_char w = true -> lower w = w.
Proof.
  induction w as [|c w IH]; [reflexivity|].
  cbn [all_chars lower]. intro H. apply andb_true_iff in H as [Hc Hw].
  unfold token_char in Hc. apply andb_true_iff in Hc as [_ Hc].
  apply andb_true_iff in Hc as [_ Hc].
  now rewrite (lower_fixed_eq _ Hc), (IH Hw).
Qed.

Lemma token_chars_sub_punct (w : string) :
  all_chars token_char w = true -> sub_punct w = w.
Proof.
  induction w as [|c w IH]; [reflexivity|].
  cbn [all_chars sub_punct]. intro H. apply andb_true_iff in H as [Hc Hw].
  unfold token_char in Hc. apply andb_true_iff in Hc as [_ Hc].
  apply andb_true_iff in Hc as [Hc _].
  now rewrite Hc, (IH Hw).
Qed.

Lemma join_cons2 (sep w v : string) (ws : list string) :
  join sep (w :: v :: ws) = w ++ sep ++ join sep (v :: ws).
Proof. reflexivity. Qed.

Lemma lower_join (ws : list string) :
  Forall token ws -> lower (join " " ws) = join " " ws.
Proof.
  induction 1 as [|w ws [_ Hw] Hws IH]; [reflexivity|].
  destruct ws as [|v ws]; [exact (token_chars_lower _ Hw)|].
  rewrite join_cons2, !lower_app, IH, (token_chars_lower _ Hw). reflexivity.
Qed.

Lemma sub_punct_join (ws : list string) :
  Forall token ws -> sub_punct (join " " ws) = join " " ws.
Proof.
  induction 1 as [|w ws [_ Hw] Hws IH]; [reflexivity|].
  destruct ws as [|v ws]; [exact (token_chars_sub_punct _ Hw)|].
  rewrite join_cons2, !sub_punct_app, IH, (token_chars_sub_punct _ Hw).
  reflexivity.
Qed.

(** A token followed by the end of a token is split off whole. *)
Lemma split_token_app (w s : string) :
  token w -> starts_space s = true -> split (w ++ s) = w :: split s.
Proof.
  intros [Hne Hall] Hs. induction w as [|c w IH]; [congruence|].
  cbn [all_chars] in Hall. apply andb_true_iff in Hall as [Hc Hw].
  assert (Ec : is_space c = false).
  { unfold token_char in Hc. apply andb_true_iff in Hc as [Hc _].
    now apply negb_true_iff in Hc. }
  change (String c w ++ s) with (String c (w ++ s)).
  cbn [split]. rewrite Ec.
  destruct w as [|d w'].
  - cbn [append]. now rewrite Hs.
  - assert (Ed : starts_space (String d w' ++ s) = false).
    { cbn [all_chars] in Hw. apply andb_true_iff in Hw as [Hd _].
      unfold token_char in Hd. apply andb_true_iff in Hd as [Hd _].
      now apply negb_true_iff in Hd. }
    rewrite Ed, IH; [reflexivity | discriminate | exact Hw].
Qed.

Lemma append_empty_r (s : string) : s ++ EmptyString = s.
Proof. induction s as [|c s IH]; [reflexivity|]. simpl. now rewrite IH. Qed.

Lemma split_join (ws : list string) :
  Forall token ws -> split (join " " ws) = ws.
Proof.
  induction 1 as [|w ws Hw Hws IH]; [reflexivity|].
  destruct ws as [|v ws].
  - cbn [join]. rewrite <- (append_empty_r w) at 1.
    now rewrite (split_token_app w EmptyString Hw eq_refl).
  - rewrite join_cons2.
    rewrite (split_token_app w (" " ++ join " " (v :: ws)) Hw eq_refl).
    f_equal. exact IH.
Qed.

Lemma filter_idempotent {A : Type} (f : A -> bool) (l : list A) :
  filter f (filter f l) = filter f l.
Proof.
  induction l as [|a l IH]; [reflexivity|].
  simpl. destruct (f a) eqn:E; [simpl; now rewrite E, IH | exact IH].
Qed.

(* ================================================================== *)
(** ** The matcher's fuel *)

(** A matcher that only looks at what its continuation answers. *)
Lemma star_loop_ext {A : Type}
    (body : Re.mstate -> (Re.mstate -> option A) -> option A)
    (greedy : bool) :
  (forall st k1 k2, (forall s, k1 s = k2 s) -> body st k1 = body st k2) ->
  forall n st k1 k2, (forall s, k1 s = k2 s) ->
    Re.star_loop body greedy k1 n st = Re.star_loop body greedy k2 n st.
Proof.
  intros Hb n. induction n as [|n IH]; intros st k1 k2 Hk;
    cbn [Re.star_loop].
  - apply Hk.
  - rewrite (Hk st).
    rewrite (Hb st _
               (fun st' =>
                  if (String.length (Re.rest st')
                      <? String.length (Re.rest st))%nat
                  then Re.star_loop body greedy k2 n st' else None)).
    + reflexivity.
    + intro s. destruct (_ <? _)%nat; [apply IH, Hk | reflexivity].
Qed.

Lemma run_ext {A : Type} (r : Re.regex) (st : Re.mstate)
    (k1 k2 : Re.mstate -> option A) :
  (forall s, k1 s = k2 s) -> Re.run r st k1 = Re.run r st k2.
Proof.
  revert st k1 k2.
  induction r as [|p|r1 IH1 r2 IH2|r1 IH1 r2 IH2|g r IH|r IH| |];
    intros st k1 k2 Hk; cbn [Re.run].
  - apply Hk.
  - destruct (Re.rest st) as [|c s']; [reflexivity|].
    destruct (p c); [apply Hk | reflexivity].
  - apply IH1. intro s. now apply IH2.
  - now rewrite (IH1 st k1 k2 Hk), (IH2 st k1 k2 Hk).
  - now apply star_loop_ext.
  - apply IH. intro s. apply Hk.
  - destruct (Re.word_boundary st); [apply Hk | reflexivity].
  - destruct (Re.at_end st); [apply Hk | reflexivity].
Qed.

Lemma star_loop_fuel {A : Type}
    (body : Re.mstate -> (Re.mstate -> option A) -> option A)
    (greedy : bool) (k : Re.mstate -> option A) :
  (forall st k1 k2, (forall s, k1 s = k2 s) -> body st k1 = body st k2) ->
  forall n m st,
    (String.length (Re.rest st) < n)%nat ->
    (String.length (Re.rest st) < m)%nat ->
    Re.star_loop body greedy k n st = Re.star_loop body greedy k m st.
Proof.
  intros Hb n. induction n as [|n IH]; intros m st Hn Hm; [lia|].
  destruct m as [|m]; [lia|]. cbn [Re.star_loop].
  rewrite (Hb st _
             (fun st' =>
                if (String.length (Re.rest st')
                    <? String.length (Re.rest st))%nat
                then Re.star_loop body greedy k m st' else None)).
  - reflexivity.
  - intro s. destruct (_ <? _)%nat eqn:E; [|reflexivity].
    apply Nat.ltb_lt in E. apply IH; lia.
Qed.

(** More fuel than characters ahead is as good as any other such amount:
    the bound chosen by [run] never cuts a repetition short. *)
Lemma run_star_fuel {A : Type} (greedy : bool) (r : Re.regex)
    (k : Re.mstate -> option A) (n : nat) (st : Re.mstate) :
  (String.length (Re.rest st) < n)%nat ->
  Re.run (Re.Star greedy r) st k = Re.star_loop (Re.run r) greedy k n st.
Proof.
  intro Hn. cbn [Re.run]. apply star_loop_fuel.
  - intros st0 k1 k2 Hk. now apply run_ext.
  - lia.
  - exact Hn.
Qed.

(* ================================================================== *)
(** ** Substrings of lower-cased text *)

Lemma all_chars_lower (s : string) : all_chars lower_fixed (lower s) = true.
Proof.
  induction s as [|c s IH]; [reflexivity|].
  cbn [lower all_chars]. now rewrite lower_char_fixed, IH.
Qed.

Lemma startswith_all_chars (P : ascii -> bool) (t s : string) :
  startswith s t = true -> all_chars P s = true -> all_chars P t = true.
Proof.
  revert s. induction t as [|a t IH]; intros s Hp Hs; [reflexivity|].
  destruct s as [|b s]; [discriminate|].
  cbn [startswith] in Hp. apply andb_true_iff in Hp as [Hab Hp].
  apply Ascii.eqb_eq in Hab. subst b.
  cbn [all_chars] in *. apply andb_true_iff in Hs as [Ha Hs].
  now rewrite Ha, (IH s Hp Hs).
Qed.

Lemma contains_all_chars (P : ascii -> bool) (t s : string) :
  contains s t = true -> all_chars P s = true -> all_chars P t = true.
Proof.
  induction s as [|b s IH]; intros Hc Hs.
  - cbn [contains] in Hc. rewrite orb_false_r in Hc.
    exact (startswith_all_chars P t _ Hc Hs).
  - cbn [contains] in Hc. apply orb_true_iff in Hc as [Hc|Hc].
    + exact (startswith_all_chars P t _ Hc Hs).
    + cbn [all_chars] in Hs. apply andb_true_iff in Hs as [_ Hs]. auto.
Qed.

Lemma has_upper_not_lower_fixed (t : string) :
  has_upper t = true -> all_chars lower_fixed t = false.
Proof.
  unfold has_upper. intro H. apply negb_true_iff in H.
  induction t as [|c t IH]; [discriminate|].
  cbn [all_chars] in *. rewrite lower_fixed_not_upper.
  destruct (is_upper c); [reflexivity|]. cbn [negb andb] in *. auto.
Qed.

Lemma upper_trigger_never_matches (trigger text : string) :
  has_upper trigger = true -> contains (lower text) trigger = false.
Proof.
  intro Hu. destruct (contains (lower text) trigger) eqn:Hc; [|reflexivity].
  pose proof (contains_all_chars lower_fixed _ _ Hc (all_chars_lower text)).
  pose proof (has_upper_not_lower_fixed _ Hu). congruence.
Qed.

Lemma any_trigger_drop (clean_text dead : string) (triggers : list string) :
  contains clean_text dead = false ->
  any_trigger clean_text (filter (fun t => negb (t =? dead)) triggers)
  = any_trigger clean_text triggers.
Proof.
  intro Hd. unfold any_trigger.
  induction triggers as [|t ts IH]; [reflexivity|].
  cbn [filter existsb]. destruct (t =? dead) eqn:E; cbn [negb].
  - apply String.eqb_eq in E. subst t. now rewrite Hd, IH.
  - cbn [existsb]. now rewrite IH.
Qed.

Lemma first_pattern_drop (clean_text dead : string)
    (patterns : list (string * list string)) :
  contains clean_text dead = false ->
  first_pattern
    (map (fun it => (fst it, filter (fun t => negb (t =? dead)) (snd it)))
         patterns) clean_text
  = first_pattern patterns clean_text.
Proof.
  intro Hd. induction patterns as [|[intent triggers] ps IH]; [reflexivity|].
  cbn [map first_pattern fst snd].
  now rewrite (any_trigger_drop _ _ _ Hd), IH.
Qed.

(* ================================================================== *)
(** ** The fallback matcher *)

Lemma pymax_ge_right (a b : Q) : (b <= pymax a b)%Q.
Proof.
  unfold pymax, Qltb. destruct (Qle_bool b a) eqn:E; cbn [negb].
  - now apply Qle_bool_iff.
  - apply Qle_refl.
Qed.

Lemma any_trigger_in (clean_text trigger : string) (triggers : list string) :
  In trigger triggers -> contains clean_text trigger = true ->
  any_trigger clean_text triggers = true.
Proof.
  intros Hin Hc. unfold any_trigger. apply existsb_exists. now exists trigger.
Qed.

Lemma first_pattern_found (patterns : list (string * list string))
    (clean_text intent trigger : string) (triggers : list string) :
  In (intent, triggers) patterns -> In trigger triggers ->
  contains clean_text trigger = true ->
  exists found, first_pattern patterns clean_text = Some found.
Proof.
  intros Hin Ht Hc. induction patterns as [|[i ts] ps IH]; [contradiction|].
  cbn [first_pattern]. destruct (any_trigger clean_text ts) eqn:E.
  - now exists i.
  - destruct Hin as [Heq|Hin]; [|auto].
    inversion Heq; subst. now rewrite (any_trigger_in _ _ _ Ht Hc) in E.
Qed.

Lemma fallback_intent_match (text : string) (confidence : Q) :
  trigger_occurs text ->
  confidence_of (_fallback_intent text confidence)
  = pymax confidence float_0_8.
Proof.
  intros (intent & triggers & trigger & Hin & Ht & Hc).
  destruct (first_pattern_found _ _ _ _ _ Hin Ht Hc) as [found Hf].
  unfold _fallback_intent. rewrite Hf.
  destruct (_resolve_intent found text) as [[i e] t]. reflexivity.
Qed.

Lemma fallback_intent_no_match (text : string) (confidence : Q) :
  first_pattern common_patterns (lower text) = None ->
  _fallback_intent text confidence = ("unknown", None, "unknown", confidence).
Proof. intro H. unfold _fallback_intent. now rewrite H. Qed.


Section Recognition.

Context {C : Classifier}.

Lemma log_query_eq (text predicted_intent : string) (confidence : Q)
    (st : IntentRecognizer) :
  _log_query text (Some predicted_intent) (Some confidence) st
  = (Ok tt, logged st text predicted_intent confidence).
Proof.
  unfold _log_query, try_except, bind, insert_query, commit, execute, ret,
    logged, query_row.
  destruct (conn_open st) eqn:E; [|reflexivity].
  cbn. now rewrite E.
Qed.


Lemma logged_frame (st : IntentRecognizer) (text pi : string) (c : Q) :
  model (logged st text pi c) = model st
  /\ is_trained (logged st text pi c) = is_trained st
  /\ classifier_calls (logged st text pi c) = classifier_calls st
  /\ training_data (logged st text pi c) = training_data st
  /\ conn_open (logged st text pi c) = conn_open st.
Proof.
  unfold logged. destruct (conn_open st) eqn:E; repeat split;
    try reflexivity; cbn; now rewrite E.
Qed.

Lemma predict_intent_blank (text : string) (st : IntentRecognizer) :
  blank text = true ->
  predict_intent text st = (Ok unknown_result, logged st text "unknown" 0%Q).
Proof.
  unfold blank, predict_intent. intro H.
  destruct (negb (truthy (strip text))).
  - unfold bind. now rewrite log_query_eq.
  - cbn [orb] in H. cbv zeta. rewrite H. unfold bind. now rewrite log_query_eq.
Qed.

Lemma predict_intent_untrained (text : string) (st : IntentRecognizer) :
  blank text = false -> untrained st = true ->
  predict_intent text st
  = (Ok (_fallback_intent text 0%Q),
     logged st text (intent_of (_fallback_intent text 0%Q))
                    (confidence_of (_fallback_intent text 0%Q))).
Proof.
  unfold blank, untrained, predict_intent. intros Hb Hu.
  apply orb_false_iff in Hb as [H1 H2]. rewrite H1. cbv zeta. rewrite H2.
  unfold try_except, bind, get. rewrite Hu. unfold ret at 1.
  destruct (_fallback_intent text 0%Q) as [[[i e] t] c] eqn:E.
  now rewrite log_query_eq.
Qed.

Lemma predict_intent_classified (text : string) (st : IntentRecognizer)
    (m : Model) (label : string) (p : Q) :
  blank text = false -> untrained st = false -> model st = Some m ->
  predict m (_preprocess_text text) = Some label ->
  max_proba m (_preprocess_text text) = Some p ->
  predict_intent text st
  = (Ok (classified st text label p),
     logged (count_call (count_call st)) text
            (intent_of (classified st text label p))
            (confidence_of (classified st text label p))).
Proof.
  unfold blank, untrained, predict_intent. intros Hb Hu Hm Hp Hq.
  apply orb_false_iff in Hb as [H1 H2]. rewrite H1. cbv zeta. rewrite H2.
  unfold try_except, bind at 1, get. rewrite Hu.
  unfold bind at 1. unfold bind at 1.
  unfold model_predict at 1. rewrite Hm, Hp.
  unfold bind at 1. unfold model_confidence at 1. cbn [model count_call].
  rewrite Hm, Hq. fold (count_call (count_call st)).
  unfold classified.
  destruct (Qltb p (confidence_threshold st)); unfold ret at 1.
  - destruct (_fallback_intent text p) as [[[i e] t] c] eqn:E.
    unfold bind. now rewrite log_query_eq.
  - unfold bind. now rewrite log_query_eq.
Qed.

Lemma predict_intent_raises (text : string) (st : IntentRecognizer) :
  blank text = false ->
  classifier_raises st (_preprocess_text text) = true ->
  exists st0,
    predict_intent text st
    = (Ok (_fallback_intent text 0%Q), logged st0 text "error" 0%Q)
    /\ same_database st st0 /\ model st0 = model st
    /\ is_trained st0 = is_trained st.
Proof.
  unfold blank, classifier_raises, predict_intent. intros Hb Hr.
  apply andb_true_iff in Hr as [Hu Hr]. apply negb_true_iff in Hu.
  apply orb_false_iff in Hb as [H1 H2]. rewrite H1. cbv zeta. rewrite H2.
  unfold try_except, bind at 1, get. fold (untrained st). rewrite Hu.
  destruct (model st) as [m|] eqn:Hm; [|discriminate].
  unfold bind at 1. unfold bind at 1. unfold model_predict at 1. rewrite Hm.
  destruct (predict m (_preprocess_text text)) as [label|] eqn:Hp.
  - destruct (max_proba m (_preprocess_text text)) as [p|] eqn:Hq;
      [discriminate|].
    unfold bind at 1. unfold model_confidence at 1. cbn [model count_call].
    rewrite Hm, Hq. fold (count_call (count_call st)).
    exists (count_call (count_call st)).
    unfold bind. rewrite log_query_eq.
    repeat split; try reflexivity. cbn. now rewrite Hm.
  - exists (count_call st). unfold bind. rewrite log_query_eq.
    repeat split; try reflexivity. cbn. now rewrite Hm.
Qed.

End Recognition.


(* ================================================================== *)
(** ** Counting labels *)

Lemma counter_get_incr (k k' : string) (c : list (string * nat)) :
  counter_get k' (counter_incr k c)
  = if k' =? k then S (counter_get k' c) else counter_get k' c.
Proof.
  induction c as [|[k0 n] c IH]; cbn [counter_incr counter_get].
  - destruct (k' =? k); reflexivity.
  - destruct (k =? k0) eqn:E; cbn [counter_get].
    + apply String.eqb_eq in E. subst k0.
      destruct (k' =? k); reflexivity.
    + destruct (k' =? k0) eqn:E'; [|exact IH].
      apply String.eqb_eq in E'. subst k0.
      rewrite String.eqb_sym in E. now rewrite E.
Qed.

Lemma counter_get_fold (labels : list string) (c : list (string * nat))
    (k : string) :
  counter_get k (fold_left (fun c k => counter_incr k c) labels c)
  = (count_occ string_dec labels k + counter_get k c)%nat.
Proof.
  revert c. induction labels as [|l labels IH]; intro c; [reflexivity|].
  cbn [fold_left count_occ]. rewrite IH, counter_get_incr.
  destruct (string_dec l k) as [->|Hne].
  - rewrite String.eqb_refl. lia.
  - destruct (k =? l) eqn:E; [|reflexivity].
    apply String.eqb_eq in E. congruence.
Qed.

Lemma counter_get_in (k : string) (c : list (string * nat)) :
  (0 < counter_get k c)%nat -> In (k, counter_get k c) c.
Proof.
  induction c as [|[k0 n] c IH]; cbn [counter_get]; [lia|].
  destruct (k =? k0) eqn:E.
  - apply String.eqb_eq in E. subst k0. intros _. now left.
  - intro H. right. auto.
Qed.

Lemma Counter_in (labels : list string) (label : string) :
  In label labels ->
  In (label, count_occ string_dec labels label) (Counter labels).
Proof.
  intro Hin. unfold Counter.
  pose proof (counter_get_fold labels [] label) as Hget.
  cbn [counter_get] in Hget. rewrite Nat.add_0_r in Hget.
  rewrite <- Hget. apply counter_get_in. rewrite Hget.
  now apply count_occ_In.
Qed.

Lemma find_exists {A : Type} (f : A -> bool) (l : list A) (x : A) :
  In x l -> f x = true -> exists y, find f l = Some y.
Proof.
  induction l as [|a l IH]; [contradiction|].
  intros [->|Hin] Hx; cbn [find].
  - rewrite Hx. eauto.
  - destruct (f a); eauto.
Qed.

(* ================================================================== *)
(** ** Training *)

Section Training.

Context {C : Classifier}.

Lemma sparse_class_found (st : IntentRecognizer) :
  sparse_class st ->
  exists ic,
    find (fun ic => (snd ic <? min_samples_per_class st)%nat)
         (Counter (map t_intent (training_data st))) = Some ic.
Proof.
  intros (label & Hin & Hlt).
  apply (find_exists _ _ _ (Counter_in _ _ Hin)).
  now apply Nat.ltb_lt.
Qed.

Lemma get_training_data_eq (st : IntentRecognizer) :
  _get_training_data st
  = (Ok (if conn_open st
         then (map t_text (training_data st), map t_intent (training_data st))
         else ([], [])), st).
Proof.
  unfold _get_training_data, try_except, bind, fetch, ret.
  destruct (conn_open st); [|reflexivity].
  destruct (training_data st); reflexivity.
Qed.

(** [_train_model] with the rows read: the three ways it ends. *)
Lemma train_model_eq (st : IntentRecognizer) :
  _train_model st
  = let labels := if conn_open st then map t_intent (training_data st)
                  else [] in
    let texts := if conn_open st then map t_text (training_data st)
                 else [] in
    if match texts with [] => true | _ :: _ => false end
       || (count_distinct labels <? 2)%nat
    then (Ok false, with_is_trained false st)
    else
      match find (fun ic => (snd ic <? min_samples_per_class st)%nat)
                 (Counter labels) with
      | Some _ => (Ok false, with_is_trained false st)
      | None =>
          match model st with
          | None => (Ok false, with_is_trained false st)
          | Some m =>
              if snd (fit m texts labels)
              then (Ok true,
                    with_is_trained true
                      (with_model (Some (fst (fit m texts labels))) st))
              else (Ok false,
                    with_is_trained false
                      (with_model (Some (fst (fit m texts labels))) st))
          end
      end.
Proof.
  unfold _train_model, try_except, bind at 1. rewrite get_training_data_eq.
  cbv zeta. destruct (conn_open st).
  - destruct (match map t_text (training_data st) with
              | [] => true | _ :: _ => false end
              || (count_distinct (map t_intent (training_data st)) <? 2)%nat);
      [reflexivity|].
    unfold bind at 1, get. destruct (find _ _); [reflexivity|].
    unfold bind, model_fit, modify, ret. destruct (model st) as [m|];
      [|reflexivity].
    destruct (fit m _ _) as [m' [|]]; reflexivity.
  - reflexivity.
Qed.

Lemma train_model_refused (st : IntentRecognizer) :
  insufficient_data st \/ sparse_class st ->
  _train_model st = (Ok false, with_is_trained false st).
Proof.
  intro H. rewrite train_model_eq. cbv zeta.
  destruct (conn_open st); [|reflexivity].
  destruct (map t_text (training_data st)) as [|t ts]; [reflexivity|].
  cbn [orb].
  destruct (count_distinct (map t_intent (training_data st)) <? 2)%nat eqn:Hd;
    [reflexivity|].
  destruct H as [H|H].
  - unfold insufficient_data in H. apply Nat.ltb_lt in H. congruence.
  - destruct (sparse_class_found st H) as [ic ->]. reflexivity.
Qed.

(** Training never touches the tables or the connection, and it returns. *)
Lemma train_model_frame (st : IntentRecognizer) :
  same_database st (snd (_train_model st))
  /\ exists b, fst (_train_model st) = Ok b.
Proof.
  rewrite train_model_eq. cbv zeta. unfold same_database.
  repeat match goal with
         | |- context [if ?b then _ else _] => destruct b eqn:?
         | |- context [match ?o with Some _ => _ | None => _ end] =>
             destruct o
         end; cbn; repeat split; eauto.
Qed.

End Training.


Section Feedback.

Context {C : Classifier}.

Lemma train_and_save_model_frame (st : IntentRecognizer) :
  fst (_train_and_save_model st) = Ok tt
  /\ same_database st (snd (_train_and_save_model st)).
Proof.
  unfold _train_and_save_model, bind.
  destruct (train_model_frame st) as [Hf [b Hb]].
  destruct (_train_model st) as [o st']. cbn [fst snd] in *. subst o.
  destruct b; unfold _save_model, ret; cbn [fst snd]; auto.
Qed.

Lemma add_single_eq (text intent source : string) (st : IntentRecognizer) :
  _add_single_training_example_to_db text intent source st
  = if negb (truthy (_preprocess_text text)) || negb (truthy (strip intent))
    then (Ok false, st)
    else if conn_open st
         then (Ok true,
               with_training_data
                 (training_data st ++ [training_row st text intent source]) st)
         else (Raised SqliteError, st).
Proof.
  unfold _add_single_training_example_to_db. cbv zeta.
  destruct (negb (truthy (_preprocess_text text)) || negb (truthy (strip intent)));
    [reflexivity|].
  unfold try_except, bind, insert_training, commit, rollback, execute, ret.
  destruct (conn_open st) eqn:Ho.
  - cbn. now rewrite Ho.
  - cbn. now rewrite Ho.
Qed.

Lemma add_training_example_effect (text intent source : string)
    (st : IntentRecognizer) :
  let st' := snd (add_training_example text intent source st) in
  training_data st'
  = (if negb (negb (truthy (_preprocess_text text))
              || negb (truthy (strip intent))) && conn_open st
     then training_data st ++ [training_row st text intent source]
     else training_data st)%list
  /\ conn_open st' = conn_open st /\ clock st' = clock st.
Proof.
  cbv zeta.
  destruct (add_training_example text intent source st) as [o st'] eqn:E.
  cbn [snd]. revert E.
  unfold add_training_example, bind at 1.
  rewrite add_single_eq.
  destruct (negb (truthy (_preprocess_text text)) || negb (truthy (strip intent)));
    cbn [negb andb];
    [unfold ret; intro E; inversion E; subst; auto|].
  destruct (conn_open st) eqn:Ho;
    [|intro E; inversion E; subst; auto].
  set (st1 := with_training_data
                (training_data st ++ [training_row st text intent source]) st).
  assert (Ho1 : conn_open st1 = true) by exact Ho.
  unfold bind at 1, fetch at 1. rewrite Ho1.
  unfold bind at 1, fetch at 1. rewrite Ho1.
  unfold bind at 1, get.
  match goal with
  | |- context [if ?b then _train_and_save_model else ret tt] => destruct b
  end.
  - unfold bind.
    destruct (train_and_save_model_frame st1) as [Hok (Ht & _ & Hc & Hk)].
    destruct (_train_and_save_model st1) as [o2 st2]. cbn [fst snd] in *.
    subst o2. unfold ret. intro E; inversion E; subst.
    rewrite Ht, Hc, Hk. auto.
  - unfold bind, ret. intro E; inversion E; subst. auto.
Qed.

Lemma update_latest_query_frame (intent text : string) (st : IntentRecognizer) :
  conn_open st = true ->
  exists st',
    update_latest_query intent text st = (Ok tt, st')
    /\ training_data st' = training_data st
    /\ conn_open st' = true /\ clock st' = clock st.
Proof.
  intro Ho. unfold update_latest_query, execute. rewrite Ho.
  destruct (latest_query text (queries st) 0 None) as [[i t]|];
    eexists; (split; [reflexivity|]); cbn; auto.
Qed.

Lemma training_row_feedback (st st' : IntentRecognizer) (text intent : string) :
  clock st' = clock st ->
  training_row st' text intent "user_feedback" = feedback_row st text intent.
Proof. intro H. unfold training_row, feedback_row. now rewrite H. Qed.

Lemma provide_feedback_effect (text intent : string) (st : IntentRecognizer) :
  let st' := snd (provide_feedback text intent st) in
  training_data st'
  = (if feedback_inserts st text intent
     then training_data st ++ [feedback_row st text intent]
     else training_data st)%list
  /\ conn_open st' = conn_open st /\ clock st' = clock st.
Proof.
  cbv zeta.
  destruct (provide_feedback text intent st) as [o st'] eqn:E.
  cbn [snd]. revert E.
  unfold provide_feedback, feedback_inserts.
  destruct (truthy (strip text)) eqn:Ht; cbn [negb orb andb];
    [|unfold ret; intro E; inversion E; subst; auto].
  destruct (truthy (strip intent)) eqn:Hi; cbn [negb orb andb];
    [|unfold ret; intro E; inversion E; subst; auto].
  unfold try_except.
  destruct (conn_open st) eqn:Ho; cbn [andb].
  - unfold bind at 1.
    destruct (update_latest_query_frame (lower intent) text st Ho)
      as (st1 & -> & Hd & Ho1 & Hk).
    unfold bind at 1, count_training, fetch. rewrite Ho1.
    fold (examples_of (_preprocess_text text) (lower intent) st1).
    assert (He : examples_of (_preprocess_text text) (lower intent) st1
                 = examples_of (_preprocess_text text) (lower intent) st)
      by (unfold examples_of; now rewrite Hd).
    rewrite He.
    destruct (examples_of (_preprocess_text text) (lower intent) st)
      as [|n] eqn:En; cbn [Nat.ltb Nat.leb Nat.eqb negb andb].
    + pose proof (add_training_example_effect text intent "user_feedback" st1)
        as (Hd' & Ho' & Hk').
      cbv zeta in Hd', Ho', Hk'. rewrite Hi in Hd'. cbn [negb orb] in Hd'.
      rewrite orb_false_r, negb_involutive, Ho1, andb_true_r in Hd'.
      rewrite (training_row_feedback st st1 _ _ Hk), Hd in Hd'.
      destruct (add_training_example text intent "user_feedback" st1)
        as [[b|e] st2]; cbn [fst snd] in *.
      * intro E; inversion E; subst. split; [exact Hd'|]. split; congruence.
      * assert (Ho2 : conn_open st2 = true) by congruence.
        destruct (sqlite3_Error e);
          [unfold bind, rollback, execute, ret; rewrite Ho2|];
          intro E; inversion E; subst;
          (split; [exact Hd'|]); split; congruence.
    + unfold bind, commit, execute, ret. rewrite Ho1.
      intro E; inversion E; subst. auto.
  - unfold bind at 1, update_latest_query, execute. rewrite Ho.
    cbn [sqlite3_Error]. unfold bind, rollback, execute. rewrite Ho.
    intro E; inversion E; subst. auto.
Qed.

Lemma provide_feedback_found (text intent : string) (st : IntentRecognizer) :
  truthy (strip text) = true -> truthy (strip intent) = true ->
  conn_open st = true ->
  (0 < examples_of (_preprocess_text text) (lower intent) st)%nat ->
  fst (provide_feedback text intent st) = Ok true.
Proof.
  intros Ht Hi Ho Hn. unfold provide_feedback. rewrite Ht, Hi.
  cbn [negb orb]. unfold try_except, bind at 1.
  destruct (update_latest_query_frame (lower intent) text st Ho)
    as (st1 & -> & Hd & Ho1 & Hk).
  unfold bind at 1, count_training, fetch. rewrite Ho1.
  fold (examples_of (_preprocess_text text) (lower intent) st1).
  assert (He : examples_of (_preprocess_text text) (lower intent) st1
               = examples_of (_preprocess_text text) (lower intent) st)
    by (unfold examples_of; now rewrite Hd).
  rewrite He. apply Nat.ltb_lt in Hn. rewrite Hn. cbn [negb].
  unfold bind, commit, execute, ret. now rewrite Ho1.
Qed.

Lemma examples_of_snoc (text intent : string) (st st' : IntentRecognizer)
    (row : TrainingRow) :
  training_data st' = (training_data st ++ [row])%list ->
  examples_of text intent st'
  = (examples_of text intent st
     + if ((t_text row =? text) && (t_intent row =? intent))%string
       then 1 else 0)%nat.
Proof.
  intro H. unfold examples_of. rewrite H, filter_app, length_app.
  cbn [filter].
  now destruct ((t_text row =? text) && (t_intent row =? intent)).
Qed.

End Feedback.


(* ================================================================== *)
(** ** Blank inputs *)






Section Claims.

Context {C : Classifier}.

Lemma predict_intent_cases (text : string) (st : IntentRecognizer) :
  exists r st0 pi c,
    predict_intent text st = (Ok r, logged st0 text pi c)
    /\ same_database st st0
    /\ (blank text = true -> st0 = st)
    /\ (classification_fails st text = false ->
        pi = intent_of r /\ c = confidence_of r)
    /\ (classification_fails st text = true ->
        pi = "error" /\ c = 0%Q /\ r = _fallback_intent text 0%Q).
Proof.
  unfold classification_fails.
  destruct (blank text) eqn:Hb; cbn [negb andb].
  { exists unknown_result, st, "unknown", 0%Q.
    rewrite (predict_intent_blank _ _ Hb).
    repeat split; auto; discriminate. }
  destruct (classifier_raises st (_preprocess_text text)) eqn:Hr.
  { destruct (predict_intent_raises _ _ Hb Hr) as (st0 & E & Hdb & _).
    exists (_fallback_intent text 0%Q), st0, "error", 0%Q.
    repeat split; auto; try apply Hdb; discriminate. }
  destruct (untrained st) eqn:Hu.
  { exists (_fallback_intent text 0%Q), st,
      (intent_of (_fallback_intent text 0%Q)),
      (confidence_of (_fallback_intent text 0%Q)).
    rewrite (predict_intent_untrained _ _ Hb Hu).
    repeat split; auto; discriminate. }
  unfold classifier_raises in Hr. rewrite Hu in Hr. cbn [negb andb] in Hr.
  destruct (model st) as [m|] eqn:Hm.
  2:{ unfold untrained in Hu. rewrite Hm, orb_true_r in Hu. discriminate. }
  destruct (predict m (_preprocess_text text)) as [label|] eqn:Hp;
    [|discriminate].
  destruct (max_proba m (_preprocess_text text)) as [p|] eqn:Hq;
    [|discriminate].
  exists (classified st text label p), (count_call (count_call st)),
    (intent_of (classified st text label p)),
    (confidence_of (classified st text label p)).
  rewrite (predict_intent_classified _ _ _ _ _ Hb Hu Hm Hp Hq).
  repeat split; auto; discriminate.
Qed.

End Claims.

(* ================================================================== *)
(** ** Worked examples *)

Example preprocess_example :
  _preprocess_text "  What's the TIME, it is?? " = "what the time".
Proof. reflexivity. Qed.

Example hello_without_classifier :
  fst (predict_intent "hello" untrained_recognizer)
  = Ok ("greeting", None, "greeting", float_0_8).
Proof. vm_compute. reflexivity. Qed.

Example what_is_your_name :
  _resolve_intent "system_info" "what is your name"
  = ("system_info", Some "your name", "system_query").
Proof. vm_compute. reflexivity. Qed.

Example who_is_einstein :
  _fallback_intent "Who is the Albert Einstein?" 0%Q
  = ("get_info", Some "Albert Einstein", "information_query", float_0_8).
Proof. vm_compute. reflexivity. Qed.

Example empty_input_logged :
  predict_intent "" untrained_recognizer
  = (Ok unknown_result,
     with_queries [query_row untrained_recognizer "" "unknown" 0%Q]
       untrained_recognizer).
Proof. vm_compute. reflexivity. Qed.

Example closed_connection_logs_nothing :
  queries (snd (predict_intent "hello"
                  (with_conn_open false untrained_recognizer))) = [].
Proof. vm_compute. reflexivity. Qed.

(* ================================================================== *)
(** * The stated properties *)

Section Properties.

Context {C : Classifier}.


(** C1 (as amended).  When training is refused because fewer than two
    distinct labels are stored, or because some label has fewer than
    [min_samples_per_class] examples, [_train_model] returns [False], leaves
    the model and everything else untouched, and sets [is_trained] to
    [False] whatever it was before. *)
Theorem train_model_refused_resets_is_trained (st : IntentRecognizer) :
  insufficient_data st \/ sparse_class st ->
  _train_model st = (Ok false, with_is_trained false st)
  /\ model (snd (_train_model st)) = model st
  /\ is_trained (snd (_train_model st)) = false
  /\ same_database st (snd (_train_model st)).
Proof.
  intro H. rewrite (train_model_refused st H).
  repeat split; reflexivity.
Qed.

(** C4.  When some trigger occurs in the lower-cased raw text, the fallback
    matcher returns the confidence max(incoming confidence, 0.8), hence at
    least 0.8; and whenever [predict_intent] reaches the fallback matcher (no
    usable classifier, a confidence under the threshold, or an exception
    while classifying) that is the 4-tuple it returns. *)
Theorem fallback_match_confidence (text : string) (st : IntentRecognizer)
    (incoming : Q) :
  trigger_occurs text ->
  confidence_of (_fallback_intent text incoming) = pymax incoming float_0_8
  /\ (float_0_8 <= confidence_of (_fallback_intent text incoming))%Q
  /\ (blank text = false ->
      fallback_invoked st (_preprocess_text text) incoming ->
      exists st',
        predict_intent text st = (Ok (_fallback_intent text incoming), st')).
Proof.
  intro Htrig. rewrite (fallback_intent_match _ _ Htrig).
  split; [reflexivity|]. split; [apply pymax_ge_right|].
  intros Hb Hinv.
  destruct Hinv as [Hu | m label p Hu Hm Hp Hq Hlow | Hr].
  - eexists. exact (predict_intent_untrained _ _ Hb Hu).
  - eexists.
    rewrite (predict_intent_classified _ _ _ _ _ Hb Hu Hm Hp Hq).
    unfold classified. rewrite Hlow. reflexivity.
  - destruct (predict_intent_raises _ _ Hb Hr) as (st0 & E & _).
    eexists. exact E.
Qed.

(** C5.  [predict_intent] never raises: it returns a 4-tuple in every state
    and for every text.  When one of the classifier's calls raises, the
    result is the fallback matcher's answer at confidence 0. *)
Theorem classification_exception_caught (text : string) (st : IntentRecognizer) :
  (exists r st', predict_intent text st = (Ok r, st'))
  /\ (classification_fails st text = true ->
      exists st', predict_intent text st
                  = (Ok (_fallback_intent text 0%Q), st')).
Proof.
  destruct (predict_intent_cases text st)
    as (r & st0 & pi & c & E & _ & _ & _ & Hfail).
  split; [eauto|].
  intro H. destruct (Hfail H) as (_ & _ & ->). eauto.
Qed.

(** C8.  Two successive calls of [provide_feedback] with the same arguments
    (the clock may have moved in between) add at most one example for the
    pair (normalised text, lower-cased label): the second call adds nothing,
    and when the first call added the row the second finds it stored and
    returns [True]. *)
Theorem provide_feedback_twice_one_example (text intent : string)
    (st : IntentRecognizer) (later : Z) :
  let st1 := snd (provide_feedback text intent st) in
  let st2 := snd (provide_feedback text intent (with_clock later st1)) in
  training_data st2 = training_data st1
  /\ (training_data st1 = training_data st
      \/ training_data st1
         = (training_data st ++ [feedback_row st text intent])%list)
  /\ (examples_of (_preprocess_text text) (lower intent) st2
      <= examples_of (_preprocess_text text) (lower intent) st + 1)%nat
  /\ (training_data st1 <> training_data st ->
      (0 < examples_of (_preprocess_text text) (lower intent) st1)%nat
      /\ fst (provide_feedback text intent (with_clock later st1)) = Ok true).
Proof.
  cbv zeta.
  pose proof (provide_feedback_effect text intent st) as (Hd1 & Ho1 & _).
  cbv zeta in Hd1, Ho1.
  set (st1 := snd (provide_feedback text intent st)) in *.
  pose proof (provide_feedback_effect text intent (with_clock later st1))
    as (Hd2 & _ & _).
  cbv zeta in Hd2.
  set (st2 := snd (provide_feedback text intent (with_clock later st1))) in *.
  change (training_data (with_clock later st1)) with (training_data st1)
    in Hd2.
  assert (Hsame : feedback_inserts (with_clock later st1) text intent
                  = feedback_inserts st1 text intent) by reflexivity.
  rewrite Hsame in Hd2. clear Hsame.
  assert (Hrow : ((t_text (feedback_row st text intent)
                     =? _preprocess_text text)
                  && (t_intent (feedback_row st text intent) =? lower intent))
                 = true)
    by (cbn; now rewrite !String.eqb_refl).
  destruct (feedback_inserts st text intent) eqn:Hins.
  - (* the first call stores the pair *)
    assert (Hex : examples_of (_preprocess_text text) (lower intent) st1
                  = (examples_of (_preprocess_text text) (lower intent) st
                     + 1)%nat).
    { rewrite (examples_of_snoc _ _ st st1 _ Hd1). now rewrite Hrow. }
    assert (Hno : feedback_inserts st1 text intent = false).
    { unfold feedback_inserts. rewrite Hex.
      replace (examples_of (_preprocess_text text) (lower intent) st + 1
               =? 0)%nat
        with false by (symmetry; apply Nat.eqb_neq; lia).
      now rewrite andb_false_r. }
    rewrite Hno in Hd2.
    assert (Hex2 : examples_of (_preprocess_text text) (lower intent) st2
                   = examples_of (_preprocess_text text) (lower intent) st1)
      by (unfold examples_of; now rewrite Hd2).
    repeat split.
    + exact Hd2.
    + now right.
    + lia.
    + lia.
    + unfold feedback_inserts in Hins.
      repeat (apply andb_true_iff in Hins as [Hins ?]).
      apply provide_feedback_found; try assumption.
      * change (conn_open st1 = true). congruence.
      * change (0 < examples_of (_preprocess_text text) (lower intent) st1)%nat.
        lia.
  - assert (Hno : feedback_inserts st1 text intent = false).
    { unfold feedback_inserts in *. unfold examples_of in *.
      now rewrite Hd1, Ho1. }
    rewrite Hno in Hd2.
    repeat split.
    + exact Hd2.
    + now left.
    + unfold examples_of. rewrite Hd2, Hd1. lia.
    + congruence.
    + congruence.
Qed.

(** C10.  A trigger with an upper-case letter occurs in no lower-cased text;
    so "I am done" never matches, the fallback matcher behaves as if that
    trigger were not listed, and without a usable classifier
    [predict_intent("I am done")] is (unknown, None, unknown, 0.0). *)
Theorem i_am_done_never_fires (st : IntentRecognizer) :
  (forall trigger text,
      has_upper trigger = true -> contains (lower text) trigger = false)
  /\ (forall text, contains (lower text) "I am done" = false)
  /\ (forall text,
        first_pattern common_patterns (lower text)
        = first_pattern patterns_without_i_am_done (lower text))
  /\ (forall confidence,
        _fallback_intent "I am done" confidence
        = ("unknown", None, "unknown", confidence))
  /\ (untrained st = true ->
      exists st',
        predict_intent "I am done" st
        = (Ok ("unknown", None, "unknown", 0%Q), st')).
Proof.
  assert (Hdead : forall text, contains (lower text) "I am done" = false)
    by (intro text; now apply upper_trigger_never_matches).
  split; [exact upper_trigger_never_matches|].
  split; [exact Hdead|].
  split; [|split].
  - intro text. symmetry. apply first_pattern_drop, Hdead.
  - intro confidence. now apply fallback_intent_no_match.
  - intro Hu. eexists.
    rewrite (predict_intent_untrained "I am done" st eq_refl Hu).
    reflexivity.
Qed.

End Properties.

(** C6 (as amended).  [_extract_location] returns the phrase captured by the
    end-anchored preposition pattern, or nothing when that phrase is a
    single word of {the, a, an, this, that, it, today, tomorrow}; when the
    pattern does not match it returns the capitalized runs of the raw text
    outside {today, tomorrow, weather, forecast, temperature, india}, joined
    by spaces; otherwise nothing.  The pattern allows a trailing please,
    thanks, thank you or now, and "weather in London please" gives
    "london". *)
Theorem extract_location_spec :
  (forall text,
      _extract_location text
      = extract_location_with capitalized_stop_words text)
  /\ _extract_location "weather in London please" = Some "london"
  /\ _extract_location "weather at Delhi thanks" = Some "delhi"
  /\ _extract_location "weather for New York thank you" = Some "new york"
  /\ _extract_location "the forecast around Paris now" = Some "paris"
  /\ _extract_location "What is the weather for today" = None
  /\ _extract_location "Mumbai temperature" = Some "Mumbai"
  /\ _extract_location "how hot is it" = None.
Proof.
  split; [|repeat split; vm_compute; reflexivity].
  intro text. unfold _extract_location, extract_location_with,
    preposition_phrase, capitalized_runs, single_stop_word.
  destruct (Re.search location_re (lower text)) as [m|]; cbn [option_map].
  - destruct (split (strip (group1 m))) as [|w [|v ws]]; reflexivity.
  - destruct (Re.findall capitalized_re text) as [|w ws]; [reflexivity|].
    destruct (filter _ (w :: ws)); reflexivity.
Qed.

(** C9.  The entity resolver returns the label it was given. *)
Theorem resolve_intent_keeps_label (intent text : string) :
  fst (fst (_resolve_intent intent text)) = intent.
Proof.
  unfold _resolve_intent.
  repeat match goal with
         | |- context [if ?b then _ else _] => destruct b; try reflexivity
         end.
Qed.

(** C7.  The text normaliser is idempotent. *)
Theorem preprocess_text_idempotent (x : string) :
  _preprocess_text (_preprocess_text x) = _preprocess_text x.
Proof.
  rewrite (preprocess_tokens (_preprocess_text x)), (preprocess_tokens x).
  pose proof (tokens_of_text x) as Htok.
  rewrite (lower_join _ Htok), (sub_punct_join _ Htok), (split_join _ Htok).
  now rewrite filter_idempotent.
Qed.

(* ================================================================== *)
(** * Instances and counterexamples *)

Lemma trained_sparse_recognizer_sparse : sparse_class trained_sparse_recognizer.
Proof.
  exists "exit". split.
  - cbn. tauto.
  - vm_compute. repeat constructor.
Defined.

Lemma train_model_refused_resets_is_trained_witness :
  sparse_class trained_sparse_recognizer
  /\ _train_model trained_sparse_recognizer
     = (Ok false, with_is_trained false trained_sparse_recognizer).
Proof.
  split; [exact trained_sparse_recognizer_sparse|].
  apply (train_model_refused_resets_is_trained trained_sparse_recognizer).
  right. exact trained_sparse_recognizer_sparse.
Defined.

(** The store is sparse, the flag was [True], and the refused training
    clears it. *)
Lemma train_model_clears_is_trained :
  sparse_class trained_sparse_recognizer
  /\ ~ keeps_is_trained trained_sparse_recognizer.
Proof.
  split; [exact trained_sparse_recognizer_sparse|].
  unfold keeps_is_trained. vm_compute. discriminate.
Qed.


Lemma hello_there_trigger : trigger_occurs "hello there".
Proof.
  exists "greeting", ["hello"; "hi"; "hey"], "hello".
  repeat split; cbn; tauto.
Defined.

Lemma fallback_match_confidence_witness :
  confidence_of (_fallback_intent "hello there" (1 # 2))
  = pymax (1 # 2) float_0_8
  /\ exists st',
       predict_intent "hello there" unsure_recognizer
       = (Ok (_fallback_intent "hello there" (1 # 2)), st').
Proof.
  destruct (fallback_match_confidence "hello there" unsure_recognizer (1 # 2)
              hello_there_trigger) as (Hmax & _ & Hcall).
  split; [exact Hmax|].
  apply Hcall; [reflexivity|].
  apply (fallback_low_confidence unsure_recognizer _ tt "get_time" (1 # 2));
    reflexivity.
Defined.

Lemma classification_exception_caught_witness :
  exists st',
    predict_intent "hello" raising_recognizer
    = (Ok (_fallback_intent "hello" 0%Q), st').
Proof.
  exact (proj2 (classification_exception_caught "hello" raising_recognizer)
               eq_refl).
Defined.

Lemma provide_feedback_twice_one_example_witness :
  training_data
    (snd (provide_feedback "turn on the lights" "Lights_On"
            untrained_recognizer))
  <> training_data untrained_recognizer
  /\ fst (provide_feedback "turn on the lights" "Lights_On"
            (with_clock 60
               (snd (provide_feedback "turn on the lights" "Lights_On"
                       untrained_recognizer))))
     = Ok true.
Proof.
  assert (H : training_data
                (snd (provide_feedback "turn on the lights" "Lights_On"
                        untrained_recognizer))
              <> training_data untrained_recognizer)
    by (vm_compute; discriminate).
  split; [exact H|].
  exact (proj2 (proj2 (proj2 (proj2
           (provide_feedback_twice_one_example
              "turn on the lights" "Lights_On" untrained_recognizer 60))) H)).
Defined.

Lemma i_am_done_never_fires_witness :
  contains (lower "I AM DONE") "I am done" = false
  /\ exists st',
       predict_intent "I am done" untrained_recognizer
       = (Ok ("unknown", None, "unknown", 0%Q), st').
Proof.
  destruct (i_am_done_never_fires untrained_recognizer)
    as (Hupper & _ & _ & _ & Huntrained).
  split; [apply Hupper; reflexivity | apply Huntrained; reflexivity].
Defined.

(** The source drops "India" from the capitalized runs; the stop list of
    the specification keeps it. *)
Lemma extract_location_india_dropped :
  _extract_location "India weather"
  <> extract_location_with specified_capitalized_stop_words "India weather".
Proof. vm_compute. discriminate. Qed.

(* ================================================================== *)
(** * Further properties *)

(** ** Normal forms *)

Lemma lower_idempotent (s : string) : lower (lower s) = lower s.
Proof.
  induction s as [|c s IH]; [reflexivity|].
  cbn [lower]. now rewrite lower_char_idempotent, IH.
Qed.

Lemma is_space_lower_char (c : ascii) : is_space (lower_char c) = is_space c.
Proof. each_char c; reflexivity. Qed.

Lemma all_space_lower (s : string) :
  all_chars is_space (lower s) = all_chars is_space s.
Proof.
  induction s as [|c s IH]; [reflexivity|].
  cbn [lower all_chars]. now rewrite is_space_lower_char, IH.
Qed.

Lemma all_space_lstrip (s : string) :
  all_chars is_space (lstrip s) = all_chars is_space s.
Proof.
  induction s as [|c s IH]; [reflexivity|].
  cbn [lstrip]. destruct (is_space c) eqn:E; [|reflexivity].
  cbn [all_chars]. now rewrite E, IH.
Qed.

Lemma truthy_rstrip (s : string) :
  truthy (rstrip s) = negb (all_chars is_space s).
Proof.
  induction s as [|c s IH]; [reflexivity|].
  cbn [rstrip all_chars]. destruct (rstrip s) as [|d r].
  - cbn [truthy] in IH. symmetry in IH. apply negb_false_iff in IH.
    rewrite IH, andb_true_r. now destruct (is_space c).
  - cbn [truthy] in *. symmetry in IH. apply negb_true_iff in IH.
    now rewrite IH, andb_false_r.
Qed.

(** [s.strip()] is empty exactly when [s] is whitespace only. *)
Lemma truthy_strip (s : string) :
  truthy (strip s) = negb (all_chars is_space s).
Proof. unfold strip. now rewrite truthy_rstrip, all_space_lstrip. Qed.

Lemma truthy_strip_lower (s : string) :
  truthy (strip (lower s)) = truthy (strip s).
Proof. now rewrite !truthy_strip, all_space_lower. Qed.

Lemma long_tokens_of_text (x : string) :
  Forall (fun w => long_word w = true)
         (filter long_word (split (sub_punct (lower x)))).
Proof. apply Forall_forall. intros w H. now apply filter_In in H. Qed.

(** A space-joined list of long tokens is its own normal form. *)
Lemma preprocess_join_tokens (ws : list string) :
  Forall token ws -> Forall (fun w => long_word w = true) ws ->
  _preprocess_text (join " " ws) = join " " ws.
Proof.
  intros Htok Hlong.
  rewrite preprocess_tokens, (lower_join _ Htok), (sub_punct_join _ Htok),
    (split_join _ Htok).
  f_equal. apply forallb_filter_id. apply forallb_forall.
  now apply Forall_forall.
Qed.

Lemma all_chars_app (P : ascii -> bool) (s t : string) :
  all_chars P (s ++ t) = all_chars P s && all_chars P t.
Proof.
  induction s as [|c s IH]; [reflexivity|].
  cbn [append all_chars]. now rewrite IH, andb_assoc.
Qed.

Lemma all_chars_weaken (P Q : ascii -> bool) (s : string) :
  (forall c, P c = true -> Q c = true) ->
  all_chars P s = true -> all_chars Q s = true.
Proof.
  intro H. induction s as [|c s IH]; [reflexivity|].
  cbn [all_chars]. intro Hs. apply andb_true_iff in Hs as [Hc Hs].
  now rewrite (H c Hc), (IH Hs).
Qed.

Lemma all_chars_join (P : ascii -> bool) (ws : list string) :
  P " "%char = true -> Forall (fun w => all_chars P w = true) ws ->
  all_chars P (join " " ws) = true.
Proof.
  intros Hsp. induction 1 as [|w ws Hw Hws IH]; [reflexivity|].
  destruct ws as [|v ws]; [exact Hw|].
  rewrite join_cons2, !all_chars_app, Hw, IH. cbn [all_chars].
  now rewrite Hsp.
Qed.

Lemma rstrip_token (w : string) :
  all_chars token_char w = true -> rstrip w = w.
Proof.
  induction w as [|c w IH]; [reflexivity|].
  cbn [all_chars rstrip]. intro H. apply andb_true_iff in H as [Hc Hw].
  rewrite (IH Hw). destruct w as [|d w']; [|reflexivity].
  unfold token_char in Hc. apply andb_true_iff in Hc as [Hc _].
  apply negb_true_iff in Hc. now rewrite Hc.
Qed.

Lemma rstrip_app (s t : string) :
  t <> EmptyString -> rstrip t = t -> rstrip (s ++ t) = s ++ t.
Proof.
  intros Hne Ht. induction s as [|c s IH]; [exact Ht|].
  cbn [append rstrip]. rewrite IH.
  destruct (s ++ t) as [|d r] eqn:E; [|reflexivity].
  destruct s; cbn in E; congruence.
Qed.

Lemma join_tokens_nonempty (ws : list string) :
  Forall token ws -> ws <> [] -> join " " ws <> EmptyString.
Proof.
  intros H Hne. destruct H as [|w ws [Hw _] Hws]; [congruence|].
  destruct ws as [|v ws]; [exact Hw|].
  rewrite join_cons2. destruct w; [congruence | discriminate].
Qed.

Lemma strip_join_tokens (ws : list string) :
  Forall token ws -> strip (join " " ws) = join " " ws.
Proof.
  intro H. unfold strip.
  assert (Hl : lstrip (join " " ws) = join " " ws).
  { destruct H as [|w ws [Hne Hw] Hws]; [reflexivity|].
    destruct w as [|c w]; [congruence|].
    cbn [all_chars] in Hw. apply andb_true_iff in Hw as [Hc _].
    unfold token_char in Hc. apply andb_true_iff in Hc as [Hc _].
    apply negb_true_iff in Hc.
    destruct ws as [|v ws]; [cbn [join lstrip]; now rewrite Hc|].
    rewrite join_cons2. cbn [append lstrip]. now rewrite Hc. }
  rewrite Hl. clear Hl.
  induction H as [|w ws [Hne Hw] Hws IH]; [reflexivity|].
  destruct ws as [|v ws]; [exact (rstrip_token _ Hw)|].
  rewrite join_cons2. apply rstrip_app.
  - discriminate.
  - change (rstrip (String " " (join " " (v :: ws)))
            = String " " (join " " (v :: ws))).
    cbn [rstrip]. rewrite IH.
    destruct (join " " (v :: ws)) eqn:E; [|reflexivity].
    exfalso. revert E. apply join_tokens_nonempty; [exact Hws | discriminate].
Qed.

Lemma token_char_not_upper (c : ascii) :
  token_char c = true -> negb (is_upper c) = true.
Proof.
  unfold token_char. intro H. apply andb_true_iff in H as [_ H].
  apply andb_true_iff in H as [_ H]. now rewrite <- lower_fixed_not_upper.
Qed.

(** X1.  The normal form of a text is a list of words joined by single
    spaces: each word has more than two characters, all of them lower-case
    word characters; the text has no blank at either end and no upper-case
    letter, and splitting it gives the words back. *)
Theorem preprocess_text_normal_form (x : string) :
  exists ws,
    _preprocess_text x = join " " ws
    /\ split (_preprocess_text x) = ws
    /\ Forall (fun w => (2 < String.length w)%nat
                        /\ all_chars token_char w = true) ws
    /\ strip (_preprocess_text x) = _preprocess_text x
    /\ has_upper (_preprocess_text x) = false.
Proof.
  exists (filter long_word (split (sub_punct (lower x)))).
  pose proof (tokens_of_text x) as Htok.
  rewrite preprocess_tokens.
  split; [reflexivity|]. split; [exact (split_join _ Htok)|].
  split; [|split].
  - apply Forall_forall. intros w Hin. split.
    + apply filter_In in Hin as [_ Hl]. now apply Nat.ltb_lt.
    + rewrite Forall_forall in Htok. now apply Htok.
  - exact (strip_join_tokens _ Htok).
  - unfold has_upper. apply negb_false_iff. apply all_chars_join.
    + reflexivity.
    + apply Forall_forall. intros w Hin. rewrite Forall_forall in Htok.
      destruct (Htok w Hin) as [_ Hw].
      exact (all_chars_weaken _ _ _ token_char_not_upper Hw).
Qed.

(** ** The Example Store *)

Section Store.

Context {C : Classifier}.

Lemma training_row_wellformed (st : IntentRecognizer)
    (text intent source : string) :
  truthy (_preprocess_text text) = true -> truthy (strip intent) = true ->
  wellformed_row (training_row st text intent source).
Proof.
  intros Ht Hi. unfold wellformed_row, training_row.
  cbn [t_text t_intent]. repeat split.
  - exact Ht.
  - rewrite (preprocess_tokens text).
    apply preprocess_join_tokens;
      [apply tokens_of_text | apply long_tokens_of_text].
  - apply lower_idempotent.
  - now rewrite truthy_strip_lower.
Qed.

Lemma add_single_wellformed (text intent source : string)
    (st : IntentRecognizer) :
  wellformed_store st ->
  wellformed_store
    (snd (_add_single_training_example_to_db text intent source st)).
Proof.
  intro H. rewrite add_single_eq.
  destruct (truthy (_preprocess_text text)) eqn:Ht; [|exact H].
  destruct (truthy (strip intent)) eqn:Hi; [|exact H].
  cbn [negb orb]. destruct (conn_open st); [|exact H].
  unfold wellformed_store. cbn [snd with_training_data training_data].
  apply Forall_app. split; [exact H|].
  constructor; [|constructor]. now apply training_row_wellformed.
Qed.

Lemma add_examples_wellformed (phrases : list (string * string))
    (st : IntentRecognizer) :
  wellformed_store st -> wellformed_store (snd (add_examples phrases st)).
Proof.
  revert st. induction phrases as [|[text intent] phrases IH]; intros st H;
    [exact H|].
  cbn [add_examples]. unfold bind.
  pose proof (add_single_wellformed text intent "initial" st H) as H1.
  destruct (_add_single_training_example_to_db text intent "initial" st)
    as [[b|e] st1]; cbn [snd] in *; [now apply IH | exact H1].
Qed.

Lemma predict_intent_training_data (text : string) (st : IntentRecognizer) :
  training_data (snd (predict_intent text st)) = training_data st.
Proof.
  destruct (predict_intent_cases text st)
    as (r & st0 & pi & c & E & (Hd & _) & _).
  rewrite E. cbn [snd].
  destruct (logged_frame st0 text pi c) as (_ & _ & _ & Ht & _).
  congruence.
Qed.

(** X2.  Every stored example keeps the shape it is written in: a
    non-empty text that is its own normal form, and a lower-case label that
    is not blank.  No method that writes or retrains breaks this. *)
Theorem store_stays_wellformed (st : IntentRecognizer) :
  wellformed_store st ->
  (forall text intent source,
      wellformed_store (snd (add_training_example text intent source st)))
  /\ (forall text intent,
        wellformed_store (snd (provide_feedback text intent st)))
  /\ wellformed_store (snd (_add_initial_examples st))
  /\ (forall text, wellformed_store (snd (predict_intent text st)))
  /\ wellformed_store (snd (_train_model st)).
Proof.
  intro H. repeat split.
  - intros text intent source.
    destruct (add_training_example_effect text intent source st)
      as (Hd & _ & _). cbv zeta in Hd.
    unfold wellformed_store. rewrite Hd.
    destruct (truthy (_preprocess_text text)) eqn:Ht; [|exact H].
    destruct (truthy (strip intent)) eqn:Hi; [|exact H].
    cbn [negb orb andb]. destruct (conn_open st); [|exact H].
    apply Forall_app. split; [exact H|].
    constructor; [|constructor]. now apply training_row_wellformed.
  - intros text intent.
    destruct (provide_feedback_effect text intent st) as (Hd & _ & _).
    cbv zeta in Hd. unfold wellformed_store. rewrite Hd.
    destruct (feedback_inserts st text intent) eqn:Hins; [|exact H].
    unfold feedback_inserts in Hins.
    repeat (apply andb_true_iff in Hins as [Hins ?]).
    apply Forall_app. split; [exact H|].
    constructor; [|constructor].
    change (feedback_row st text intent)
      with (training_row st text intent "user_feedback").
    now apply training_row_wellformed.
  - unfold _add_initial_examples, bind, fetch.
    destruct (conn_open st); [|exact H].
    destruct (List.length (training_data st) =? 0)%nat; [|exact H].
    now apply add_examples_wellformed.
  - intro text. unfold wellformed_store.
    now rewrite predict_intent_training_data.
  - unfold wellformed_store.
    destruct (train_model_frame st) as [(Hd & _) _]. now rewrite Hd.
Qed.

End Store.

(** ** The entries of a [Counter] *)

Lemma counter_incr_keys (x : string) (c : list (string * nat)) :
  map fst (counter_incr x c)
  = if existsb (String.eqb x) (map fst c) then map fst c
    else (map fst c ++ [x])%list.
Proof.
  induction c as [|[k n] c IH]; [reflexivity|].
  cbn [counter_incr map fst existsb]. destruct (x =? k); [reflexivity|].
  cbn [map fst orb]. rewrite IH.
  now destruct (existsb (String.eqb x) (map fst c)).
Qed.

Lemma counter_incr_nodup (x : string) (c : list (string * nat)) :
  NoDup (map fst c) -> NoDup (map fst (counter_incr x c)).
Proof.
  intro H. rewrite counter_incr_keys.
  destruct (existsb (String.eqb x) (map fst c)) eqn:E; [exact H|].
  apply NoDup_app; [exact H | constructor; [intros [] | constructor] |].
  intros k Hin [Heq|[]]. subst k.
  assert (existsb (String.eqb x) (map fst c) = true)
    by (apply existsb_exists; exists x; split;
        [exact Hin | apply String.eqb_refl]).
  congruence.
Qed.

Lemma counter_incr_positive (x : string) (c : list (string * nat)) :
  Forall (fun kn => (0 < snd kn)%nat) c ->
  Forall (fun kn => (0 < snd kn)%nat) (counter_incr x c).
Proof.
  induction 1 as [|[k n] c Hk Hc IH]; cbn [counter_incr].
  - constructor; [cbn; lia | constructor].
  - destruct (x =? k); constructor; cbn [snd] in *; auto; lia.
Qed.

Lemma Counter_invariant (labels : list string) (c : list (string * nat)) :
  NoDup (map fst c) -> Forall (fun kn => (0 < snd kn)%nat) c ->
  NoDup (map fst (fold_left (fun c k => counter_incr k c) labels c))
  /\ Forall (fun kn => (0 < snd kn)%nat)
            (fold_left (fun c k => counter_incr k c) labels c).
Proof.
  revert c. induction labels as [|l labels IH]; intros c Hn Hp; [auto|].
  cbn [fold_left]. apply IH;
    [now apply counter_incr_nodup | now apply counter_incr_positive].
Qed.

Lemma counter_get_entry (k : string) (n : nat) (c : list (string * nat)) :
  NoDup (map fst c) -> In (k, n) c -> counter_get k c = n.
Proof.
  induction c as [|[k0 n0] c IH]; [contradiction|].
  cbn [map fst]. intros Hn [Heq|Hin]; cbn [counter_get].
  - inversion Heq; subst. now rewrite String.eqb_refl.
  - inversion Hn as [|? ? Hnotin Hn']; subst.
    destruct (k =? k0) eqn:E.
    + apply String.eqb_eq in E. subst k0. exfalso. apply Hnotin.
      apply in_map_iff. now exists (k, n).
    + auto.
Qed.

(** An entry of [Counter(labels)] is a label with its number of
    occurrences. *)
Lemma Counter_entry (labels : list string) (k : string) (n : nat) :
  In (k, n) (Counter labels) ->
  In k labels /\ n = count_occ string_dec labels k.
Proof.
  intro Hin. unfold Counter in *.
  destruct (Counter_invariant labels [] (NoDup_nil _) (Forall_nil _))
    as [Hn Hp].
  pose proof (counter_get_entry _ _ _ Hn Hin) as Hget.
  rewrite counter_get_fold in Hget. cbn [counter_get] in Hget.
  rewrite Nat.add_0_r in Hget.
  rewrite Forall_forall in Hp. specialize (Hp _ Hin). cbn [snd] in Hp.
  split; [|congruence].
  apply (count_occ_In string_dec). lia.
Qed.

(** ** Training *)

Section TrainingMore.

Context {C : Classifier}.

Lemma ready_to_train_iff (st : IntentRecognizer) :
  ready_to_train st = true <-> ~ insufficient_data st /\ ~ sparse_class st.
Proof.
  unfold ready_to_train, insufficient_data, sparse_class.
  rewrite andb_true_iff, Nat.leb_le, forallb_forall. split.
  - intros [Hd Hall]. split; [lia|].
    intros (label & Hin & Hlt).
    specialize (Hall _ (Counter_in _ _ Hin)). cbn [snd] in Hall.
    apply Nat.leb_le in Hall. lia.
  - intros [Hd Hs]. split; [lia|].
    intros [k n] Hin. cbn [snd]. apply Nat.leb_le.
    destruct (Counter_entry _ _ _ Hin) as [Hk ->].
    destruct (le_lt_dec (min_samples_per_class st)
                (count_occ string_dec (map t_intent (training_data st)) k))
      as [Hle|Hlt]; [exact Hle|].
    exfalso. apply Hs. now exists k.
Qed.

Lemma forallb_find_none {A : Type} (f g : A -> bool) (l : list A) :
  (forall x, f x = true -> g x = false) ->
  forallb f l = true -> find g l = None.
Proof.
  intro H. induction l as [|a l IH]; [reflexivity|].
  cbn [forallb find]. intro Hl. apply andb_true_iff in Hl as [Ha Hl].
  now rewrite (H a Ha), (IH Hl).
Qed.

Lemma find_none_forallb {A : Type} (f g : A -> bool) (l : list A) :
  (forall x, g x = false -> f x = true) ->
  find g l = None -> forallb f l = true.
Proof.
  intro H. induction l as [|a l IH]; [reflexivity|].
  cbn [forallb find]. destruct (g a) eqn:E; [discriminate|].
  intro Hl. now rewrite (H a E), (IH Hl).
Qed.

(** With an open connection, [_train_model] fits exactly when the store is
    ready. *)
Lemma train_model_open (st : IntentRecognizer) :
  conn_open st = true ->
  _train_model st
  = if ready_to_train st then
      match model st with
      | Some m => (Ok (snd (fit m (map t_text (training_data st))
                                 (map t_intent (training_data st)))),
                   fitted m st)
      | None => (Ok false, with_is_trained false st)
      end
    else (Ok false, with_is_trained false st).
Proof.
  intro Ho. rewrite train_model_eq. cbv zeta. rewrite Ho.
  unfold ready_to_train, fitted.
  destruct (training_data st) as [|r rows] eqn:Hd; [reflexivity|].
  rewrite <- Hd. cbn [map orb].
  replace (match map t_text (training_data st) with
           | [] => true | _ :: _ => false end) with false
    by (rewrite Hd; reflexivity).
  cbn [orb]. rewrite Nat.ltb_antisym.
  destruct (2 <=? count_distinct (map t_intent (training_data st)))%nat;
    cbn [negb andb]; [|reflexivity].
  destruct (forallb _ _) eqn:Hall.
  - assert (Hf : find (fun ic => (snd ic <? min_samples_per_class st)%nat)
                      (Counter (map t_intent (training_data st))) = None).
    { revert Hall. apply forallb_find_none.
      intros x Hx. apply Nat.leb_le in Hx. apply Nat.ltb_ge. exact Hx. }
    rewrite Hf. destruct (model st) as [m|]; [|reflexivity].
    now destruct (snd (fit m _ _)).
  - destruct (find _ _) eqn:Hf; [reflexivity|].
    assert (Hall' : forallb
                      (fun ic => (min_samples_per_class st <=? snd ic)%nat)
                      (Counter (map t_intent (training_data st))) = true).
    { revert Hf. apply find_none_forallb.
      intros x Hx. apply Nat.ltb_ge in Hx. now apply Nat.leb_le. }
    congruence.
Qed.

Lemma train_and_save_model_eq (st : IntentRecognizer) :
  _train_and_save_model st = (Ok tt, snd (_train_model st)).
Proof.
  unfold _train_and_save_model, bind.
  destruct (train_model_frame st) as [_ [b Hb]].
  destruct (_train_model st) as [o st']. cbn [fst snd] in *. subst o.
  now destruct b.
Qed.

Lemma add_training_example_eq (text intent source : string)
    (st : IntentRecognizer) :
  truthy (_preprocess_text text) = true -> truthy (strip intent) = true ->
  conn_open st = true ->
  add_training_example text intent source st
  = (Ok true,
     if ready_to_train (inserted st text intent source)
     then snd (_train_model (inserted st text intent source))
     else inserted st text intent source).
Proof.
  intros Ht Hi Ho. unfold add_training_example, bind at 1.
  rewrite add_single_eq, Ht, Hi, Ho. cbn [negb orb].
  fold (inserted st text intent source).
  assert (Ho1 : conn_open (inserted st text intent source) = true)
    by exact Ho.
  unfold bind at 1, fetch at 1. rewrite Ho1.
  unfold bind at 1, fetch at 1. rewrite Ho1.
  unfold bind at 1, get.
  fold (ready_to_train (inserted st text intent source)).
  destruct (ready_to_train (inserted st text intent source)).
  - unfold bind. now rewrite train_and_save_model_eq.
  - reflexivity.
Qed.

(** X3.  [add_training_example] returns [False] and changes nothing when
    the text has no normal form or the label is blank; on a closed
    connection it raises.  Otherwise it stores the example and returns
    [True]; it retrains exactly when the store then has at least two labels
    and no label with fewer than [min_samples_per_class] examples, and
    afterwards [is_trained] tells whether [fit] completed.  Until then the
    model and [is_trained] stay as they were. *)
Theorem add_training_example_outcome (text intent source : string)
    (st : IntentRecognizer) :
  (truthy (_preprocess_text text) = false \/ truthy (strip intent) = false ->
   add_training_example text intent source st = (Ok false, st))
  /\ (truthy (_preprocess_text text) = true -> truthy (strip intent) = true ->
      (conn_open st = false ->
       add_training_example text intent source st = (Raised SqliteError, st))
      /\ (conn_open st = true ->
          let st1 := inserted st text intent source in
          (ready_to_train st1 = true <->
           ~ insufficient_data st1 /\ ~ sparse_class st1)
          /\ add_training_example text intent source st
             = (Ok true,
                if ready_to_train st1 then
                  match model st with
                  | Some m => fitted m st1
                  | None => with_is_trained false st1
                  end
                else st1))).
Proof.
  split; [|intros Ht Hi; split].
  - intro H. unfold add_training_example, bind. rewrite add_single_eq.
    now destruct H as [-> | ->]; rewrite ?orb_true_r.
  - intro Ho. unfold add_training_example, bind.
    now rewrite add_single_eq, Ht, Hi, Ho.
  - intro Ho. cbv zeta. split; [apply ready_to_train_iff|].
    rewrite (add_training_example_eq _ _ _ _ Ht Hi Ho).
    destruct (ready_to_train (inserted st text intent source)) eqn:Hr;
      [|reflexivity].
    rewrite train_model_open by exact Ho. rewrite Hr.
    change (model (inserted st text intent source)) with (model st).
    now destruct (model st).
Qed.

(** X4.  With an open connection [_train_model] returns [True] exactly when
    the store has at least two labels, no label has fewer than
    [min_samples_per_class] examples, a pipeline is present and its [fit]
    completes; the recogniser then holds the fitted pipeline with
    [is_trained] set. *)
Theorem train_model_succeeds_iff (st : IntentRecognizer) :
  conn_open st = true ->
  (fst (_train_model st) = Ok true <->
   (~ insufficient_data st /\ ~ sparse_class st)
   /\ exists m, model st = Some m
                /\ snd (fit m (map t_text (training_data st))
                              (map t_intent (training_data st))) = true)
  /\ (fst (_train_model st) = Ok true ->
      is_trained (snd (_train_model st)) = true
      /\ exists m, model st = Some m
                   /\ model (snd (_train_model st))
                      = Some (fst (fit m (map t_text (training_data st))
                                         (map t_intent (training_data st))))).
Proof.
  intro Ho. pose proof (ready_to_train_iff st) as Hiff.
  rewrite (train_model_open st Ho).
  destruct (ready_to_train st) eqn:Hr.
  - assert (Hready : ~ insufficient_data st /\ ~ sparse_class st)
      by now apply Hiff.
    destruct (model st) as [m|] eqn:Hm; cbn [fst snd].
    + unfold fitted. cbv zeta.
      destruct (fit m _ _) as [m' ok] eqn:Hf. cbn [fst snd].
      split.
      * split.
        -- intro H. inversion H; subst. split; [exact Hready|].
           exists m. split; [reflexivity|]. now rewrite Hf.
        -- intros [_ (m0 & Hm0 & Hok)]. inversion Hm0; subst m0.
           rewrite Hf in Hok. cbn [snd] in Hok. now subst.
      * intro H. inversion H; subst. split; [reflexivity|].
        exists m. split; [reflexivity|]. cbn. now rewrite Hf.
    + split.
      * split; [discriminate|]. intros [_ (m0 & Hm0 & _)]. discriminate.
      * discriminate.
  - cbn [fst snd]. split.
    + split; [discriminate|]. intros [H _]. apply Hiff in H. discriminate.
    + discriminate.
Qed.

End TrainingMore.

(** ** The fallback matcher, in order *)

Lemma first_pattern_spec (patterns : list (string * list string))
    (clean_text intent : string) :
  first_pattern patterns clean_text = Some intent <->
  exists before triggers after,
    patterns = (before ++ (intent, triggers) :: after)%list
    /\ any_trigger clean_text triggers = true
    /\ Forall (fun it => any_trigger clean_text (snd it) = false) before.
Proof.
  induction patterns as [|[i ts] ps IH]; cbn [first_pattern].
  - split; [discriminate|]. intros (b & t & a & H & _). now destruct b.
  - destruct (any_trigger clean_text ts) eqn:E; split.
    + intro H. inversion H; subst. exists [], ts, ps. auto.
    + intros ([|[i0 ts0] b] & t & a & H & Ht & Hb).
      * inversion H; subst. reflexivity.
      * inversion H; subst. inversion Hb; subst. cbn [snd] in *. congruence.
    + intro H. apply IH in H as (b & t & a & -> & Ht & Hb).
      exists ((i, ts) :: b), t, a. repeat split; auto.
    + intros ([|[i0 ts0] b] & t & a & H & Ht & Hb).
      * inversion H; subst. congruence.
      * inversion H; subst. inversion Hb; subst. apply IH. eauto 6.
Qed.

Lemma first_pattern_none (patterns : list (string * list string))
    (clean_text : string) :
  first_pattern patterns clean_text = None <->
  forall intent triggers trigger,
    In (intent, triggers) patterns -> In trigger triggers ->
    contains clean_text trigger = false.
Proof.
  split.
  - intros H intent triggers trigger Hin Ht.
    destruct (contains clean_text trigger) eqn:Hc; [|reflexivity].
    destruct (first_pattern_found _ _ _ _ _ Hin Ht Hc). congruence.
  - intro H. induction patterns as [|[i ts] ps IH]; [reflexivity|].
    cbn [first_pattern].
    assert (E : any_trigger clean_text ts = false).
    { unfold any_trigger. apply not_true_is_false. intro Hex.
      apply existsb_exists in Hex as (t & Hin & Hc).
      rewrite (H i ts t (or_introl eq_refl) Hin) in Hc. discriminate. }
    rewrite E. apply IH. intros. eapply H; [right|]; eassumption.
Qed.

Lemma resolve_intent_shape (intent text : string) :
  fst (fst (_resolve_intent intent text)) = intent
  /\ snd (_resolve_intent intent text) = intent_type_for intent
  /\ (intent = "unknown" -> snd (fst (_resolve_intent intent text)) = None).
Proof.
  unfold _resolve_intent, intent_type_for.
  repeat match goal with
         | |- context [if ?a =? ?b then _ else _] =>
             destruct (a =? b) eqn:?
         end; cbn [fst snd]; repeat split; try reflexivity;
    intros ->; discriminate.
Qed.

Lemma fallback_intent_shape (text : string) (confidence : Q) :
  _fallback_intent text confidence = ("unknown", None, "unknown", confidence)
  \/ exists intent,
       first_pattern common_patterns (lower text) = Some intent
       /\ _fallback_intent text confidence
          = (intent, snd (fst (_resolve_intent intent text)),
             intent_type_for intent, pymax confidence float_0_8).
Proof.
  unfold _fallback_intent.
  destruct (first_pattern common_patterns (lower text)) as [intent|];
    [right | now left].
  exists intent. split; [reflexivity|].
  destruct (resolve_intent_shape intent text) as (H1 & H2 & _).
  destruct (_resolve_intent intent text) as [[i e] t].
  cbn [fst snd] in *. now subst.
Qed.

Lemma first_pattern_key (patterns : list (string * list string))
    (clean_text intent : string) :
  first_pattern patterns clean_text = Some intent ->
  In intent (map fst patterns).
Proof.
  intro H. apply first_pattern_spec in H as (b & t & a & -> & _).
  rewrite map_app. apply in_or_app. right. now left.
Qed.

Lemma common_patterns_known (intent : string) :
  In intent (map fst common_patterns) -> intent <> "unknown".
Proof.
  cbn. intros H ->.
  repeat (destruct H as [H|H]; [discriminate H|]). exact H.
Qed.

(** X5.  The fallback matcher answers with the first intent, in the order
    of [common_patterns], one of whose triggers occurs in the lower-cased
    text, and with (unknown, None, unknown, incoming confidence) exactly
    when no trigger occurs.  In particular a text in which "hello", "hi" or
    "hey" occurs anywhere is a greeting, whatever else it says. *)
Theorem fallback_intent_first_match (text : string) (confidence : Q) :
  (_fallback_intent text confidence
   = ("unknown", None, "unknown", confidence) <-> ~ trigger_occurs text)
  /\ (forall intent,
        intent_of (_fallback_intent text confidence) = intent ->
        intent <> "unknown" ->
        exists before triggers after,
          common_patterns = (before ++ (intent, triggers) :: after)%list
          /\ any_trigger (lower text) triggers = true
          /\ Forall (fun it => any_trigger (lower text) (snd it) = false)
                    before)
  /\ (any_trigger (lower text) ["hello"; "hi"; "hey"] = true ->
      _fallback_intent text confidence
      = ("greeting", None, "greeting", pymax confidence float_0_8)).
Proof.
  split; [|split].
  - split.
    + intros H (intent & triggers & trigger & Hin & Ht & Hc).
      destruct (first_pattern_found _ _ _ _ _ Hin Ht Hc) as [found Hf].
      destruct (fallback_intent_shape text confidence)
        as [_ | (i & Hi & E)]; [|].
      * unfold _fallback_intent in H. rewrite Hf in H.
        destruct (resolve_intent_shape found text) as (H1 & _ & _).
        destruct (_resolve_intent found text) as [[i e] t].
        cbn [fst] in H1. inversion H; subst.
        exact (common_patterns_known _ (first_pattern_key _ _ _ Hf) eq_refl).
      * rewrite E in H. inversion H; subst.
        exact (common_patterns_known _ (first_pattern_key _ _ _ Hi) eq_refl).
    + intro H. apply fallback_intent_no_match. apply first_pattern_none.
      intros intent triggers trigger Hin Ht.
      apply not_true_is_false. intro Hc. apply H.
      now exists intent, triggers, trigger.
  - intros intent Hi Hne.
    destruct (fallback_intent_shape text confidence)
      as [E | (i & Hf & E)]; rewrite E in Hi; cbn in Hi; subst intent.
    + congruence.
    + now apply first_pattern_spec.
  - intro H. unfold _fallback_intent. cbn [common_patterns first_pattern].
    now rewrite H.
Qed.

(** ** What [predict_intent] returns and what it leaves alone *)

Section Results.

Context {C : Classifier}.

Lemma predict_intent_result (text : string) (st : IntentRecognizer) :
  exists r st0 pi c,
    predict_intent text st = (Ok r, logged st0 text pi c)
    /\ (r = unknown_result
        \/ (exists incoming, r = _fallback_intent text incoming)
        \/ (exists label p,
              Qltb p (confidence_threshold st) = false
              /\ r = (label, snd (fst (_resolve_intent label text)),
                      intent_type_for label, p)))
    /\ model st0 = model st /\ is_trained st0 = is_trained st
    /\ confidence_threshold st0 = confidence_threshold st
    /\ min_samples_per_class st0 = min_samples_per_class st
    /\ same_database st st0
    /\ (classifier_calls st <= classifier_calls st0
        <= classifier_calls st + 2)%nat
    /\ (blank text = true \/ untrained st = true -> st0 = st).
Proof.
  destruct (blank text) eqn:Hb.
  { exists unknown_result, st, "unknown", 0%Q.
    rewrite (predict_intent_blank _ _ Hb).
    repeat split; auto; lia. }
  destruct (untrained st) eqn:Hu.
  { eexists _, st, _, _. rewrite (predict_intent_untrained _ _ Hb Hu).
    repeat split; eauto; lia. }
  assert (Hu' := Hu). unfold untrained in Hu'.
  apply orb_false_iff in Hu' as [_ Hm].
  destruct (model st) as [m|] eqn:Em; [clear Hm | discriminate].
  destruct (predict m (_preprocess_text text)) as [label|] eqn:Hp.
  - destruct (max_proba m (_preprocess_text text)) as [p|] eqn:Hq.
    + eexists _, (count_call (count_call st)), _, _.
      rewrite (predict_intent_classified _ _ _ _ _ Hb Hu Em Hp Hq).
      split; [reflexivity|]. split.
      * unfold classified.
        destruct (Qltb p (confidence_threshold st)) eqn:Hlow.
        -- right. left. eauto.
        -- right. right. exists label, p. split; [exact Hlow|].
           destruct (resolve_intent_shape label text) as (-> & -> & _).
           reflexivity.
      * cbn. repeat split; auto; try lia;
        try (intros [H|H]; congruence).
    + assert (Hr : classifier_raises st (_preprocess_text text) = true)
        by (unfold classifier_raises; now rewrite Hu, Em, Hp, Hq).
      revert Hr. unfold classifier_raises. intros _.
      unfold predict_intent. unfold blank in Hb.
      apply orb_false_iff in Hb as [H1 H2]. rewrite H1. cbv zeta.
      rewrite H2. unfold try_except, bind at 1, get. fold (untrained st).
      rewrite Hu. unfold bind at 1. unfold bind at 1.
      unfold model_predict at 1. rewrite Em, Hp.
      unfold bind at 1. unfold model_confidence at 1.
      cbn [model count_call]. rewrite Em, Hq.
      fold (count_call (count_call st)).
      unfold bind. rewrite log_query_eq.
      eexists _, (count_call (count_call st)), _, _.
      split; [reflexivity|]. split; [right; left; eauto|].
      cbn. repeat split; auto; try lia;
        try (intros [H|H]; congruence).
  - unfold predict_intent. unfold blank in Hb.
    apply orb_false_iff in Hb as [H1 H2]. rewrite H1. cbv zeta.
    rewrite H2. unfold try_except, bind at 1, get. fold (untrained st).
    rewrite Hu. unfold bind at 1. unfold bind at 1.
    unfold model_predict at 1. rewrite Em, Hp.
    unfold bind. rewrite log_query_eq.
    eexists _, (count_call st), _, _.
    split; [reflexivity|]. split; [right; left; eauto|].
    cbn. repeat split; auto; try lia;
        try (intros [H|H]; congruence).
Qed.

Lemma predict_intent_log (text : string) (st : IntentRecognizer) :
  exists rows,
    queries (snd (predict_intent text st)) = (queries st ++ rows)%list
    /\ List.length rows = if conn_open st then 1%nat else 0%nat.
Proof.
  destruct (predict_intent_result text st)
    as (r & st0 & pi & c & E & _ & _ & _ & _ & _ & (_ & Hq & Ho & _) & _).
  rewrite E. cbn [snd]. unfold logged. rewrite <- Ho.
  destruct (conn_open st0).
  - exists [query_row st0 text pi c]. split; [|reflexivity].
    cbn [queries with_queries]. now rewrite Hq.
  - exists []. now rewrite app_nil_r.
Qed.

Lemma predict_intent_shape (text : string) (st st' : IntentRecognizer)
    (r : recognition) :
  predict_intent text st = (Ok r, st') ->
  intent_type_of r = intent_type_for (intent_of r)
  /\ (intent_of r = "unknown" -> entity_of r = None)
  /\ (intent_of r = "unknown"
      \/ (float_0_8 <= confidence_of r)%Q
      \/ (confidence_threshold st <= confidence_of r)%Q).
Proof.
  intro E.
  destruct (predict_intent_result text st)
    as (r0 & st0 & pi & c & E0 & Hr & _).
  rewrite E in E0. inversion E0; subst r0. clear E0.
  destruct Hr as [-> | [(incoming & ->) | (label & p & Hlow & ->)]].
  - repeat split; auto.
  - destruct (fallback_intent_shape text incoming)
      as [-> | (i & Hf & ->)].
    + repeat split; auto.
    + unfold intent_type_of, intent_of, entity_of, confidence_of.
      cbn [fst snd]. repeat split.
      * intros ->.
        destruct (common_patterns_known _ (first_pattern_key _ _ _ Hf)).
        reflexivity.
      * right. left. apply pymax_ge_right.
  - unfold intent_type_of, intent_of, entity_of, confidence_of.
    cbn [fst snd]. repeat split.
    + intros ->. now destruct (resolve_intent_shape "unknown" text)
        as (_ & _ & ->).
    + right. right. unfold Qltb in Hlow. apply negb_false_iff in Hlow.
      now apply Qle_bool_iff.
Qed.

(** X7.  In every 4-tuple [predict_intent] returns, [intent_type] is the
    display label of the intent, an unknown intent comes without entity, and
    a known one comes with a confidence of at least 0.8 or at least the
    threshold.  With a threshold of at most 0.8 a known intent is therefore
    never reported below the threshold. *)
Theorem predict_intent_result_shape (text : string) (st st' : IntentRecognizer)
    (r : recognition) :
  predict_intent text st = (Ok r, st') ->
  intent_type_of r = intent_type_for (intent_of r)
  /\ (intent_of r = "unknown" -> entity_of r = None)
  /\ (intent_of r = "unknown"
      \/ (float_0_8 <= confidence_of r)%Q
      \/ (confidence_threshold st <= confidence_of r)%Q)
  /\ ((confidence_threshold st <= float_0_8)%Q ->
      intent_of r <> "unknown" ->
      ~ (confidence_of r < confidence_threshold st)%Q).
Proof.
  intro E.
  destruct (predict_intent_shape text st st' r E) as (Htype & Hent & Hconf).
  repeat split; auto.
  intros Hthr Hne Hlt. destruct Hconf as [Hconf|[Hconf|Hconf]].
  - contradiction.
  - apply (Qlt_not_le _ _ Hlt). eapply Qle_trans; eassumption.
  - exact (Qlt_not_le _ _ Hlt Hconf).
Qed.

End Results.

(** ** The most recent query *)

Lemma latest_query_app (text : string) (qs1 qs2 : list QueryRow) (i : nat)
    (best : option (nat * Z)) :
  latest_query text (qs1 ++ qs2) i best
  = latest_query text qs2 (i + List.length qs1)
      (latest_query text qs1 i best).
Proof.
  revert i best. induction qs1 as [|q qs1 IH]; intros i best.
  - cbn. now rewrite Nat.add_0_r.
  - cbn [app latest_query List.length]. rewrite IH. f_equal. lia.
Qed.

(** What the scan has found: nothing, and then no row has the text; or a
    row with the text whose timestamp no other such row exceeds. *)
Lemma latest_query_spec (text : string) (qs : list QueryRow) :
  match latest_query text qs 0 None with
  | None => Forall (fun q => q_text q <> text) qs
  | Some (j, t) =>
      (exists q, nth_error qs j = Some q /\ q_text q = text
                 /\ q_timestamp q = t)
      /\ Forall (fun q => q_text q = text -> (q_timestamp q <= t)%Z) qs
  end.
Proof.
  induction qs as [|q qs IH] using rev_ind; [constructor|].
  rewrite latest_query_app. cbn [latest_query Nat.add].
  destruct (latest_query text qs 0 None) as [[j t]|].
  - destruct IH as [(q0 & Hn & Ht & Hts) Hall].
    destruct (q_text q =? text) eqn:E.
    + apply String.eqb_eq in E.
      destruct (t <? q_timestamp q)%Z eqn:Hlt.
      * apply Z.ltb_lt in Hlt. split.
        -- exists q. rewrite nth_error_app2 by lia.
           rewrite Nat.sub_diag. auto.
        -- apply Forall_app. split.
           ++ eapply Forall_impl; [|exact Hall]. cbn. intros a Ha Hq.
              specialize (Ha Hq). lia.
           ++ constructor; [lia | constructor].
      * apply Z.ltb_ge in Hlt. split.
        -- exists q0. rewrite nth_error_app1; [auto|].
           apply nth_error_Some. congruence.
        -- apply Forall_app. split; [exact Hall|].
           constructor; [auto | constructor].
    + apply String.eqb_neq in E. split.
      * exists q0. rewrite nth_error_app1; [auto|].
        apply nth_error_Some. congruence.
      * apply Forall_app. split; [exact Hall|].
        constructor; [congruence | constructor].
  - destruct (q_text q =? text) eqn:E.
    + apply String.eqb_eq in E. split.
      * exists q. rewrite nth_error_app2 by lia.
        rewrite Nat.sub_diag. auto.
      * apply Forall_app. split.
        -- eapply Forall_impl; [|exact IH]. cbn. intros a Ha Hq. contradiction.
        -- constructor; [lia | constructor].
    + apply String.eqb_neq in E. apply Forall_app. split; [exact IH|].
      constructor; [exact E | constructor].
Qed.


Lemma map_update_nth {A B : Type} (g : A -> B) (f : A -> A) (i : nat)
    (l : list A) :
  (forall x, g (f x) = g x) -> map g (update_nth i f l) = map g l.
Proof.
  intro H. revert i. induction l as [|a l IH]; intros [|i]; cbn;
    try reflexivity; now rewrite ?H, ?IH.
Qed.

(** ** Feedback and the query log *)

Section FeedbackLog.

Context {C : Classifier}.

Lemma add_training_example_queries (text intent source : string)
    (st : IntentRecognizer) :
  queries (snd (add_training_example text intent source st)) = queries st.
Proof.
  destruct (truthy (_preprocess_text text)) eqn:Ht;
    [destruct (truthy (strip intent)) eqn:Hi|].
  - destruct (conn_open st) eqn:Ho.
    + rewrite (add_training_example_eq _ _ _ _ Ht Hi Ho). cbn [snd].
      destruct (ready_to_train _); [|reflexivity].
      destruct (train_model_frame (inserted st text intent source))
        as [(_ & Hq & _) _].
      now rewrite Hq.
    + unfold add_training_example, bind.
      now rewrite add_single_eq, Ht, Hi, Ho.
  - unfold add_training_example, bind.
    now rewrite add_single_eq, Ht, Hi.
  - unfold add_training_example, bind.
    now rewrite add_single_eq, Ht.
Qed.

Lemma provide_feedback_queries (text intent : string)
    (st : IntentRecognizer) :
  queries (snd (provide_feedback text intent st))
  = if truthy (strip text) && truthy (strip intent) && conn_open st
    then marked text (lower intent) (queries st)
    else queries st.
Proof.
  unfold provide_feedback.
  destruct (truthy (strip text)); cbn [negb orb andb]; [|reflexivity].
  destruct (truthy (strip intent)); cbn [negb orb andb]; [|reflexivity].
  unfold try_except.
  destruct (conn_open st) eqn:Ho.
  - unfold bind at 1, update_latest_query, execute. rewrite Ho.
    set (st1 := match latest_query text (queries st) 0 None with
                | Some (i, _) =>
                    with_queries
                      (update_nth i (set_correct_intent (lower intent))
                                  (queries st)) st
                | None => st
                end).
    assert (Hq1 : queries st1 = marked text (lower intent) (queries st)).
    { unfold st1, marked.
      now destruct (latest_query text (queries st) 0 None) as [[i t]|]. }
    assert (Ho1 : conn_open st1 = true).
    { unfold st1.
      now destruct (latest_query text (queries st) 0 None) as [[i t]|]. }
    unfold bind at 1, count_training, fetch. rewrite Ho1.
    destruct (0 <? _)%nat; cbn [negb].
    + unfold bind, commit, execute, ret. rewrite Ho1. exact Hq1.
    + pose proof (add_training_example_queries text intent "user_feedback"
                    st1) as Hq.
      pose proof (add_training_example_effect text intent "user_feedback"
                    st1) as (_ & Hc & _). cbv zeta in Hc.
      destruct (add_training_example text intent "user_feedback" st1)
        as [[b|e] st2]; cbn [snd] in Hq, Hc; cbv iota beta.
      * cbn [snd]. congruence.
      * destruct (sqlite3_Error e); [|cbn [snd]; congruence].
        unfold bind, rollback, execute, ret.
        replace (conn_open st2) with true by congruence. cbn [snd].
        congruence.
  - unfold bind at 1, update_latest_query, execute. rewrite Ho.
    cbn [sqlite3_Error]. unfold bind, rollback, execute. now rewrite Ho.
Qed.

(** X8.  [provide_feedback] never adds, removes or reorders rows of the
    query log and never rewrites a text, a prediction, a confidence or a
    timestamp.  It either leaves the log alone or sets [correct_intent] to
    the lower-cased label on one row: a row with exactly this raw text
    whose timestamp no other row with the text exceeds.  The log is left
    alone when an argument is blank, when the connection is closed and when
    no row has the text. *)
Theorem provide_feedback_marks_one_query (text intent : string)
    (st : IntentRecognizer) :
  let qs := queries st in
  let qs' := queries (snd (provide_feedback text intent st)) in
  map (fun q => (q_text q, q_predicted_intent q, q_confidence q,
                 q_timestamp q)) qs'
  = map (fun q => (q_text q, q_predicted_intent q, q_confidence q,
                   q_timestamp q)) qs
  /\ (qs' = qs
      \/ exists i q,
           nth_error qs i = Some q /\ q_text q = text
           /\ Forall (fun q' => q_text q' = text ->
                                (q_timestamp q' <= q_timestamp q)%Z) qs
           /\ qs' = update_nth i (set_correct_intent (lower intent)) qs)
  /\ (truthy (strip text) = false \/ truthy (strip intent) = false
      \/ conn_open st = false \/ Forall (fun q => q_text q <> text) qs ->
      qs' = qs).
Proof.
  cbv zeta. rewrite provide_feedback_queries.
  pose proof (latest_query_spec text (queries st)) as Hspec.
  unfold marked.
  destruct (truthy (strip text) && truthy (strip intent) && conn_open st)
    eqn:Hgo.
  - destruct (latest_query text (queries st) 0 None) as [[i t]|] eqn:Hl.
    + destruct Hspec as [(q & Hn & Ht & Hts) Hall]. split; [|split].
      * now apply map_update_nth.
      * right. exists i, q. subst t. auto.
      * intros [H|[H|[H|H]]].
        -- now rewrite H in Hgo.
        -- now rewrite H, andb_false_r in Hgo.
        -- now rewrite H, andb_false_r in Hgo.
        -- rewrite Forall_forall in H. exfalso.
           apply (H q); [eapply nth_error_In; eassumption | exact Ht].
    + auto.
  - auto.
Qed.



End FeedbackLog.

(** ** The review list *)

Lemma insert_desc_perm (q : QueryRow) (l : list QueryRow) :
  Permutation (q :: l) (insert_desc q l).
Proof.
  induction l as [|x l IH]; [reflexivity|].
  cbn [insert_desc]. destruct (q_timestamp q <? q_timestamp x)%Z;
    [|reflexivity].
  rewrite perm_swap. now constructor.
Qed.

Lemma order_by_timestamp_desc_perm (l : list QueryRow) :
  Permutation l (order_by_timestamp_desc l).
Proof.
  induction l as [|q l IH]; [reflexivity|].
  cbn [order_by_timestamp_desc fold_right].
  rewrite <- insert_desc_perm. now constructor.
Qed.

Lemma insert_desc_sorted (q : QueryRow) (l : list QueryRow) :
  StronglySorted newer_first l -> StronglySorted newer_first (insert_desc q l).
Proof.
  induction 1 as [|x l Hl IH Hx]; cbn [insert_desc].
  - constructor; constructor.
  - destruct (q_timestamp q <? q_timestamp x)%Z eqn:E.
    + apply Z.ltb_lt in E. constructor; [exact IH|].
      apply Forall_forall. intros y Hy.
      apply (Permutation_in _ (Permutation_sym (insert_desc_perm q l))) in Hy.
      destruct Hy as [<-|Hy]; [unfold newer_first; lia|].
      rewrite Forall_forall in Hx. now apply Hx.
    + apply Z.ltb_ge in E. constructor; [now constructor|].
      constructor; [exact E|].
      eapply Forall_impl; [|exact Hx]. unfold newer_first. cbn. intros; lia.
Qed.

Lemma order_by_timestamp_desc_sorted (l : list QueryRow) :
  StronglySorted newer_first (order_by_timestamp_desc l).
Proof.
  induction l as [|q l IH]; [constructor|].
  cbn [order_by_timestamp_desc fold_right]. now apply insert_desc_sorted.
Qed.

Lemma Qltb_lt (a b : Q) : Qltb a b = true <-> (a < b)%Q.
Proof.
  unfold Qltb. rewrite negb_true_iff. split.
  - intro H. apply Qnot_le_lt. intro Hle.
    apply Qle_bool_iff in Hle. congruence.
  - intro H. apply not_true_is_false. intro Hle.
    apply Qle_bool_iff in Hle. exact (Qlt_not_le _ _ H Hle).
Qed.

Lemma uncertain_iff (threshold : Q) (q : QueryRow) :
  uncertain threshold q = true <->
  (exists c, q_confidence q = Some c /\ (c < threshold)%Q)
  /\ q_correct_intent q = None.
Proof.
  unfold uncertain. destruct (q_confidence q) as [c|].
  - destruct (q_correct_intent q).
    + split; [discriminate | intros [_ H]; discriminate].
    + rewrite Qltb_lt. split.
      * intro H. split; [eauto | reflexivity].
      * intros [(c' & Hc & Hlt) _]. now inversion Hc; subst.
  - split; [discriminate|]. intros [(c & H & _) _]. discriminate.
Qed.

Section Review.

Context {C : Classifier}.

(** X10.  [get_uncertain_queries] lists, newest first, exactly the logged
    queries whose confidence is below the threshold and that have received
    no feedback: each once, as (text, confidence).  A query without a
    confidence is never listed.  On a closed connection the list is empty
    and nothing is raised. *)
Theorem get_uncertain_queries_spec (threshold : Q) (st : IntentRecognizer) :
  exists rows,
    get_uncertain_queries threshold st
    = (Ok (map (fun q => (q_text q, q_confidence q)) rows), st)
    /\ (conn_open st = false -> rows = [])
    /\ (conn_open st = true ->
        Permutation rows (filter (uncertain threshold) (queries st))
        /\ StronglySorted newer_first rows
        /\ forall q,
             In q rows <->
             In q (queries st)
             /\ (exists c, q_confidence q = Some c /\ (c < threshold)%Q)
             /\ q_correct_intent q = None).
Proof.
  unfold get_uncertain_queries, try_except, fetch, ret.
  destruct (conn_open st) eqn:Ho.
  - exists (uncertain_rows threshold (queries st)).
    split; [reflexivity|]. split; [discriminate|]. intros _.
    unfold uncertain_rows.
    pose proof (order_by_timestamp_desc_perm
                  (filter (uncertain threshold) (queries st))) as Hp.
    split; [now apply Permutation_sym|].
    split; [apply order_by_timestamp_desc_sorted|].
    intro q. rewrite <- uncertain_iff, <- filter_In. split.
    + apply Permutation_in. now apply Permutation_sym.
    + now apply Permutation_in.
  - exists []. cbn. split; [reflexivity|]. split; [reflexivity|].
    discriminate.
Qed.



End Review.

(** ** After [close] *)

Section Closed.

Context {C : Classifier}.

Lemma predict_intent_answer (text : string) (st : IntentRecognizer) :
  fst (predict_intent text st) = Ok (answer st text).
Proof.
  unfold answer. destruct (blank text) eqn:Hb.
  { now rewrite (predict_intent_blank _ _ Hb). }
  destruct (untrained st) eqn:Hu.
  { now rewrite (predict_intent_untrained _ _ Hb Hu). }
  assert (Hu' := Hu). unfold untrained in Hu'.
  apply orb_false_iff in Hu' as [_ Hm].
  destruct (model st) as [m|] eqn:Em; [clear Hm | discriminate].
  destruct (predict m (_preprocess_text text)) as [label|] eqn:Hp;
    [destruct (max_proba m (_preprocess_text text)) as [p|] eqn:Hq|].
  - now rewrite (predict_intent_classified _ _ _ _ _ Hb Hu Em Hp Hq).
  - assert (Hr : classifier_raises st (_preprocess_text text) = true)
      by (unfold classifier_raises; now rewrite Hu, Em, Hp, Hq).
    destruct (predict_intent_raises _ _ Hb Hr) as (st0 & -> & _).
    reflexivity.
  - assert (Hr : classifier_raises st (_preprocess_text text) = true)
      by (unfold classifier_raises; now rewrite Hu, Em, Hp).
    destruct (predict_intent_raises _ _ Hb Hr) as (st0 & -> & _).
    reflexivity.
Qed.

Lemma provide_feedback_closed (text intent : string) (st : IntentRecognizer) :
  conn_open st = false ->
  truthy (strip text) = true -> truthy (strip intent) = true ->
  provide_feedback text intent st = (Raised SqliteError, st).
Proof.
  intros Ho Ht Hi. unfold provide_feedback. rewrite Ht, Hi. cbn [negb orb].
  unfold try_except, bind at 1, update_latest_query, execute. rewrite Ho.
  cbn [sqlite3_Error]. unfold bind, rollback, execute. now rewrite Ho.
Qed.

(** X12.  Once [close] has run: closing again does nothing;
    [predict_intent] still gives the answer it would have given, but logs
    nothing; [get_uncertain_queries] returns the empty list;
    [_train_model] returns [False] and clears [is_trained] whatever the
    store holds; [provide_feedback] and [add_training_example] with usable
    arguments raise [sqlite3.Error], because the rollback in their handler
    fails too. *)
Theorem after_close (st : IntentRecognizer) :
  let closed := snd (close st) in
  fst (close st) = Ok tt
  /\ conn_open closed = false
  /\ close closed = (Ok tt, closed)
  /\ (forall text,
        fst (predict_intent text closed) = fst (predict_intent text st)
        /\ queries (snd (predict_intent text closed)) = queries st)
  /\ (forall threshold, get_uncertain_queries threshold closed = (Ok [], closed))
  /\ _train_model closed = (Ok false, with_is_trained false closed)
  /\ (forall text intent,
        truthy (strip text) = true -> truthy (strip intent) = true ->
        provide_feedback text intent closed = (Raised SqliteError, closed))
  /\ (forall text intent source,
        truthy (_preprocess_text text) = true ->
        truthy (strip intent) = true ->
        add_training_example text intent source closed
        = (Raised SqliteError, closed)).
Proof.
  cbv zeta. unfold close, try_except, modify. cbn [fst snd].
  set (closed := with_conn_open false st).
  assert (Hc : conn_open closed = false) by reflexivity.
  split; [reflexivity|]. split; [reflexivity|]. split; [reflexivity|].
  split; [|split; [|split; [|split]]].
  - intro text. split; [now rewrite !predict_intent_answer|].
    destruct (predict_intent_log text closed) as (rows & Hq & Hlen).
    rewrite Hc in Hlen. destruct rows; [|discriminate].
    now rewrite Hq, app_nil_r.
  - intro threshold. unfold get_uncertain_queries, try_except, fetch.
    now rewrite Hc.
  - rewrite train_model_eq. cbv zeta. now rewrite Hc.
  - intros text intent. now apply provide_feedback_closed.
  - intros text intent source Ht Hi.
    unfold add_training_example, bind.
    now rewrite add_single_eq, Ht, Hi, Hc.
Qed.

End Closed.

(** ** Starting up *)

Section Startup.

Context {C : Classifier}.

Lemma add_examples_open (phrases : list (string * string))
    (st : IntentRecognizer) :
  conn_open st = true ->
  add_examples phrases st
  = (Ok tt,
     with_training_data
       (training_data st
        ++ map (fun p => training_row st (fst p) (snd p) "initial")
               (filter storable phrases)) st).
Proof.
  revert st. induction phrases as [|[text intent] phrases IH]; intros st Ho.
  - cbn. rewrite app_nil_r. now destruct st.
  - cbn [add_examples]. unfold bind. rewrite add_single_eq, Ho.
    cbn [filter].
    assert (Hs : storable (text, intent)
                 = negb (negb (truthy (_preprocess_text text))
                         || negb (truthy (strip intent)))).
    { unfold storable. cbn [fst snd].
      now destruct (truthy (_preprocess_text text)), (truthy (strip intent)). }
    rewrite Hs.
    destruct (negb (truthy (_preprocess_text text))
              || negb (truthy (strip intent))); cbn [negb].
    + now apply IH.
    + rewrite IH by exact Ho. cbn [map fst snd]. f_equal.
      unfold with_training_data, training_row.
      cbn [model is_trained confidence_threshold min_samples_per_class
           training_data queries conn_open clock classifier_calls].
      now rewrite <- app_assoc.
Qed.


Lemma persist_train_and_save_eq (w : Persist.World) :
  Persist._train_and_save_model w
  = (Ok tt,
     if match fst (_train_model (Persist.self w)) with
        | Ok true => Persist.disk_writable w
        | _ => false
        end
     then Persist.with_model_path
            (Persist.Pickle (model (snd (_train_model (Persist.self w)))))
            (Persist.with_self (snd (_train_model (Persist.self w))) w)
     else Persist.with_self (snd (_train_model (Persist.self w))) w).
Proof.
  unfold Persist._train_and_save_model, Persist.wbind, Persist.lift.
  destruct (train_model_frame (Persist.self w)) as [_ [b Hb]].
  destruct (_train_model (Persist.self w)) as [o st']. cbn [fst snd] in *.
  subst o. destruct b; [|reflexivity].
  unfold Persist._save_model, Persist.wtry.
  cbn [Persist.disk_writable Persist.with_self].
  now destruct (Persist.disk_writable w).
Qed.

Lemma load_model_eq (w : Persist.World) :
  Persist._load_model w
  = (Ok tt,
     Persist.with_self
       match Persist.model_path w with
       | Persist.Pickle m => with_is_trained true (with_model m (Persist.self w))
       | _ => with_is_trained false (Persist.self w)
       end w).
Proof.
  unfold Persist._load_model, Persist.wtry, Persist.lift, modify.
  now destruct (Persist.model_path w).
Qed.

Lemma initialize_model_found (fresh : Model) (w : Persist.World) :
  match Persist.model_path w with
  | Persist.Absent | Persist.Empty => False
  | _ => True
  end ->
  Persist._initialize_model fresh w
  = (Ok tt,
     Persist.with_self
       (with_is_trained true
          match Persist.model_path w with
          | Persist.Pickle m => with_model m (Persist.self w)
          | _ => Persist.self w
          end) w).
Proof.
  intro H.
  unfold Persist._initialize_model, Persist.wtry, Persist.wbind,
    Persist._model_exists.
  destruct (Persist.model_path w) eqn:E; try contradiction;
    rewrite load_model_eq, E; reflexivity.
Qed.

(** X13.  A start that finds a non-empty model file sets [is_trained]
    whether or not the file can be read, and neither seeds nor retrains.  A
    readable file gives the model; an unreadable one leaves the model
    absent, and then every text is answered by the fallback matcher at
    confidence 0 although [is_trained] is set. *)
Theorem initialize_model_with_file (fresh : Model) (w : Persist.World) :
  Persist.model_path w = Persist.Unreadable
  \/ (exists m, Persist.model_path w = Persist.Pickle m) ->
  let w' := snd (Persist._initialize_model fresh w) in
  fst (Persist._initialize_model fresh w) = Ok tt
  /\ is_trained (Persist.self w') = true
  /\ model (Persist.self w')
     = match Persist.model_path w with
       | Persist.Pickle m => m
       | _ => model (Persist.self w)
       end
  /\ training_data (Persist.self w') = training_data (Persist.self w)
  /\ queries (Persist.self w') = queries (Persist.self w)
  /\ Persist.model_path w' = Persist.model_path w
  /\ (Persist.model_path w = Persist.Unreadable ->
      model (Persist.self w) = None ->
      forall text,
        fst (predict_intent text (Persist.self w'))
        = Ok (if blank text then unknown_result
              else _fallback_intent text 0%Q)).
Proof.
  intros H. cbv zeta.
  rewrite initialize_model_found
    by (destruct H as [-> | [m ->]]; exact I).
  cbn [fst snd Persist.self Persist.with_self Persist.model_path].
  destruct H as [H | [m H]]; rewrite H;
    (split; [reflexivity|]); (split; [reflexivity|]);
    (split; [reflexivity|]); (split; [reflexivity|]);
    (split; [reflexivity|]); (split; [reflexivity|]).
  - intros _ Hm text. rewrite predict_intent_answer. unfold answer.
    destruct (blank text); [reflexivity|].
    unfold untrained. cbn [model is_trained with_is_trained].
    rewrite Hm. reflexivity.
  - discriminate.
Qed.

Lemma add_initial_examples_open (st : IntentRecognizer) :
  conn_open st = true ->
  _add_initial_examples st
  = (Ok tt,
     match training_data st with
     | [] =>
         with_training_data
           (map (fun p => training_row st (fst p) (snd p) "initial")
                (filter storable test_phrases)) st
     | _ :: _ => st
     end).
Proof.
  intro Ho. unfold _add_initial_examples, bind, fetch. rewrite Ho.
  destruct (training_data st) as [|r rows] eqn:Hd; [|reflexivity].
  cbn [List.length Nat.eqb]. rewrite add_examples_open by exact Ho.
  now rewrite Hd.
Qed.

Lemma initialize_model_not_found (fresh : Model) (w : Persist.World) :
  Persist.model_path w = Persist.Absent
  \/ Persist.model_path w = Persist.Empty ->
  conn_open (Persist.self w) = true ->
  Persist._initialize_model fresh w
  = Persist._train_and_save_model
      (Persist.with_self (seeded fresh (Persist.self w)) w).
Proof.
  intros Hf Ho.
  unfold Persist._initialize_model, Persist.wtry, Persist.wbind at 1,
    Persist._model_exists.
  replace (match Persist.model_path w with
           | Persist.Absent | Persist.Empty => false
           | _ => true
           end) with false by (destruct Hf as [-> | ->]; reflexivity).
  unfold Persist.wbind at 1, Persist.lift at 1, _create_new_model, bind,
    modify.
  unfold Persist.wbind at 1, Persist.lift at 1, seeded.
  cbn [Persist.self Persist.with_self].
  rewrite add_initial_examples_open by exact Ho.
  cbn [snd]. rewrite !persist_train_and_save_eq. reflexivity.
Qed.

Lemma init_first_start (fresh : Model) (env : Persist.Environment) :
  Persist.db_reachable env = true ->
  Persist.stored_training env = [] ->
  Persist.stored_model env = Persist.Absent
  \/ Persist.stored_model env = Persist.Empty ->
  let rows := initial_rows (Persist.now env) in
  let result := fit fresh (map t_text rows) (map t_intent rows) in
  Persist.__init__ fresh env
  = (Ok tt,
     {| Persist.self :=
          {| model := Some (fst result); is_trained := snd result;
             confidence_threshold := float_0_6; min_samples_per_class := 3;
             training_data := rows;
             queries := Persist.stored_queries env;
             conn_open := true; clock := Persist.now env;
             classifier_calls := 0 |};
        Persist.model_path :=
          if snd result && Persist.writable env
          then Persist.Pickle (Some (fst result))
          else Persist.stored_model env;
        Persist.disk_writable := Persist.writable env |}).
Proof.
  intros Hdb Hrows Hfile. cbv zeta.
  unfold Persist.__init__, Persist.wbind, Persist._setup_database.
  rewrite Hdb, Hrows.
  rewrite initialize_model_not_found by (assumption || reflexivity).
  rewrite persist_train_and_save_eq.
  cbn [Persist.self Persist.with_self Persist.disk_writable
       Persist.model_path].
  unfold seeded.
  rewrite add_initial_examples_open by reflexivity.
  cbn [snd training_data with_is_trained with_model with_conn_open].
  rewrite train_model_open by reflexivity.
  set (rows := map _ (filter storable test_phrases)).
  assert (Hrows' : rows = initial_rows (Persist.now env))
    by (vm_compute; reflexivity).
  clearbody rows. subst rows.
  replace (ready_to_train _) with true by (vm_compute; reflexivity).
  unfold fitted. cbv zeta.
  cbn [model fst snd training_data with_training_data with_model
       with_is_trained Persist.with_model_path Persist.with_self
       Persist.self Persist.model_path Persist.disk_writable is_trained
       confidence_threshold min_samples_per_class queries conn_open clock
       classifier_calls].
  destruct (fit fresh _ _) as [m' [|]]; cbn [fst snd andb];
    [destruct (Persist.writable env)|]; reflexivity.
Qed.

End Startup.

(** ** What the matcher consumes *)

Lemma string_of_list_app (l1 l2 : list ascii) :
  string_of_list_ascii (l1 ++ l2)
  = string_of_list_ascii l1 ++ string_of_list_ascii l2.
Proof. induction l1 as [|c l1 IH]; [reflexivity|]. cbn. now rewrite IH. Qed.

Lemma append_assoc' (a b c : string) : (a ++ b) ++ c = a ++ (b ++ c).
Proof. induction a as [|x a IH]; [reflexivity|]. cbn. now rewrite IH. Qed.

Lemma reads_refl (st : Re.mstate) : reads st st [].
Proof. split; reflexivity. Qed.

Lemma reads_trans (st1 st2 st3 : Re.mstate) (c1 c2 : list ascii) :
  reads st1 st2 c1 -> reads st2 st3 c2 -> reads st1 st3 (c1 ++ c2).
Proof.
  intros [Hr1 Hp1] [Hr2 Hp2]. split.
  - now rewrite Hr1, Hr2, string_of_list_app, append_assoc'.
  - now rewrite Hp2, Hp1, rev_app_distr, app_assoc.
Qed.

Lemma reads_subject (st st' : Re.mstate) (consumed : list ascii) :
  reads st st' consumed -> subject st' = subject st.
Proof.
  intros [Hr Hp]. unfold subject.
  now rewrite Hr, Hp, rev_app_distr, rev_involutive, string_of_list_app,
    append_assoc'.
Qed.

Lemma reads_passed (st st' : Re.mstate) (consumed : list ascii) :
  reads st st' consumed ->
  Re.passed (List.length (Re.pre st') - List.length (Re.pre st)) st'
  = string_of_list_ascii consumed
  /\ substring (string_of_list_ascii consumed) (subject st).
Proof.
  intros [Hr Hp]. split.
  - unfold Re.passed. rewrite Hp, length_app, length_rev.
    replace (List.length consumed + List.length (Re.pre st)
             - List.length (Re.pre st))%nat
      with (List.length (rev consumed) + 0)%nat
      by (rewrite length_rev; lia).
    rewrite firstn_app_2. cbn [firstn]. rewrite app_nil_r.
    now rewrite rev_involutive.
  - exists (string_of_list_ascii (rev (Re.pre st))), (Re.rest st').
    unfold subject. now rewrite Hr.
Qed.

Lemma star_loop_sound {A : Type}
    (body : Re.mstate -> (Re.mstate -> option A) -> option A)
    (greedy : bool) (n : nat) :
  sound_step body -> sound_step (fun st k => Re.star_loop body greedy k n st).
Proof.
  intro Hb. induction n as [|n IH]; intros st k a Hc H; cbn [Re.star_loop] in H.
  - exists st, []. auto using reads_refl.
  - assert (Hagain :
      body st (fun st' =>
                 if (String.length (Re.rest st') <? String.length (Re.rest st))%nat
                 then Re.star_loop body greedy k n st' else None) = Some a ->
      exists st' consumed,
        reads st st' consumed /\ cap_in_subject st' /\ k st' = Some a).
    { intro Hbody. apply Hb in Hbody as (st1 & c1 & Hr1 & Hc1 & Hk1);
        [|exact Hc].
      destruct (_ <? _)%nat; [|discriminate].
      apply IH in Hk1 as (st2 & c2 & Hr2 & Hc2 & Hk2); [|exact Hc1].
      exists st2, (c1 ++ c2)%list. eauto using reads_trans. }
    destruct greedy.
    + destruct (body st _) eqn:E.
      * inversion H; subst. now apply Hagain.
      * exists st, []. auto using reads_refl.
    + destruct (k st) eqn:E.
      * inversion H; subst. exists st, []. auto using reads_refl.
      * now apply Hagain.
Qed.

Lemma run_sound {A : Type} (r : Re.regex) : sound_step (@Re.run A r).
Proof.
  induction r as [|p|r1 IH1 r2 IH2|r1 IH1 r2 IH2|g r IH|r IH| |];
    intros st k a Hc H; cbn [Re.run] in H.
  - exists st, []. auto using reads_refl.
  - destruct (Re.rest st) as [|c s'] eqn:Hr; [discriminate|].
    destruct (p c); [|discriminate].
    exists (Re.MState (c :: Re.pre st) s' (Re.cap st)), [c].
    assert (Hreads : reads st (Re.MState (c :: Re.pre st) s' (Re.cap st)) [c])
      by (split; [exact Hr | reflexivity]).
    split; [exact Hreads|]. split; [|exact H].
    intros g Hg. rewrite (reads_subject _ _ _ Hreads). now apply Hc.
  - apply IH1 in H as (st1 & c1 & Hr1 & Hc1 & Hk1); [|exact Hc].
    apply IH2 in Hk1 as (st2 & c2 & Hr2 & Hc2 & Hk2); [|exact Hc1].
    exists st2, (c1 ++ c2)%list. eauto using reads_trans.
  - destruct (Re.run r1 st k) eqn:E.
    + inversion H; subst. now apply IH1.
    + now apply IH2.
  - now apply (star_loop_sound (Re.run r) g _ IH) in H.
  - apply IH in H as (st1 & c1 & Hr1 & Hc1 & Hk1); [|exact Hc].
    eexists _, c1. split; [|split; [|exact Hk1]].
    + destruct Hr1 as [Ha Hb]. split; [exact Ha | exact Hb].
    + intros g Hg. cbn [Re.cap] in Hg. inversion Hg; subst g.
      destruct (reads_passed _ _ _ Hr1) as [-> Hsub].
      assert (Hs : subject
                     (Re.MState (Re.pre st1) (Re.rest st1)
                        (Some (string_of_list_ascii c1)))
                   = subject st)
        by (rewrite <- (reads_subject _ _ _ Hr1); reflexivity).
      now rewrite Hs.
  - destruct (Re.word_boundary st); [|discriminate].
    exists st, []. auto using reads_refl.
  - destruct (Re.at_end st); [|discriminate].
    exists st, []. auto using reads_refl.
Qed.

Lemma match_here_sound (r : Re.regex) (p : list ascii) (s : string)
    (st' : Re.mstate) :
  Re.match_here r p s = Some st' ->
  substring (Re.matched_text p st')
            (string_of_list_ascii (rev p) ++ s)
  /\ forall g, Re.cap st' = Some g ->
               substring g (string_of_list_ascii (rev p) ++ s).
Proof.
  unfold Re.match_here. intro H.
  apply (run_sound r) in H as (st1 & c & Hr & Hc & Hk);
    [|intros g Hg; discriminate].
  inversion Hk; subst st1. split.
  - unfold Re.matched_text.
    destruct (reads_passed _ _ _ Hr) as [Hp Hsub].
    cbn [Re.pre] in Hp. rewrite Hp. exact Hsub.
  - intros g Hg. specialize (Hc g Hg).
    now rewrite (reads_subject _ _ _ Hr) in Hc.
Qed.

Lemma search_from_sound (r : Re.regex) (p : list ascii) (s : string)
    (m : Re.rmatch) :
  Re.search_from r p s = Some m ->
  substring (Re.m_text m) (string_of_list_ascii (rev p) ++ s)
  /\ forall g, Re.m_group1 m = Some g ->
               substring g (string_of_list_ascii (rev p) ++ s).
Proof.
  revert p. induction s as [|c s IH]; intros p H; cbn [Re.search_from] in H.
  - destruct (Re.match_here r p EmptyString) as [st'|] eqn:E; [|discriminate].
    inversion H; subst. cbn [Re.m_text Re.m_group1].
    exact (match_here_sound _ _ _ _ E).
  - destruct (Re.match_here r p (String c s)) as [st'|] eqn:E.
    + inversion H; subst. cbn [Re.m_text Re.m_group1].
      exact (match_here_sound _ _ _ _ E).
    + apply IH in H. cbn [rev] in H.
      rewrite string_of_list_app, append_assoc' in H. exact H.
Qed.

Lemma findall_from_sound (r : Re.regex) (p : list ascii) (s : string)
    (skip : nat) :
  Forall (fun t => substring t (string_of_list_ascii (rev p) ++ s))
         (Re.findall_from r p s skip).
Proof.
  revert p skip. induction s as [|c s IH]; intros p skip.
  - cbn [Re.findall_from]. destruct skip; [|constructor].
    destruct (Re.match_here r p EmptyString) as [st'|] eqn:E;
      [|constructor].
    constructor; [|constructor]. exact (proj1 (match_here_sound _ _ _ _ E)).
  - assert (Hnext : forall k,
              Forall (fun t => substring t
                                 (string_of_list_ascii (rev p) ++ String c s))
                     (Re.findall_from r (c :: p) s k)).
    { intro k. specialize (IH (c :: p) k). cbn [rev] in IH.
      now rewrite string_of_list_app, append_assoc' in IH. }
    cbn [Re.findall_from]. destruct skip; [|apply Hnext].
    destruct (Re.match_here r p (String c s)) as [st'|] eqn:E;
      [|apply Hnext].
    constructor; [|apply Hnext]. exact (proj1 (match_here_sound _ _ _ _ E)).
Qed.

(** ** Substrings *)

Lemma startswith_app (t b : string) : startswith (t ++ b) t = true.
Proof.
  induction t as [|c t IH]; [now destruct b|].
  cbn. now rewrite Ascii.eqb_refl, IH.
Qed.

Lemma substring_contains (t s : string) :
  substring t s -> contains s t = true.
Proof.
  intros (a & b & ->). induction a as [|c a IH].
  - cbn [append]. destruct (t ++ b) eqn:E; cbn [contains];
      rewrite <- E, startswith_app; reflexivity.
  - cbn [append contains]. rewrite IH. apply orb_true_r.
Qed.

Lemma substring_trans (a b c : string) :
  substring a b -> substring b c -> substring a c.
Proof.
  intros (x & y & ->) (u & v & ->).
  exists (u ++ x), (y ++ v). now rewrite !append_assoc'.
Qed.

Lemma lstrip_suffix (s : string) : exists a, s = a ++ lstrip s.
Proof.
  induction s as [|c s [a IH]]; [now exists EmptyString|].
  cbn [lstrip]. destruct (is_space c); [|now exists EmptyString].
  exists (String c a). cbn. now rewrite <- IH.
Qed.

Lemma rstrip_prefix (s : string) : exists b, s = rstrip s ++ b.
Proof.
  induction s as [|c s [b IH]]; [now exists EmptyString|].
  cbn [rstrip]. destruct (rstrip s) as [|d r] eqn:E.
  - destruct (is_space c).
    + now exists (String c s).
    + exists b. cbn in *. now rewrite <- IH.
  - exists b. cbn in *. now rewrite <- IH.
Qed.

Lemma strip_substring (s : string) : substring (strip s) s.
Proof.
  unfold strip. destruct (lstrip_suffix s) as [a Ha].
  destruct (rstrip_prefix (lstrip s)) as [b Hb].
  exists a, b. now rewrite <- Hb.
Qed.

(** X14.  The location extractor does not invent text.  A location found
    by the preposition pattern occurs, as it is, in the lower-cased text and
    has no upper-case letter; otherwise the location is made of capitalized
    runs joined by spaces, each of which occurs in the raw text and none of
    which is a stop word. *)
Theorem extract_location_from_text (text location : string) :
  _extract_location text = Some location ->
  (contains (lower text) location = true /\ has_upper location = false)
  \/ exists runs,
       runs <> [] /\ location = join " " runs
       /\ Forall (fun run => contains text run = true
                             /\ mem (lower run) capitalized_stop_words = false)
                 runs.
Proof.
  unfold _extract_location. cbv zeta.
  destruct (Re.search location_re (lower text)) as [m|] eqn:Es.
  - destruct (_ && _); [discriminate|]. intro H. inversion H; subst. left.
    assert (Hsub : substring (strip (group1 m)) (lower text)).
    { apply (substring_trans _ (group1 m)); [apply strip_substring|].
      unfold group1. destruct (Re.m_group1 m) as [g|] eqn:Eg.
      - exact (proj2 (search_from_sound _ _ _ _ Es) g Eg).
      - now exists EmptyString, (lower text). }
    pose proof (substring_contains _ _ Hsub) as Hc.
    split; [exact Hc|].
    unfold has_upper. apply negb_false_iff.
    apply (all_chars_weaken lower_fixed).
    + intros c Hf. now rewrite <- lower_fixed_not_upper.
    + exact (contains_all_chars _ _ _ Hc (all_chars_lower text)).
  - destruct (Re.findall capitalized_re text) as [|w ws] eqn:Ef;
      [discriminate|].
    destruct (filter _ (w :: ws)) as [|v vs] eqn:Efl; [discriminate|].
    intro H. inversion H; subst. right.
    exists (v :: vs). split; [discriminate|]. split; [reflexivity|].
    rewrite <- Efl. apply Forall_forall. intros run Hin.
    apply filter_In in Hin as [Hin Hstop].
    split; [|now apply negb_true_iff].
    apply substring_contains.
    pose proof (findall_from_sound capitalized_re [] text 0) as Hall.
    unfold Re.findall in Ef. rewrite Ef in Hall.
    rewrite Forall_forall in Hall. exact (Hall run Hin).
Qed.

Section Starts.

Context {C : Classifier}.

(** X15.  On a first start (reachable database, empty table, no model
    file) the constructor stores every initial phrase but "hi" (46 rows, in
    normal form), fits the fresh pipeline on them and sets [is_trained] to
    whether [fit] completed: training is never refused for lack of data.
    The model file is written only when [fit] completed and the disk can be
    written. *)
Theorem init_on_first_start (fresh : Model) (env : Persist.Environment) :
  Persist.db_reachable env = true ->
  Persist.stored_training env = [] ->
  Persist.stored_model env = Persist.Absent
  \/ Persist.stored_model env = Persist.Empty ->
  let w := snd (Persist.__init__ fresh env) in
  let rows := initial_rows (Persist.now env) in
  let result := fit fresh (map t_text rows) (map t_intent rows) in
  fst (Persist.__init__ fresh env) = Ok tt
  /\ training_data (Persist.self w) = rows
  /\ List.length rows = 46%nat
  /\ model (Persist.self w) = Some (fst result)
  /\ is_trained (Persist.self w) = snd result
  /\ Persist.model_path w
     = (if snd result && Persist.writable env
        then Persist.Pickle (Some (fst result))
        else Persist.stored_model env)
  /\ queries (Persist.self w) = Persist.stored_queries env
  /\ conn_open (Persist.self w) = true.
Proof.
  intros Hdb Hrows Hfile. cbv zeta.
  rewrite (init_first_start fresh env Hdb Hrows Hfile).
  cbn [fst snd Persist.self Persist.model_path training_data model
       is_trained queries conn_open].
  repeat split; reflexivity.
Qed.



(** X17.  Seeding happens once: [_add_initial_examples] fills an empty
    table and leaves a table with rows alone, so a second call changes
    nothing; on a closed connection it raises. *)
Theorem add_initial_examples_once (st : IntentRecognizer) :
  (conn_open st = false ->
   _add_initial_examples st = (Raised SqliteError, st))
  /\ (conn_open st = true ->
      fst (_add_initial_examples st) = Ok tt
      /\ (training_data st <> [] -> snd (_add_initial_examples st) = st)
      /\ (training_data st = [] ->
          training_data (snd (_add_initial_examples st))
          = initial_rows (clock st))
      /\ _add_initial_examples (snd (_add_initial_examples st))
         = (Ok tt, snd (_add_initial_examples st))).
Proof.
  split.
  - intro Ho. unfold _add_initial_examples, bind, fetch. now rewrite Ho.
  - intro Ho. rewrite (add_initial_examples_open st Ho). cbn [fst snd].
    split; [reflexivity|]. split; [|split].
    + intro H. now destruct (training_data st).
    + intros ->. cbn [training_data with_training_data].
      unfold initial_rows. vm_compute. reflexivity.
    + destruct (training_data st) as [|r rows] eqn:Hd.
      * rewrite add_initial_examples_open by exact Ho.
        cbn [training_data with_training_data].
        destruct (map _ (filter storable test_phrases)) eqn:E;
          [vm_compute in E; discriminate | reflexivity].
      * rewrite add_initial_examples_open by exact Ho. now rewrite Hd.
Qed.

End Starts.

(* ================================================================== *)
(** ** The action table *)

Lemma search_on_google_eq (entity : option string) :
  LearningAssistant.get_action_for_intent "search_on_google" entity
  = (Some "search_on_google",
     [("query", if LearningAssistant.given entity then entity else None)]).
Proof.
  unfold LearningAssistant.get_action_for_intent.
  destruct (LearningAssistant.given entity); reflexivity.
Qed.

Lemma wikipedia_search_eq (entity : option string) :
  LearningAssistant.get_action_for_intent "wikipedia_search" entity
  = (Some "wikipedia_search",
     [("query", if LearningAssistant.given entity then entity else None)]).
Proof.
  unfold LearningAssistant.get_action_for_intent.
  destruct (LearningAssistant.given entity); reflexivity.
Qed.

Lemma same_arguments (d : LearningAssistant.kwargs) (entity : option string)
    (P : Prop) :
  Forall2 (fun a b => fst a = fst b
                      /\ (snd a = snd b
                          \/ (snd b = None /\ snd a = entity /\ P)))
          d d.
Proof. induction d; constructor; auto. Qed.

(** One of the five intents that take the entity. *)
Ltac listed_intent H :=
  vm_compute in H; inversion H; subst; eexists; split; [reflexivity|];
  cbn; repeat split; auto; try discriminate;
  [ repeat constructor; cbn; right; auto
  | intros [?|?]; discriminate ].

(** X18.  [get_action_for_intent] returns [(None, {})] for an intent the
    table does not list.  For a listed intent it returns the table's
    function, and arguments with the keys of the defaults in the same
    order: each value is the default, or the entity where the default is
    [None].  The entity is used only when it is not empty and the intent is
    one of the four search intents (as [query]) or [open_spotlight] (as
    [search_query]); for every other intent the defaults come back as they
    are, open arguments included. *)
Theorem get_action_for_intent_fills_open_arguments (intent_name : string)
    (entity : option string) :
  (LearningAssistant.get intent_name LearningAssistant.action_dispatcher = None ->
   LearningAssistant.get_action_for_intent intent_name entity = (None, []))
  /\ (forall action defaults,
        LearningAssistant.get intent_name LearningAssistant.action_dispatcher
        = Some (action, defaults) ->
        exists args,
          LearningAssistant.get_action_for_intent intent_name entity
          = (Some action, args)
          /\ Forall2 (fun a b => fst a = fst b
                                 /\ (snd a = snd b
                                     \/ (snd b = None /\ snd a = entity
                                         /\ LearningAssistant.given entity
                                            = true)))
                     args defaults
          /\ (LearningAssistant.given entity = true ->
              mem intent_name ["wikipedia_search"; "play_on_youtube";
                               "search_on_youtube"; "search_on_google"]
              = true ->
              LearningAssistant.get "query" args = Some entity)
          /\ (LearningAssistant.given entity = true ->
              intent_name = "open_spotlight" ->
              LearningAssistant.get "search_query" args = Some entity)
          /\ (LearningAssistant.given entity = false
              \/ mem intent_name ["wikipedia_search"; "play_on_youtube";
                                  "search_on_youtube"; "search_on_google";
                                  "open_spotlight"] = false ->
              args = defaults)).
Proof.
  split.
  - intro H. unfold LearningAssistant.get_action_for_intent. now rewrite H.
  - intros action defaults H.
    unfold LearningAssistant.get_action_for_intent. rewrite H.
    destruct (LearningAssistant.given entity) eqn:Hg.
    + rewrite !andb_true_r.
      destruct (String.eqb_spec intent_name "wikipedia_search") as [->|N1].
      { listed_intent H. }
      destruct (String.eqb_spec intent_name "play_on_youtube") as [->|N2].
      { listed_intent H. }
      destruct (String.eqb_spec intent_name "search_on_youtube") as [->|N3].
      { listed_intent H. }
      destruct (String.eqb_spec intent_name "search_on_google") as [->|N4].
      { listed_intent H. }
      destruct (String.eqb_spec intent_name "open_spotlight") as [->|N5].
      { listed_intent H. }
      exists defaults. split; [reflexivity|].
      split; [apply same_arguments|].
      unfold mem. cbn [existsb].
      apply String.eqb_neq in N1, N2, N3, N4, N5.
      rewrite N1, N2, N3, N4. cbn [orb].
      repeat split; auto; try discriminate.
      intros _ ->. discriminate.
    + rewrite !andb_false_r. exists defaults. split; [reflexivity|].
      split; [apply same_arguments|].
      repeat split; auto; discriminate.
Qed.

(* ================================================================== *)
(** ** What [_process_command] makes of an answer *)

Section CoreProofs.

Context {C : Classifier}.

Lemma predict_intent_ok (text : string) (st : IntentRecognizer) :
  predict_intent text st
  = (Ok (answer st text), snd (predict_intent text st)).
Proof.
  pose proof (predict_intent_answer text st) as H.
  destruct (predict_intent text st) as [o st']. cbn [fst snd] in *.
  now subst.
Qed.

Lemma predict_intent_threshold (text : string) (st : IntentRecognizer) :
  confidence_threshold (snd (predict_intent text st))
  = confidence_threshold st.
Proof.
  destruct (predict_intent_result text st)
    as (r & st0 & pi & c & E & _ & _ & _ & Hc & _).
  rewrite E. cbn [snd]. unfold logged.
  now destruct (conn_open st0).
Qed.

Lemma answer_fallback (text : string) (st : IntentRecognizer) (incoming : Q) :
  blank text = false ->
  fallback_invoked st (_preprocess_text text) incoming ->
  answer st text = _fallback_intent text incoming.
Proof.
  intros Hb Hinv. pose proof (predict_intent_answer text st) as Ha.
  destruct Hinv as [Hu | m label p Hu Hm Hp Hq Hlow | Hr].
  - rewrite (predict_intent_untrained _ _ Hb Hu) in Ha. cbn [fst] in Ha.
    congruence.
  - rewrite (predict_intent_classified _ _ _ _ _ Hb Hu Hm Hp Hq) in Ha.
    cbn [fst] in Ha. unfold classified in Ha. rewrite Hlow in Ha.
    congruence.
  - destruct (predict_intent_raises _ _ Hb Hr) as (st0 & E & _).
    rewrite E in Ha. cbn [fst] in Ha. congruence.
Qed.

(** The recogniser as [_process_command] leaves it after asking. *)
Lemma process_command_text (s : string) (self : GhostCore.t) :
  truthy s = true -> (lower s =? "deactivate") = false ->
  GhostCore._process_command (Some s) false self
  = (Some (fst (GhostCore.answer_to
                  (answer (GhostCore.intent_recognizer self) s)
                  (GhostCore.with_intent_recognizer
                     (snd (predict_intent s (GhostCore.intent_recognizer self)))
                     self))),
     snd (GhostCore.answer_to
            (answer (GhostCore.intent_recognizer self) s)
            (GhostCore.with_intent_recognizer
               (snd (predict_intent s (GhostCore.intent_recognizer self)))
               self))).
Proof.
  intros Ht Hd. unfold GhostCore._process_command.
  rewrite Ht, Hd. cbn [andb].
  rewrite (predict_intent_ok s (GhostCore.intent_recognizer self)).
  now destruct (GhostCore.answer_to _ _).
Qed.

Lemma answer_to_state (r : recognition) (self : GhostCore.t) :
  snd (GhostCore.answer_to r self)
  = if intent_of r =? "exit" then GhostCore.stop self else self.
Proof.
  destruct r as [[[i e] ty] c]. unfold GhostCore.answer_to, intent_of.
  cbn [fst snd].
  destruct (String.eqb_spec i "system_info") as [->|N1]; [reflexivity|].
  destruct (String.eqb_spec i "greeting") as [->|N2]; [reflexivity|].
  destruct (String.eqb_spec i "exit") as [->|N3]; [reflexivity|].
  destruct (String.eqb_spec i "get_weather") as [->|N4].
  { now destruct (match e with Some _ => _ | None => _ end). }
  destruct (String.eqb_spec i "get_info") as [->|N5]; [reflexivity|].
  destruct (_ || _); [reflexivity|].
  now destruct (LearningAssistant.get_action_for_intent i e).
Qed.

Lemma answer_to_clarification (r : recognition) (self : GhostCore.t) :
  fst (GhostCore.answer_to r self) = GhostCore.clarification <->
  mem (intent_of r)
      ["system_info"; "greeting"; "exit"; "get_weather"; "get_info"] = false
  /\ (intent_of r =? "unknown")
     || Qltb (confidence_of r)
             (confidence_threshold (GhostCore.intent_recognizer self))
     = true.
Proof.
  destruct r as [[[i e] ty] c].
  unfold GhostCore.answer_to, intent_of, confidence_of, mem.
  cbn [fst snd existsb].
  destruct (String.eqb_spec i "system_info") as [->|N1].
  { cbn. split; [|intros [? _]; discriminate].
    now destruct (LearningAssistant.is_str e "your name"),
      (LearningAssistant.is_str e "creator"),
      (LearningAssistant.is_str e "capabilities"). }
  destruct (String.eqb_spec i "greeting") as [->|N2].
  { cbn. split; [discriminate | intros [? _]; discriminate]. }
  destruct (String.eqb_spec i "exit") as [->|N3].
  { cbn. split; [discriminate | intros [? _]; discriminate]. }
  destruct (String.eqb_spec i "get_weather") as [->|N4].
  { cbn [orb]. split; [|intros [? _]; discriminate].
    destruct e as [e|]; [destruct (truthy e)|];
      rewrite search_on_google_eq; discriminate. }
  destruct (String.eqb_spec i "get_info") as [->|N5].
  { cbn [orb]. split; [|intros [? _]; discriminate].
    destruct (LearningAssistant.given e); [|discriminate].
    rewrite wikipedia_search_eq, search_on_google_eq. discriminate. }
  cbn [orb].
  destruct ((i =? "unknown") || Qltb c _) eqn:Hu.
  - cbn [fst]. tauto.
  - split; [|intros [_ ?]; discriminate].
    destruct (LearningAssistant.get_action_for_intent i e) as [[f|] args];
      discriminate.
Qed.

(** X19.  A known intent is never turned away for low confidence.  When
    the recogniser's threshold is at most 0.8 (it is 0.6), a command other
    than the activation and "deactivate" is answered with one of the three
    requests to rephrase exactly when the recogniser returns the intent
    "unknown": the test [confidence < threshold] of the caller never
    decides. *)
Theorem process_command_clarifies_unknown (s : string) (self : GhostCore.t) :
  truthy s = true -> (lower s =? "deactivate") = false ->
  (confidence_threshold (GhostCore.intent_recognizer self) <= float_0_8)%Q ->
  (fst (GhostCore._process_command (Some s) false self)
   = Some GhostCore.clarification
   <-> intent_of (answer (GhostCore.intent_recognizer self) s) = "unknown").
Proof.
  intros Ht Hd Hthr. rewrite (process_command_text s self Ht Hd).
  cbn [fst].
  set (st := GhostCore.intent_recognizer self) in *.
  destruct (predict_intent_shape s st _ _ (predict_intent_ok s st))
    as (_ & _ & Hconf).
  split.
  - intro H. injection H as H. apply answer_to_clarification in H.
    destruct H as [_ H]. apply orb_true_iff in H as [H|H].
    + now apply String.eqb_eq.
    + cbn [GhostCore.intent_recognizer GhostCore.with_intent_recognizer] in H.
      rewrite predict_intent_threshold in H. fold st in H.
      unfold Qltb in H. apply negb_true_iff in H.
      destruct Hconf as [Hu|[H8|Hc]]; [exact Hu| |].
      * exfalso. assert (Hle : Qle_bool (confidence_threshold st)
                                 (confidence_of (answer st s)) = true)
          by (apply Qle_bool_iff; eapply Qle_trans; eassumption).
        congruence.
      * exfalso. apply Qle_bool_iff in Hc. congruence.
  - intro Hu. f_equal. apply answer_to_clarification.
    rewrite Hu. split; reflexivity.
Qed.

(** X20.  [_process_command] ends the session in two cases only: the
    command "deactivate" (in any case of letters), and a command the
    recogniser answers with the intent "exit".  Then [_is_running] and the
    voice recogniser's [is_active] are both cleared; otherwise both are as
    before.  The recogniser is asked at most once, and not at all for the
    activation, for "deactivate" and for an empty or missing text. *)
Theorem process_command_stops_iff (text : option string)
    (is_activation : bool) (self : GhostCore.t) :
  let self' := snd (GhostCore._process_command text is_activation self) in
  let st := GhostCore.intent_recognizer self in
  let stopped :=
    deactivates text is_activation
    \/ exists s, consults text is_activation = Some s
                 /\ intent_of (answer st s) = "exit" in
  (stopped ->
   GhostCore._is_running self' = false
   /\ GhostCore.voice_is_active self' = false)
  /\ (~ stopped ->
      GhostCore._is_running self' = GhostCore._is_running self
      /\ GhostCore.voice_is_active self' = GhostCore.voice_is_active self)
  /\ GhostCore.assistant_name self' = GhostCore.assistant_name self
  /\ GhostCore.intent_recognizer self'
     = match consults text is_activation with
       | Some s => snd (predict_intent s st)
       | None => st
       end.
Proof.
  cbv zeta. unfold deactivates, consults.
  destruct is_activation.
  { cbn. split; [|auto].
    intros [[? _] | (s & ? & _)]; discriminate. }
  destruct text as [s|].
  2:{ cbn. split; [|auto].
      intros [[_ (s & ? & _)] | (s & ? & _)]; discriminate. }
  destruct (truthy s) eqn:Ht.
  2:{ unfold GhostCore._process_command. rewrite Ht. cbn.
      split; [|auto].
      intros [[_ (s' & E & Ht' & _)] | (s' & ? & _)]; [|discriminate].
      injection E as <-. congruence. }
  destruct (String.eqb_spec (lower s) "deactivate") as [Hd|Hd].
  { unfold GhostCore._process_command. rewrite Ht.
    rewrite (proj2 (String.eqb_eq _ _) Hd). cbn.
    split; [auto|]. split; [|auto].
    intro H. exfalso. apply H. left. split; [reflexivity|].
    exists s. auto. }
  apply String.eqb_neq in Hd.
  rewrite (process_command_text s self Ht Hd), answer_to_state.
  cbn [andb negb snd].
  destruct (String.eqb_spec
              (intent_of (answer (GhostCore.intent_recognizer self) s))
              "exit") as [He|He].
  - cbn. split; [auto|]. split; [|auto].
    intro H. exfalso. apply H. right. exists s. auto.
  - cbn. split; [|auto].
    intros [[_ (s' & E & _ & Hl)] | (s' & E & Hx)].
    + injection E as <-. apply String.eqb_neq in Hd. contradiction.
    + injection E as <-. contradiction.
Qed.

(** X21.  A stop word ends the session.  Whenever the recogniser falls
    back on the pattern table (no usable classifier, a confidence under the
    threshold, or an exception while classifying) and the first pattern
    that matches the lower-cased command belongs to "exit", the command is
    answered with a farewell and the session ends, whatever else the
    command says. *)
Theorem stop_word_ends_session (s : string) (self : GhostCore.t)
    (incoming : Q) :
  blank s = false -> (lower s =? "deactivate") = false ->
  fallback_invoked (GhostCore.intent_recognizer self) (_preprocess_text s)
                   incoming ->
  first_pattern common_patterns (lower s) = Some "exit" ->
  fst (GhostCore._process_command (Some s) false self) = Some farewell
  /\ GhostCore._is_running
       (snd (GhostCore._process_command (Some s) false self)) = false
  /\ GhostCore.voice_is_active
       (snd (GhostCore._process_command (Some s) false self)) = false.
Proof.
  intros Hb Hd Hinv Hfirst.
  assert (Ht : truthy s = true).
  { unfold blank in Hb. apply orb_false_iff in Hb as [_ Hb].
    apply negb_false_iff in Hb. destruct s; [discriminate | reflexivity]. }
  rewrite (process_command_text s self Ht Hd).
  rewrite (answer_fallback s _ incoming Hb Hinv).
  unfold _fallback_intent. cbv zeta. rewrite Hfirst.
  cbn. repeat split.
Qed.

(** X22.  The weather and information branches always find their action.
    A "get_weather" answer is turned into a Google search for
    "<entity> weather", or for "current weather" when there is no entity;
    a "get_info" answer with an entity into a Wikipedia search for the
    entity, with a Google search for it in reserve; without an entity the
    user is asked what to look for.  The apologies "I can't get the weather
    right now." and "I can't find information on that." are never given. *)
Theorem weather_and_information_are_searched (r : recognition)
    (self : GhostCore.t) :
  (intent_of r = "get_weather" ->
   fst (GhostCore.answer_to r self)
   = GhostCore.Await "search_on_google"
       [("query",
         Some (match entity_of r with
               | Some e => if truthy e then e ++ " weather"
                           else "current weather"
               | None => "current weather"
               end))])
  /\ (intent_of r = "get_info" ->
      fst (GhostCore.answer_to r self)
      = if LearningAssistant.given (entity_of r)
        then GhostCore.AwaitWikipedia
               "wikipedia_search" [("query", entity_of r)]
               (Some "search_on_google") [("query", entity_of r)]
        else GhostCore.Say "What information are you looking for?")
  /\ fst (GhostCore.answer_to r self)
     <> GhostCore.Say "I can't get the weather right now."
  /\ fst (GhostCore.answer_to r self)
     <> GhostCore.Say "I can't find information on that.".
Proof.
  destruct r as [[[i e] ty] c].
  unfold GhostCore.answer_to, intent_of, entity_of. cbn [fst snd].
  destruct (String.eqb_spec i "system_info") as [->|N1].
  { cbn. repeat split; try discriminate;
      destruct (LearningAssistant.is_str e "your name"),
        (LearningAssistant.is_str e "creator"),
        (LearningAssistant.is_str e "capabilities"); discriminate. }
  destruct (String.eqb_spec i "greeting") as [->|N2].
  { cbn. repeat split; discriminate. }
  destruct (String.eqb_spec i "exit") as [->|N3].
  { cbn. repeat split; discriminate. }
  destruct (String.eqb_spec i "get_weather") as [->|N4].
  { destruct e as [e|]; [destruct (truthy e) eqn:Ht|];
      rewrite search_on_google_eq; cbn [fst];
      repeat split; try discriminate.
    intros _. cbn. now destruct e. }
  destruct (String.eqb_spec i "get_info") as [->|N5].
  { destruct (LearningAssistant.given e) eqn:Hg.
    - rewrite wikipedia_search_eq, search_on_google_eq, Hg. cbn [fst].
      repeat split; discriminate.
    - cbn [fst]. repeat split; discriminate. }
  destruct (_ || _).
  { cbn [fst]. repeat split; try discriminate; contradiction. }
  destruct (LearningAssistant.get_action_for_intent i e) as [[f|] args];
    cbn [fst]; repeat split; try discriminate; try contradiction.
Qed.

End CoreProofs.

(* ================================================================== *)
(** ** The query log on a connection that refuses statements *)

Section Refused.

Context {C : Classifier}.

Lemma conn_log_query_eq (text predicted_intent : string) (confidence : Q)
    (w : Conn.Session) :
  Conn._log_query text (Some predicted_intent) (Some confidence) w
  = (Ok tt, Conn.logged w text predicted_intent confidence).
Proof.
  unfold Conn._log_query, Conn.try_except, Conn.bind, Conn.insert_query,
    Conn.commit, Conn.execute, Conn.ret, Conn.logged, Conn.accepted,
    Conn.after_log, query_row.
  destruct w as [st script]. cbn [Conn.self Conn.refused].
  destruct (conn_open st) eqn:E; [|reflexivity].
  destruct script as [|[|] rest]; cbn [hd negb andb sqlite3_Error tl].
  - cbn. now rewrite E.
  - reflexivity.
  - cbn [Conn.self Conn.refused conn_open with_queries]. rewrite E.
    now destruct rest as [|[|] rest'].
Qed.

(** What [predict_intent] settles does not depend on the connection. *)
Lemma predict_intent_decision (text : string) (st : IntentRecognizer) :
  predict_intent text st
  = (Ok (fst (fst (fst (decision st text)))),
     logged (snd (fst (fst (decision st text)))) text
       (snd (fst (decision st text))) (snd (decision st text))).
Proof.
  unfold decision. destruct (blank text) eqn:Hb.
  { now rewrite (predict_intent_blank _ _ Hb). }
  destruct (untrained st) eqn:Hu.
  { now rewrite (predict_intent_untrained _ _ Hb Hu). }
  assert (Hu' := Hu). unfold untrained in Hu'.
  apply orb_false_iff in Hu' as [_ Hm].
  destruct (model st) as [m|] eqn:Em; [clear Hm | discriminate].
  destruct (predict m (_preprocess_text text)) as [label|] eqn:Hp;
    [destruct (max_proba m (_preprocess_text text)) as [p|] eqn:Hq|].
  - now rewrite (predict_intent_classified _ _ _ _ _ Hb Hu Em Hp Hq).
  - unfold predict_intent. unfold blank in Hb.
    apply orb_false_iff in Hb as [H1 H2]. rewrite H1. cbv zeta.
    rewrite H2. unfold try_except, bind at 1, get. fold (untrained st).
    rewrite Hu. unfold bind at 1. unfold bind at 1.
    unfold model_predict at 1. rewrite Em, Hp.
    unfold bind at 1. unfold model_confidence at 1.
    cbn [model count_call]. rewrite Em, Hq.
    fold (count_call (count_call st)).
    unfold bind. now rewrite log_query_eq.
  - unfold predict_intent. unfold blank in Hb.
    apply orb_false_iff in Hb as [H1 H2]. rewrite H1. cbv zeta.
    rewrite H2. unfold try_except, bind at 1, get. fold (untrained st).
    rewrite Hu. unfold bind at 1. unfold bind at 1.
    unfold model_predict at 1. rewrite Em, Hp.
    unfold bind. now rewrite log_query_eq.
Qed.

Lemma conn_predict_intent_decision (text : string) (w : Conn.Session) :
  Conn.predict_intent text w
  = (Ok (fst (fst (fst (decision (Conn.self w) text)))),
     Conn.logged
       (Conn.with_self (snd (fst (fst (decision (Conn.self w) text)))) w)
       text (snd (fst (decision (Conn.self w) text)))
       (snd (decision (Conn.self w) text))).
Proof.
  destruct w as [st script]. cbn [Conn.self].
  unfold decision, Conn.predict_intent, blank.
  destruct (truthy (strip text)) eqn:H1; cbn [negb orb].
  2:{ unfold Conn.bind. rewrite conn_log_query_eq. reflexivity. }
  cbv zeta.
  destruct (truthy (_preprocess_text text)) eqn:H2; cbn [negb].
  2:{ unfold Conn.bind. rewrite conn_log_query_eq. reflexivity. }
  unfold Conn.try_except, Conn.bind at 1, Conn.lift at 1, get.
  cbn [Conn.self Conn.with_self Conn.refused]. fold (untrained st).
  destruct (untrained st) eqn:Hu.
  { unfold Conn.bind at 1, Conn.ret at 1.
    destruct (_fallback_intent text 0%Q) as [[[i e] t] c] eqn:E.
    unfold Conn.bind. now rewrite conn_log_query_eq. }
  assert (Hu' := Hu). unfold untrained in Hu'.
  apply orb_false_iff in Hu' as [_ Hm].
  destruct (model st) as [m|] eqn:Em; [clear Hm | discriminate].
  unfold Conn.bind at 1. unfold Conn.bind at 1.
  unfold Conn.lift at 1, model_predict at 1.
  cbn [Conn.self Conn.with_self Conn.refused]. rewrite Em.
  destruct (predict m (_preprocess_text text)) as [label|] eqn:Hp.
  - unfold Conn.bind at 1. unfold Conn.lift at 1, model_confidence at 1.
    cbn [Conn.self Conn.with_self Conn.refused model count_call].
    rewrite Em.
    destruct (max_proba m (_preprocess_text text)) as [p|] eqn:Hq.
    + fold (count_call (count_call st)). unfold classified.
      destruct (Qltb p (confidence_threshold st)); unfold Conn.ret at 1.
      * destruct (_fallback_intent text p) as [[[i e] t] c] eqn:E.
        unfold Conn.bind. now rewrite conn_log_query_eq.
      * unfold Conn.bind. now rewrite conn_log_query_eq.
    + fold (count_call (count_call st)). cbn [Exception].
      unfold Conn.bind. now rewrite conn_log_query_eq.
  - cbn [Exception]. unfold Conn.bind. now rewrite conn_log_query_eq.
Qed.

End Refused.

Section Decisions.

Context {C : Classifier}.

Lemma decision_answer (text : string) (st : IntentRecognizer) :
  fst (fst (fst (decision st text))) = answer st text.
Proof.
  pose proof (predict_intent_answer text st) as H.
  rewrite predict_intent_decision in H. cbn [fst] in H. congruence.
Qed.











End Decisions.

(** On a connection that refuses nothing, [predict_intent] is the
    [predict_intent] of the connection's own thread. *)
Lemma conn_predict_intent_accepting {C : Classifier} (text : string)
    (st : IntentRecognizer) :
  Conn.predict_intent text {| Conn.self := st; Conn.refused := [] |}
  = (fst (predict_intent text st),
     {| Conn.self := snd (predict_intent text st); Conn.refused := [] |}).
Proof.
  rewrite conn_predict_intent_decision, predict_intent_decision.
  cbn [fst snd Conn.self]. f_equal.
  unfold Conn.logged, Conn.accepted, Conn.after_log, logged.
  cbn [Conn.self Conn.with_self Conn.refused hd negb].
  rewrite andb_true_r.
  now destruct (conn_open (snd (fst (fst (decision st text))))).
Qed.

(* ================================================================== *)
(** ** Instances of the further properties *)

Lemma store_stays_wellformed_witness :
  wellformed_store trained_sparse_recognizer
  /\ wellformed_store
       (snd (provide_feedback "Turn it off!" "Exit" trained_sparse_recognizer)).
Proof.
  assert (H : wellformed_store trained_sparse_recognizer)
    by (repeat constructor).
  split; [exact H|].
  exact (proj1 (proj2 (store_stays_wellformed trained_sparse_recognizer H))
           "Turn it off!" "Exit").
Defined.

(** The third example for "exit" makes the store trainable: the example is
    stored and the pipeline refitted. *)
Lemma add_training_example_outcome_witness :
  add_training_example "Goodbye, Ghost!" "Exit" "user" trained_sparse_recognizer
  = (Ok true,
     @fitted (constant_classifier "greeting" (9 # 10)) tt
       (inserted trained_sparse_recognizer "Goodbye, Ghost!" "Exit" "user")).
Proof.
  destruct (add_training_example_outcome "Goodbye, Ghost!" "Exit" "user"
              trained_sparse_recognizer) as [_ H].
  destruct (H eq_refl eq_refl) as [_ Hopen].
  exact (proj2 (Hopen eq_refl)).
Defined.

Lemma train_model_succeeds_iff_witness :
  (~ insufficient_data ample_recognizer /\ ~ sparse_class ample_recognizer)
  /\ is_trained (snd (_train_model ample_recognizer)) = true.
Proof.
  destruct (train_model_succeeds_iff ample_recognizer eq_refl)
    as [Hiff Hpost].
  split.
  - exact (proj1 (proj1 Hiff eq_refl)).
  - exact (proj1 (Hpost eq_refl)).
Defined.

(** "hey" comes first although "time" occurs too. *)
Lemma fallback_intent_first_match_witness :
  _fallback_intent "Hey, what time is it?" 0%Q
  = ("greeting", None, "greeting", pymax 0%Q float_0_8).
Proof.
  exact (proj2 (proj2 (fallback_intent_first_match "Hey, what time is it?"
                         0%Q)) eq_refl).
Defined.

(** The classifier says "get_time" at 0.5, below the threshold; the
    fallback matcher reports it at 0.8. *)
Lemma predict_intent_result_shape_witness :
  exists r st',
    predict_intent "what time is it" unsure_recognizer = (Ok r, st')
    /\ intent_of r = "get_time"
    /\ intent_type_of r = intent_type_for (intent_of r)
    /\ ~ (confidence_of r < confidence_threshold unsure_recognizer)%Q.
Proof.
  assert (E : predict_intent "what time is it" unsure_recognizer
              = (Ok ("get_time", None, "time_query", float_0_8),
                 snd (predict_intent "what time is it" unsure_recognizer)))
    by (vm_compute; reflexivity).
  destruct (predict_intent_result_shape _ _ _ _ E) as (Ht & _ & _ & Hc).
  eexists _, _. split; [exact E|]. split; [reflexivity|].
  split; [exact Ht|].
  apply Hc; [vm_compute | cbn]; discriminate.
Defined.

(** Feedback with a blank label leaves the logged query unmarked. *)
Lemma provide_feedback_marks_one_query_witness :
  queries (snd (provide_feedback "helo" "  " asked_once)) = queries asked_once.
Proof.
  exact (proj2 (proj2 (provide_feedback_marks_one_query "helo" "  "
                         asked_once))
           (or_intror (or_introl eq_refl))).
Defined.

Lemma get_uncertain_queries_spec_witness :
  exists rows,
    get_uncertain_queries float_0_7 asked_once
    = (Ok (map (fun q => (q_text q, q_confidence q)) rows), asked_once)
    /\ Permutation rows (filter (uncertain float_0_7) (queries asked_once))
    /\ StronglySorted newer_first rows.
Proof.
  destruct (get_uncertain_queries_spec float_0_7 asked_once)
    as (rows & E & _ & H).
  destruct (H eq_refl) as (Hp & Hs & _).
  exists rows. split; [exact E|]. split; [exact Hp | exact Hs].
Defined.

Lemma after_close_witness :
  fst (predict_intent "hello" (snd (close trained_sparse_recognizer)))
  = fst (predict_intent "hello" trained_sparse_recognizer)
  /\ provide_feedback "hello" "greeting" (snd (close trained_sparse_recognizer))
     = (Raised SqliteError, snd (close trained_sparse_recognizer)).
Proof.
  destruct (after_close trained_sparse_recognizer)
    as (_ & _ & _ & Hp & _ & _ & Hf & _).
  split; [exact (proj1 (Hp "hello"))|].
  exact (Hf "hello" "greeting" eq_refl eq_refl).
Defined.

(** A model file that does not unpickle: [is_trained] is set, and "hello"
    is answered by the fallback matcher. *)
Lemma initialize_model_with_file_witness :
  is_trained
    (Persist.self
       (snd (Persist._initialize_model fresh_pipeline corrupt_file_world)))
  = true
  /\ fst (predict_intent "hello"
            (Persist.self
               (snd (Persist._initialize_model fresh_pipeline
                       corrupt_file_world))))
     = Ok (_fallback_intent "hello" 0%Q).
Proof.
  destruct (initialize_model_with_file fresh_pipeline corrupt_file_world
              (or_introl eq_refl)) as (_ & Ht & _ & _ & _ & _ & Hp).
  split; [exact Ht | exact (Hp eq_refl eq_refl "hello")].
Defined.

Lemma init_on_first_start_witness :
  fst (Persist.__init__ fresh_pipeline first_environment) = Ok tt
  /\ is_trained
       (Persist.self (snd (Persist.__init__ fresh_pipeline first_environment)))
     = true
  /\ Persist.model_path
       (snd (Persist.__init__ fresh_pipeline first_environment))
     = Persist.Pickle (Some fresh_pipeline)
  /\ List.length
       (training_data
          (Persist.self
             (snd (Persist.__init__ fresh_pipeline first_environment))))
     = 46%nat.
Proof.
  destruct (init_on_first_start fresh_pipeline first_environment
              eq_refl eq_refl
              (or_introl eq_refl))
    as (Hr & Hd & Hlen & _ & Ht & Hf & _).
  split; [exact Hr|]. split; [exact Ht|]. split; [exact Hf|].
  rewrite Hd. exact Hlen.
Defined.

Lemma add_initial_examples_once_witness :
  training_data (snd (_add_initial_examples untrained_recognizer))
  = initial_rows 0%Z
  /\ _add_initial_examples (snd (_add_initial_examples untrained_recognizer))
     = (Ok tt, snd (_add_initial_examples untrained_recognizer)).
Proof.
  destruct (proj2 (add_initial_examples_once untrained_recognizer) eq_refl)
    as (_ & _ & Hd & Hagain).
  split; [exact (Hd eq_refl) | exact Hagain].
Defined.

(** "London" is found behind the preposition and returned in lower case. *)
Lemma extract_location_from_text_witness :
  _extract_location "Weather in London please" = Some "london"
  /\ contains (lower "Weather in London please") "london" = true.
Proof.
  assert (E : _extract_location "Weather in London please" = Some "london")
    by (vm_compute; reflexivity).
  split; [exact E|].
  destruct (extract_location_from_text _ _ E) as [[H _] | (runs & _ & _ & _)].
  - exact H.
  - vm_compute. reflexivity.
Defined.

(** The entity becomes the query of [play_on_youtube]; [check_user_db]
    ignores it and keeps its open argument. *)
Lemma get_action_for_intent_fills_open_arguments_witness :
  (exists args,
     LearningAssistant.get_action_for_intent "play_on_youtube" (Some "lofi")
     = (Some "play_on_youtube", args)
     /\ LearningAssistant.get "query" args = Some (Some "lofi"))
  /\ (exists args,
        LearningAssistant.get_action_for_intent "check_user_db" (Some "Ann")
        = (Some "check_user_in_database", args)
        /\ args = [("name", None)]).
Proof.
  split.
  - destruct (proj2 (get_action_for_intent_fills_open_arguments
                       "play_on_youtube" (Some "lofi"))
                "play_on_youtube" [("query", None)] eq_refl)
      as (args & E & _ & Hq & _).
    exists args. split; [exact E | exact (Hq eq_refl eq_refl)].
  - destruct (proj2 (get_action_for_intent_fills_open_arguments
                       "check_user_db" (Some "Ann"))
                "check_user_in_database" [("name", None)] eq_refl)
      as (args & E & _ & _ & _ & Hd).
    exists args. split; [exact E | exact (Hd (or_intror eq_refl))].
Defined.

(** The classifier says "get_time" at 0.5 for a word no pattern matches:
    the answer is a request to rephrase. *)
Lemma process_command_clarifies_unknown_witness :
  fst (GhostCore._process_command (Some "blorp") false
         (running_core unsure_recognizer))
  = Some GhostCore.clarification.
Proof.
  apply (process_command_clarifies_unknown "blorp"
           (running_core unsure_recognizer)); try reflexivity.
  vm_compute. discriminate.
Defined.

Lemma process_command_stops_iff_witness :
  GhostCore._is_running
    (snd (GhostCore._process_command (Some "Deactivate") false
            (running_core untrained_recognizer))) = false
  /\ GhostCore._is_running
       (snd (GhostCore._process_command (Some "goodbye") false
               (running_core untrained_recognizer))) = false.
Proof.
  split.
  - apply (process_command_stops_iff (Some "Deactivate") false
             (running_core untrained_recognizer)).
    left. split; [reflexivity|]. exists "Deactivate". repeat split.
  - apply (process_command_stops_iff (Some "goodbye") false
             (running_core untrained_recognizer)).
    right. exists "goodbye". split; reflexivity.
Defined.

(** "stop" occurs in the command and no earlier pattern does. *)
Lemma stop_word_ends_session_witness :
  fst (GhostCore._process_command (Some "don't stop the music") false
         (running_core untrained_recognizer))
  = Some farewell
  /\ GhostCore._is_running
       (snd (GhostCore._process_command (Some "don't stop the music") false
               (running_core untrained_recognizer))) = false.
Proof.
  assert (Hinv : fallback_invoked untrained_recognizer
                   (_preprocess_text "don't stop the music") 0%Q)
    by (apply fallback_untrained; reflexivity).
  destruct (stop_word_ends_session "don't stop the music"
              (running_core untrained_recognizer) 0%Q
              eq_refl eq_refl Hinv eq_refl)
    as (Hr & Hs & _).
  split; [exact Hr | exact Hs].
Defined.

Lemma weather_and_information_are_searched_witness :
  fst (GhostCore.answer_to
         ("get_weather", Some "london", "weather_query", float_0_8)
         (running_core untrained_recognizer))
  = GhostCore.Await "search_on_google" [("query", Some "london weather")].
Proof.
  exact (proj1 (weather_and_information_are_searched
                  ("get_weather", Some "london", "weather_query", float_0_8)
                  (running_core untrained_recognizer)) eq_refl).
Defined.







